(** * discord-stats: the message statistics collector

    A shallow embedding of [discord_stats/collectors/message_stats.py]:
    the [MessageStatisticsData] container with its ranking queries, and the
    [MessageStatisticsCollector] that walks a guild's channels and threads
    and feeds every message to the container.

    Conventions of the embedding.
    - Python [int] is [Z]; Python [str] is [string].
    - A [Counter] or [dict] is an association list in insertion order with
      unique keys, as CPython dictionaries iterate in insertion order and
      [Counter.most_common] breaks ties by that order.
    - A finite [float] is the rational it denotes. The percentages of the
      ranking queries are binary64 numbers: each operation is the exact
      result rounded to the nearest binary64 value, ties to even. The daily
      average is stated as the exact quotient.
    - Attribute reads and library calls that can raise are values of
      [outcome]; [exn] stands for the subclasses of Python's [Exception].
    - The collector runs in a small state-and-exception monad over the
      statistics object and the trace of log records and history requests. *)

From Stdlib Require Import ZArith QArith List String Ascii Bool Lia.
From Stdlib Require Import Qabs Qpower Lqa.
From Stdlib Require Floats.
From Stdlib Require Import Permutation Sorted.
From Stdlib Require Import Decimal DecimalString.
From Stdlib Require DecimalPos DecimalZ.
Import ListNotations.

Local Open Scope string_scope.
Local Open Scope Z_scope.

(** ** Exceptions and fallible reads *)

(** Exceptions deriving from [Exception] that the collector can meet.
    [Forbidden] is [discord.errors.Forbidden]. *)
Inductive exn : Type :=
| AttributeError
| Forbidden
| HTTPException
| OtherException (what : string).

Inductive outcome (A : Type) : Type :=
| Ok (a : A)
| Raise (e : exn).

Arguments Ok {A} a.
Arguments Raise {A} e.

(** ** Insertion-ordered dictionaries and counters *)

Module Dict.
Section WithValue.
Context {V : Type}.

Definition t := list (string * V).

(** [d.get(k)] *)
Fixpoint get (k : string) (d : t) : option V :=
  match d with
  | [] => None
  | (k', v) :: d' => if String.eqb k k' then Some v else get k d'
  end.

(** [d[k] = v]: an existing key keeps its position, a new one goes last. *)
Fixpoint set (k : string) (v : V) (d : t) : t :=
  match d with
  | [] => [(k, v)]
  | (k', v') :: d' =>
      if String.eqb k k' then (k', v) :: d' else (k', v') :: set k v d'
  end.

Definition keys (d : t) : list string := map fst d.
Definition values (d : t) : list V := map snd d.
End WithValue.
Arguments t : clear implicits.
End Dict.

Module Counter.
Definition t := Dict.t Z.

(** [c[k]]: [Counter.__missing__] answers 0 for an absent key. *)
Definition get (k : string) (c : t) : Z :=
  match Dict.get k c with
  | Some v => v
  | None => 0
  end.

(** [c[k] += n], that is [c[k] = c[k] + n]. *)
Definition add (k : string) (n : Z) (c : t) : t :=
  Dict.set k (get k c + n) c.

(** [sum(c.values())] *)
Definition total (c : t) : Z :=
  fold_right Z.add 0 (Dict.values c).

(** Stable insertion of an item in a list sorted by decreasing count:
    the item goes in front of the first one whose count is not larger. *)
Fixpoint insert_desc (x : string * Z) (l : list (string * Z))
  : list (string * Z) :=
  match l with
  | [] => [x]
  | y :: l' =>
      if snd x <? snd y then y :: insert_desc x l' else x :: y :: l'
  end.

(** [sorted(c.items(), key=itemgetter(1), reverse=True)]: Python's sort
    is stable, also with [reverse=True]. *)
Fixpoint sorted_desc (l : list (string * Z)) : list (string * Z) :=
  match l with
  | [] => []
  | x :: l' => insert_desc x (sorted_desc l')
  end.

(** [c.most_common(n)] for an integer [n]: [heapq.nlargest(n, c.items(),
    key=itemgetter(1))], documented as
    [sorted(c.items(), key=itemgetter(1), reverse=True)[:n]] for [n >= 0]
    and returning the empty list for negative [n]. *)
Definition most_common (n : Z) (c : t) : list (string * Z) :=
  firstn (Z.to_nat n) (sorted_desc c).
End Counter.

(** ** Messages *)

(** [message.author]: [author_bot = None] when the object has no [bot]
    attribute, [author_display_name = None] when it has no [display_name]. *)
Record Author : Type := {
  author_id : Z;
  author_bot : option bool;
  author_display_name : option string
}.

(** An attachment; reading [content_type] yields [None], a string, or raises. *)
Record Attachment : Type := {
  content_type : outcome (option string)
}.

Record Message : Type := {
  msg_author : Author;
  msg_channel_id : Z;
  msg_attachments : outcome (list Attachment)
}.

(** [str(n)] for an integer. *)
Definition str_of_int (n : Z) : string :=
  NilZero.string_of_int (Z.to_int n).

(** [s.startswith(p)] *)
Definition startswith (p s : string) : bool := String.prefix p s.

(** ** Binary64 floats *)

(** A finite Python [float] is modelled by the rational it denotes, and an
    arithmetic operation by the exact result rounded to the nearest
    binary64 value, ties to even (IEEE 754, which CPython's floats follow).
    Infinities, NaN and the [OverflowError] of a quotient beyond the float
    range are not modelled: a ranked count never exceeds its total, so no
    value here exceeds 100. *)

(** The integer nearest to [n / d], for [0 < d]; a tie goes to the even
    neighbour. *)
Definition nearest_even (n d : Z) : Z :=
  let q := n / d in
  match 2 * (n mod d) ?= d with
  | Lt => q
  | Gt => q + 1
  | Eq => if Z.even q then q else q + 1
  end.

Definition round_half_even (x : Q) : Z := nearest_even (Qnum x) (QDen x).

(** [floor (log2 x)] for [0 < x]. *)
Definition floor_log2 (x : Q) : Z :=
  let l := Z.log2 (Qnum x) - Z.log2 (QDen x) in
  if Qle_bool (2 ^ l) x then l else l - 1.

(** The exponent of the last place of the binary64 values around [x]:
    53 significant bits, and no exponent below -1074. *)
Definition ulp_exponent (x : Q) : Z :=
  Z.max (floor_log2 (Qabs x) - 52) (-1074).

(** The binary64 value nearest to [x], ties to even. *)
Definition binary64 (x : Q) : Q :=
  if Qeq_bool x 0 then 0%Q
  else
    let e := ulp_exponent x in
    (inject_Z (round_half_even (x * 2 ^ (- e))) * 2 ^ e)%Q.

(** Half the spacing of binary64 values relative to their size, and half
    the smallest positive binary64 value. *)
Definition unit_roundoff : Q := (2 ^ (-53))%Q.
Definition half_smallest : Q := (2 ^ (-1075))%Q.

(** [a / b] on two Python integers: the binary64 value nearest to the
    quotient. *)
Definition true_div (a b : Z) : Q := binary64 (inject_Z a / inject_Z b).

(** [x * y] on two floats. *)
Definition float_mul (x y : Q) : Q := binary64 (x * y).

(** The same quotient and product on the kernel's binary64 numbers, for
    integers below 2^53, which convert exactly; the rounding above is
    checked against them. *)
Definition hardware_percent (count total : Z) : PrimFloat.float :=
  let float_of_int z := PrimFloat.of_uint63 (Uint63.of_Z z) in
  PrimFloat.mul (PrimFloat.div (float_of_int count) (float_of_int total))
    (float_of_int 100).

(** The rational a finite binary64 number denotes. *)
Definition Q_of_float (f : PrimFloat.float) : option Q :=
  match FloatOps.Prim2SF f with
  | SpecFloat.S754_zero _ => Some 0%Q
  | SpecFloat.S754_finite negative m e =>
      Some (inject_Z (if negative then Z.neg m else Z.pos m) * 2 ^ e)%Q
  | _ => None
  end.

Definition agrees_with_hardware (count total : Z) : bool :=
  match Q_of_float (hardware_percent count total) with
  | Some q => Qeq_bool q (float_mul (true_div count total) 100)
  | None => false
  end.

(** ** The statistics container *)

Record MessageStatisticsData : Type := {
  total_messages : Z;
  messages_per_author : Counter.t;
  messages_per_author_id : Dict.t string;
  messages_per_channel : Counter.t;
  messages_per_channel_id : Dict.t Z;
  messages_per_thread : Counter.t;
  messages_per_thread_id : Dict.t Z;
  total_thread_messages : Z;
  pictures_per_author : Counter.t;
  total_pictures : Z;
  days_in_period : Z;
  bot_id : option Z
}.

(** [MessageStatisticsData()] *)
Definition new_stats : MessageStatisticsData := {|
  total_messages := 0;
  messages_per_author := [];
  messages_per_author_id := [];
  messages_per_channel := [];
  messages_per_channel_id := [];
  messages_per_thread := [];
  messages_per_thread_id := [];
  total_thread_messages := 0;
  pictures_per_author := [];
  total_pictures := 0;
  days_in_period := 0;
  bot_id := None
|}.

(** [avg_messages_per_day] *)
Definition avg_messages_per_day (s : MessageStatisticsData) : Q :=
  if 0 <? days_in_period s
  then (inject_Z (total_messages s) / inject_Z (days_in_period s))%Q
  else 0%Q.

(** The tuple [(key, count, (count / total) * 100)] of the ranking queries. *)
Definition ranked_entry (total : Z) (item : string * Z) : string * Z * Q :=
  (fst item, snd item, float_mul (true_div (snd item) total) 100).

Definition get_top_posters (s : MessageStatisticsData) (limit : Z)
  : list (string * Z * Q) :=
  if total_messages s =? 0 then []
  else map (ranked_entry (total_messages s))
           (Counter.most_common limit (messages_per_author s)).

Definition get_top_channels (s : MessageStatisticsData) (limit : Z)
  : list (string * Z * Q) :=
  if total_messages s =? 0 then []
  else map (ranked_entry (total_messages s))
           (Counter.most_common limit (messages_per_channel s)).

Definition get_top_picture_posters (s : MessageStatisticsData) (limit : Z)
  : list (string * Z * Q) :=
  if total_pictures s =? 0 then []
  else map (ranked_entry (total_pictures s))
           (Counter.most_common limit (pictures_per_author s)).

Definition get_top_threads (s : MessageStatisticsData) (limit : Z)
  : list (string * Z * Q) :=
  if total_thread_messages s =? 0 then []
  else map (ranked_entry (total_thread_messages s))
           (Counter.most_common limit (messages_per_thread s)).

(** ** Guilds, channels and threads *)

(** A [datetime], as microseconds on the time line. All datetimes are
    points of one time line: comparing or subtracting an offset-aware and
    a naive datetime, which raises [TypeError] in Python, is outside the
    embedding. *)
Definition datetime := Z.

(** What iterating [channel.history(limit=None, after=..., before=...)]
    does: it yields [h_messages] in order and then either ends or raises
    [h_error]. *)
Record History : Type := {
  h_messages : list Message;
  h_error : option exn
}.

Record Thread : Type := {
  thread_name : string;
  (** [thread.permissions_for(thread.guild.me).read_message_history] *)
  thread_read_message_history : bool;
  thread_history : datetime -> datetime -> History
}.

Record TextChannel : Type := {
  channel_name : string;
  (** [channel.permissions_for(channel.guild.me).read_message_history] *)
  channel_read_message_history : bool;
  channel_history : datetime -> datetime -> History;
  (** reading [channel.threads] *)
  channel_threads : outcome (list Thread)
}.

(** The members of [guild.channels]; only [TextChannel] instances are
    walked. *)
Inductive GuildChannel : Type :=
| IsTextChannel (c : TextChannel)
| IsOtherChannel (name : string).

Record Guild : Type := {
  guild_name : string;
  guild_id : Z;
  guild_channels : list GuildChannel
}.

(** The argument of [_process_channel]: [TextChannel | Thread]. *)
Inductive Messageable : Type :=
| OfChannel (c : TextChannel)
| OfThread (t : Thread).

(** ** The collector's effects *)

(** The log records of the module, in the order of the source, and the
    history requests sent to the chat service. *)
Inductive Event : Type :=
| LogCollecting (guild : string) (id : Z)
| LogFoundChannels (n : Z)
| LogSkippingChannel (name : string)
| LogProcessingChannel (name : string)
| LogFoundThreads (n : Z) (name : string)
| LogProcessingThread (name : string)
| LogThreadsUnavailable (name : string) (e : exn)
| LogFetchError (channel_name : string) (e : exn)
| LogAttachmentError (e : exn)
| LogComplete (total : Z) (channels : Z)
| HistoryRequest (channel_name : string) (after before : datetime).

Record World : Type := {
  w_stats : MessageStatisticsData;
  w_trace : list Event
}.

(** Computations that read and update the statistics object, extend the
    trace, and return or raise. *)
Definition M (A : Type) : Type := World -> outcome A * World.

Definition ret {A} (a : A) : M A := fun w => (Ok a, w).

Definition bind {A B} (c : M A) (k : A -> M B) : M B :=
  fun w =>
    match c w with
    | (Ok a, w') => k a w'
    | (Raise e, w') => (Raise e, w')
    end.

Definition lift {A} (o : outcome A) : M A := fun w => (o, w).

(** [try: body  except <classes> as e: handler] *)
Definition try_except {A} (body : M A) (catches : exn -> bool)
    (handler : exn -> M A) : M A :=
  fun w =>
    match body w with
    | (Ok a, w') => (Ok a, w')
    | (Raise e, w') => if catches e then handler e w' else (Raise e, w')
    end.

Definition emit (ev : Event) : M unit :=
  fun w =>
    (Ok tt, {| w_stats := w_stats w; w_trace := (w_trace w ++ [ev])%list |}).

Definition modify (f : MessageStatisticsData -> MessageStatisticsData)
  : M unit :=
  fun w => (Ok tt, {| w_stats := f (w_stats w); w_trace := w_trace w |}).

Definition get_stats : M MessageStatisticsData :=
  fun w => (Ok (w_stats w), w).

Notation "x <- c ;; k" := (bind c (fun x => k))
  (at level 61, c at next level, right associativity).
Notation "c ;; k" := (bind c (fun _ => k))
  (at level 61, right associativity).

(** [for x in l: body x] *)
Fixpoint for_each {A} (l : list A) (body : A -> M unit) : M unit :=
  match l with
  | [] => ret tt
  | x :: l' => body x ;; for_each l' body
  end.

(** [except Exception] *)
Definition any_exception (e : exn) : bool := true.

(** [except (AttributeError, discord.errors.Forbidden)] *)
Definition attribute_error_or_forbidden (e : exn) : bool :=
  match e with
  | AttributeError | Forbidden => true
  | _ => false
  end.

(** ** Processing one message *)

(** [a.content_type and a.content_type.startswith("image/")], as a truth
    value: [None] and the empty string are falsy. *)
Definition is_image (a : Attachment) : outcome bool :=
  match content_type a with
  | Raise e => Raise e
  | Ok None => Ok false
  | Ok (Some ct) =>
      Ok (if String.eqb ct "" then false else startswith "image/" ct)
  end.

(** The list comprehension over [message.attachments]; the first read that
    raises ends it. *)
Fixpoint filter_images (l : list Attachment) : outcome (list Attachment) :=
  match l with
  | [] => Ok []
  | a :: l' =>
      match is_image a with
      | Raise e => Raise e
      | Ok b =>
          match filter_images l' with
          | Raise e => Raise e
          | Ok r => Ok (if b then a :: r else r)
          end
      end
  end.

Definition image_attachments (m : Message) : outcome (list Attachment) :=
  match msg_attachments m with
  | Raise e => Raise e
  | Ok l => filter_images l
  end.

(** [stats.total_pictures += count; stats.pictures_per_author[author_name]
    += count] *)
Definition count_pictures (author_name : string) (count : Z)
    (s : MessageStatisticsData) : MessageStatisticsData :=
  {| total_messages := total_messages s;
     messages_per_author := messages_per_author s;
     messages_per_author_id := messages_per_author_id s;
     messages_per_channel := messages_per_channel s;
     messages_per_channel_id := messages_per_channel_id s;
     messages_per_thread := messages_per_thread s;
     messages_per_thread_id := messages_per_thread_id s;
     total_thread_messages := total_thread_messages s;
     pictures_per_author :=
       Counter.add author_name count (pictures_per_author s);
     total_pictures := total_pictures s + count;
     days_in_period := days_in_period s;
     bot_id := bot_id s |}.

(** [_process_attachments] *)
Definition _process_attachments (m : Message) (author_name : string)
  : M unit :=
  try_except
    (image_attachments <- lift (image_attachments m) ;;
     match image_attachments with
     | [] => ret tt
     | _ :: _ =>
         let count := Z.of_nat (List.length image_attachments) in
         modify (count_pictures author_name count)
     end)
    any_exception
    (fun e => emit (LogAttachmentError e)).

(** [getattr(message.author, "display_name", f"User {message.author.id}")] *)
Definition author_name_of (a : Author) : string :=
  match author_display_name a with
  | Some n => n
  | None => ("User " ++ str_of_int (author_id a))%string
  end.

(** The message counters of [_process_message], from
    [stats.total_messages += 1] to [stats.total_thread_messages += 1]. *)
Definition count_message (m : Message) (channel_name : string)
    (is_thread : bool) (s : MessageStatisticsData) : MessageStatisticsData :=
  let author_name := author_name_of (msg_author m) in
  let author_id := str_of_int (author_id (msg_author m)) in
  {| total_messages := total_messages s + 1;
     messages_per_author := Counter.add author_name 1 (messages_per_author s);
     messages_per_author_id :=
       Dict.set author_name author_id (messages_per_author_id s);
     messages_per_channel :=
       Counter.add channel_name 1 (messages_per_channel s);
     messages_per_channel_id :=
       Dict.set channel_name (msg_channel_id m) (messages_per_channel_id s);
     messages_per_thread :=
       if is_thread
       then Counter.add channel_name 1 (messages_per_thread s)
       else messages_per_thread s;
     messages_per_thread_id :=
       if is_thread
       then Dict.set channel_name (msg_channel_id m)
                     (messages_per_thread_id s)
       else messages_per_thread_id s;
     total_thread_messages :=
       if is_thread then total_thread_messages s + 1
       else total_thread_messages s;
     pictures_per_author := pictures_per_author s;
     total_pictures := total_pictures s;
     days_in_period := days_in_period s;
     bot_id := bot_id s |}.

(** [_process_message]: a message whose author has no [bot] attribute or is
    a bot is skipped. *)
Definition _process_message (m : Message) (channel_name : string)
    (is_thread : bool) : M unit :=
  match author_bot (msg_author m) with
  | Some false =>
      modify (count_message m channel_name is_thread) ;;
      _process_attachments m (author_name_of (msg_author m))
  | _ => ret tt
  end.

(** ** Walking the channels *)

Definition messageable_name (c : Messageable) : string :=
  match c with
  | OfChannel c => channel_name c
  | OfThread t => thread_name t
  end.

Definition messageable_history (c : Messageable)
  : datetime -> datetime -> History :=
  match c with
  | OfChannel c => channel_history c
  | OfThread t => thread_history t
  end.

(** [isinstance(channel, Thread)] *)
Definition is_thread_instance (c : Messageable) : bool :=
  match c with
  | OfChannel _ => false
  | OfThread _ => true
  end.

(** [async for message in channel.history(...)]: the loop body runs on
    every message the stream yields, then the stream's error, if any, is
    raised. *)
Definition iterate_history (h : History) (body : Message -> M unit)
  : M unit :=
  for_each (h_messages h) body ;;
  match h_error h with
  | Some e => lift (Raise e)
  | None => ret tt
  end.

(** [_process_channel] *)
Definition _process_channel (channel : Messageable)
    (start_date end_date : datetime) : M unit :=
  let channel_name := ("#" ++ messageable_name channel)%string in
  let is_thread := is_thread_instance channel in
  try_except
    (emit (HistoryRequest channel_name start_date end_date) ;;
     iterate_history (messageable_history channel start_date end_date)
       (fun message => _process_message message channel_name is_thread))
    any_exception
    (fun e => emit (LogFetchError channel_name e)).

(** [_process_channel_with_threads] *)
Definition _process_channel_with_threads (channel : TextChannel)
    (start_date end_date : datetime) : M unit :=
  if negb (channel_read_message_history channel) then
    emit (LogSkippingChannel (channel_name channel))
  else
    emit (LogProcessingChannel (channel_name channel)) ;;
    _process_channel (OfChannel channel) start_date end_date ;;
    try_except
      (threads <- lift (channel_threads channel) ;;
       match threads with
       | [] => ret tt
       | _ :: _ =>
           emit (LogFoundThreads (Z.of_nat (List.length threads))
                                 (channel_name channel)) ;;
           for_each threads (fun thread =>
             if thread_read_message_history thread then
               emit (LogProcessingThread (thread_name thread)) ;;
               _process_channel (OfThread thread) start_date end_date
             else ret tt)
       end)
      attribute_error_or_forbidden
      (fun e => emit (LogThreadsUnavailable (channel_name channel) e)).

(** [_get_text_channels] *)
Definition _get_text_channels (guild : Guild) : list TextChannel :=
  flat_map (fun c => match c with
                     | IsTextChannel c => [c]
                     | IsOtherChannel _ => []
                     end)
           (guild_channels guild).

Definition microseconds_per_day : Z := 86400000000.

(** [(end_date - start_date).days]: a [timedelta] is normalised with
    its seconds and microseconds non-negative, so [days] is the floor. *)
Definition timedelta_days (start_date end_date : datetime) : Z :=
  (end_date - start_date) / microseconds_per_day.

(** [x or 1] on integers *)
Definition or_one (x : Z) : Z := if x =? 0 then 1 else x.

Definition set_days_in_period (d : Z) (s : MessageStatisticsData)
  : MessageStatisticsData :=
  {| total_messages := total_messages s;
     messages_per_author := messages_per_author s;
     messages_per_author_id := messages_per_author_id s;
     messages_per_channel := messages_per_channel s;
     messages_per_channel_id := messages_per_channel_id s;
     messages_per_thread := messages_per_thread s;
     messages_per_thread_id := messages_per_thread_id s;
     total_thread_messages := total_thread_messages s;
     pictures_per_author := pictures_per_author s;
     total_pictures := total_pictures s;
     days_in_period := d;
     bot_id := bot_id s |}.

(** [collect]: the statistics object is created here, so the computation
    starts from the trace alone. *)
Definition collect (guild : Guild) (start_date end_date : datetime)
    (trace : list Event) : outcome MessageStatisticsData * World :=
  (modify (set_days_in_period (or_one (timedelta_days start_date end_date))) ;;
   emit (LogCollecting (guild_name guild) (guild_id guild)) ;;
   let channels := _get_text_channels guild in
   emit (LogFoundChannels (Z.of_nat (List.length channels))) ;;
   for_each channels (fun channel =>
     _process_channel_with_threads channel start_date end_date) ;;
   stats <- get_stats ;;
   emit (LogComplete (total_messages stats)
                     (Z.of_nat (List.length (messages_per_channel stats)))) ;;
   ret stats)
    {| w_stats := new_stats; w_trace := trace |}.

(** ** Sequences of recorded messages *)

(** One call of [_process_message]: the message with the channel name and
    thread flag [_process_channel] passes along. *)
Record Call : Type := {
  call_message : Message;
  call_channel_name : string;
  call_is_thread : bool
}.

Definition record_message (c : Call) : M unit :=
  _process_message (call_message c) (call_channel_name c) (call_is_thread c).

Definition record_all (calls : list Call) : M unit :=
  for_each calls record_message.

Definition run_on (s : MessageStatisticsData) (tr : list Event) : World :=
  {| w_stats := s; w_trace := tr |}.

(** The statistics after recording [calls] on top of [s]. *)
Definition stats_after (calls : list Call) (s : MessageStatisticsData)
  : MessageStatisticsData :=
  w_stats (snd (record_all calls (run_on s []))).

(** The effect of one call on the statistics object alone. *)
Definition apply_call (c : Call) (s : MessageStatisticsData)
  : MessageStatisticsData :=
  w_stats (snd (record_message c (run_on s []))).

(** ** Vocabulary of the statements *)

(** Ranking order: counts never increase along the list. *)
Definition by_count_desc (a b : string * Z) : Prop := snd b <= snd a.

(** Items with equal counts come in the same order in [l] and in [l']. *)
Definition same_order_among_ties (l l' : list (string * Z)) : Prop :=
  forall c, filter (fun y => snd y =? c) l = filter (fun y => snd y =? c) l'.

(** The sum of the percentages of a ranking. *)
Definition sum_percent (l : list (string * Z * Q)) : Q :=
  fold_right (fun e acc => (snd e + acc)%Q) 0%Q l.

(** How far from 100 the percentages of a full ranking with so many
    entries can add up: the two roundings of each percentage, and half the
    smallest binary64 value for each entry that underflows. *)
Definition rounding_epsilon (entries : nat) : Q :=
  (2 ^ (-45) + inject_Z (Z.of_nat entries) * 2 ^ (-1068))%Q.

(** The percentages added one after the other in binary64, as a loop
    [total += percent] from [0.0] adds them. *)
Definition added_in_binary64 (l : list (string * Z * Q)) : Q :=
  fold_left (fun total p => binary64 (total + p)) (map snd l) 0%Q.

(** How far from 100 that sum can be: [rounding_epsilon], and one more
    rounding for every addition. *)
Definition summation_epsilon (entries : nat) : Q :=
  (rounding_epsilon entries
   + ((1 + unit_roundoff) ^ Z.of_nat entries - 1)
     * (100 + rounding_epsilon entries + 2 ^ (-1022)))%Q.

(** The history requests of a trace, in order. *)
Definition history_requests (tr : list Event)
  : list (string * datetime * datetime) :=
  flat_map (fun ev => match ev with
                      | HistoryRequest n a b => [(n, a, b)]
                      | _ => []
                      end) tr.

(** The pictures a message contributes: its image attachments, none when
    reading them raises. *)
Definition pictures_in (m : Message) : Z :=
  match image_attachments m with
  | Ok imgs => Z.of_nat (List.length imgs)
  | Raise _ => 0
  end.

(** The sums the container is expected to keep in step with its totals. *)
Definition consistent (s : MessageStatisticsData) : Prop :=
  total_messages s = Counter.total (messages_per_channel s) /\
  total_messages s = Counter.total (messages_per_author s) /\
  total_thread_messages s = Counter.total (messages_per_thread s) /\
  total_pictures s = Counter.total (pictures_per_author s).

(** ** What a walk records and requests *)

(** The calls of [_process_message] made for one history stream: one for
    each message the stream yields before it ends or raises. *)
Definition history_calls (cn : string) (it : bool) (h : History)
  : list Call :=
  map (fun m => {| call_message := m; call_channel_name := cn;
                   call_is_thread := it |}) (h_messages h).

Definition thread_calls (start_date end_date : datetime) (t : Thread)
  : list Call :=
  if thread_read_message_history t
  then history_calls ("#" ++ thread_name t)%string true
         (thread_history t start_date end_date)
  else [].

Definition threads_of (c : TextChannel) : list Thread :=
  match channel_threads c with
  | Ok ts => ts
  | Raise _ => []
  end.

Definition channel_calls (start_date end_date : datetime) (c : TextChannel)
  : list Call :=
  if channel_read_message_history c
  then (history_calls ("#" ++ channel_name c)%string false
          (channel_history c start_date end_date)
        ++ flat_map (thread_calls start_date end_date) (threads_of c))%list
  else [].

Definition guild_calls (g : Guild) (start_date end_date : datetime)
  : list Call :=
  flat_map (channel_calls start_date end_date) (_get_text_channels g).

Definition thread_requests (start_date end_date : datetime) (t : Thread)
  : list (string * datetime * datetime) :=
  if thread_read_message_history t
  then [(("#" ++ thread_name t)%string, start_date, end_date)]
  else [].

(** One request for a readable channel, then one for each of its readable
    threads; none for a channel without the permission. *)
Definition channel_requests (start_date end_date : datetime)
    (c : TextChannel) : list (string * datetime * datetime) :=
  if channel_read_message_history c
  then ((("#" ++ channel_name c)%string, start_date, end_date)
        :: flat_map (thread_requests start_date end_date) (threads_of c))
  else [].

Definition guild_requests (g : Guild) (start_date end_date : datetime)
  : list (string * datetime * datetime) :=
  flat_map (channel_requests start_date end_date) (_get_text_channels g).

(** Reading [channel.threads] of a readable channel succeeds or raises one
    of the two exceptions the handler around the thread loop names. *)
Definition threads_ok (c : TextChannel) : Prop :=
  channel_read_message_history c = true ->
  match channel_threads c with
  | Ok _ => True
  | Raise e => attribute_error_or_forbidden e = true
  end.

Definition threads_listable (g : Guild) : Prop :=
  Forall threads_ok (_get_text_channels g).

(** The guild without the text channels whose history the caller may not
    read. *)
Definition readable_only (g : Guild) : Guild :=
  {| guild_name := guild_name g;
     guild_id := guild_id g;
     guild_channels :=
       filter (fun c => match c with
                        | IsTextChannel c => channel_read_message_history c
                        | IsOtherChannel _ => true
                        end) (guild_channels g) |}.

(** Every stored count is positive and no key is stored twice. *)
Definition counter_ok (c : Counter.t) : Prop :=
  Forall (fun kv => 0 < snd kv) c /\ NoDup (Dict.keys c).

Definition counters_ok (s : MessageStatisticsData) : Prop :=
  counter_ok (messages_per_author s) /\
  counter_ok (messages_per_channel s) /\
  counter_ok (messages_per_thread s) /\
  counter_ok (pictures_per_author s).

(** ** Counting the recorded calls *)

(** The calls that are counted: those whose author has a [bot] attribute
    that is false. *)
Definition counted (c : Call) : bool :=
  match author_bot (msg_author (call_message c)) with
  | Some false => true
  | _ => false
  end.

(** The key a call's author is counted under. *)
Definition call_author (c : Call) : string :=
  author_name_of (msg_author (call_message c)).

(** The number of counted calls that satisfy [p]. *)
Definition count_where (p : Call -> bool) (calls : list Call) : Z :=
  Z.of_nat (List.length (filter (fun c => counted c && p c) calls)).

(** The pictures of the counted calls that satisfy [p]. *)
Definition pictures_where (p : Call -> bool) (calls : list Call) : Z :=
  fold_right Z.add 0
    (map (fun c => pictures_in (call_message c))
         (filter (fun c => counted c && p c) calls)).

(** The side dictionaries hold the keys of their counters, in the same
    order, and the picture posters are among the authors. *)
Definition side_keys_ok (s : MessageStatisticsData) : Prop :=
  Dict.keys (messages_per_author_id s) = Dict.keys (messages_per_author s) /\
  Dict.keys (messages_per_channel_id s) = Dict.keys (messages_per_channel s) /\
  Dict.keys (messages_per_thread_id s) = Dict.keys (messages_per_thread s) /\
  incl (Dict.keys (pictures_per_author s)) (Dict.keys (messages_per_author s)).

(** ** The four ranking queries *)

Inductive Ranking : Type :=
| Posters
| Channels
| PicturePosters
| Threads.

Definition ranking_query (q : Ranking) (s : MessageStatisticsData)
    (limit : Z) : list (string * Z * Q) :=
  match q with
  | Posters => get_top_posters s limit
  | Channels => get_top_channels s limit
  | PicturePosters => get_top_picture_posters s limit
  | Threads => get_top_threads s limit
  end.

(** The counter a query ranks. *)
Definition ranking_counter (q : Ranking) (s : MessageStatisticsData)
  : Counter.t :=
  match q with
  | Posters => messages_per_author s
  | Channels => messages_per_channel s
  | PicturePosters => pictures_per_author s
  | Threads => messages_per_thread s
  end.

(** The total a query's percentages are taken of. *)
Definition ranking_total (q : Ranking) (s : MessageStatisticsData) : Z :=
  match q with
  | Posters => total_messages s
  | Channels => total_messages s
  | PicturePosters => total_pictures s
  | Threads => total_thread_messages s
  end.

(** ** The configured window ([config/models.py]) *)

(** [StatisticsConfig]: the two dates of the window. *)
Record StatisticsConfig : Type := {
  cfg_start_date : datetime;
  cfg_end_date : datetime
}.

(** [StatisticsConfig.time_range_days]: [max(1, delta.days)]. *)
Definition time_range_days (c : StatisticsConfig) : Z :=
  let delta_days := timedelta_days (cfg_start_date c) (cfg_end_date c) in
  Z.max 1 delta_days.

(** ** The plain-text report ([formatters/message_stats.py]) *)

(** The formatting of the Python library that the report uses:
    [f"{n:,}"] for an integer, [f"{x:.1f}"] for a float and
    [d.strftime('%Y-%m-%d')] for a date. *)
Record Formats : Type := {
  thousands : Z -> string;
  one_decimal : Q -> string;
  ymd : datetime -> string
}.

Definition newline : string := String (ascii_of_nat 10) EmptyString.

(** [enumerate(l)] *)
Definition enumerate {A} (l : list A) : list (nat * A) :=
  combine (seq 0 (List.length l)) l.

(** [user_id = data.messages_per_author_id.get(name, name)] and
    [f"<@{user_id}>" if user_id != name else name] *)
Definition user_mention (data : MessageStatisticsData) (name : string)
  : string :=
  match Dict.get name (messages_per_author_id data) with
  | Some user_id =>
      if String.eqb user_id name then name else ("<@" ++ user_id ++ ">")%string
  | None => name
  end.

(** [channel_id = data.messages_per_channel_id.get(name, name)] and
    [f"<#{channel_id}>" if channel_id != name else name]: a stored id is an
    integer, never equal to the name. *)
Definition channel_mention (data : MessageStatisticsData) (name : string)
  : string :=
  match Dict.get name (messages_per_channel_id data) with
  | Some channel_id => ("<#" ++ str_of_int channel_id ++ ">")%string
  | None => name
  end.

(** [thread_id = data.messages_per_thread_id.get(thread_name, "")] and
    [f"<#{thread_id}>" if thread_id else thread_name]: the id 0 is falsy. *)
Definition thread_mention (data : MessageStatisticsData) (name : string)
  : string :=
  match Dict.get name (messages_per_thread_id data) with
  | Some thread_id =>
      if thread_id =? 0 then name
      else ("<#" ++ str_of_int thread_id ++ ">")%string
  | None => name
  end.

(** [f"{i+1}. {mention}: {count:,} messages ({percent:.1f}%)"] *)
Definition ranked_line (F : Formats) (mention : string -> string)
    (entry : nat * (string * Z * Q)) : string :=
  let '(i, (name, count, percent)) := entry in
  (str_of_int (Z.of_nat i + 1) ++ ". " ++ mention name ++ ": "
   ++ thousands F count ++ " messages (" ++ one_decimal F percent ++ "%)")%string.

(** [_add_top_posters_section]; [get_top_posters()] uses its default limit
    of 3. *)
Definition _add_top_posters_section (F : Formats) (output : list string)
    (data : MessageStatisticsData) : list string :=
  let top_posters := get_top_posters data 3 in
  match top_posters with
  | [] => output
  | _ :: _ =>
      (output ++ ["**Top Posters:**"]
       ++ map (ranked_line F (user_mention data)) (enumerate top_posters)
       ++ [""])%list
  end.

(** [_add_top_channels_section] *)
Definition _add_top_channels_section (F : Formats) (output : list string)
    (data : MessageStatisticsData) : list string :=
  let top_channels := get_top_channels data 3 in
  match top_channels with
  | [] => output
  | _ :: _ =>
      (output ++ ["**Most Active Channels:**"]
       ++ map (ranked_line F (channel_mention data)) (enumerate top_channels)
       ++ [""])%list
  end.

(** [_add_top_thread_section] *)
Definition _add_top_thread_section (F : Formats) (output : list string)
    (data : MessageStatisticsData) : list string :=
  match get_top_threads data 1 with
  | (thread_name, thread_count, thread_percent) :: _ =>
      if 0 <? total_thread_messages data then
        (output
         ++ ["**Top Thread:**";
             (thread_mention data thread_name ++ ": "
              ++ thousands F thread_count ++ " messages ("
              ++ one_decimal F thread_percent
              ++ "% of all thread messages)")%string;
             ""])%list
      else output
  | [] => output
  end.

(** [_add_top_picture_posters_section] *)
Definition _add_top_picture_posters_section (F : Formats)
    (output : list string) (data : MessageStatisticsData) : list string :=
  if 0 <? total_pictures data then
    match get_top_picture_posters data 1 with
    | (name, count, percent) :: _ =>
        (output
         ++ ["**Top Picture Poster:**";
             (user_mention data name ++ ": " ++ thousands F count
              ++ " pictures (" ++ one_decimal F percent
              ++ "% of all pictures)")%string])%list
    | [] => output
    end
  else output.

(** The list [output] of [format_statistics_text] before it is joined. *)
Definition report_lines (F : Formats) (data : MessageStatisticsData)
    (start_date end_date : datetime) : list string :=
  let days := or_one (timedelta_days start_date end_date) in
  let output :=
    ["**Server Message Statistics**";
     ("Period: " ++ ymd F start_date ++ " to " ++ ymd F end_date ++ " ("
      ++ str_of_int days ++ " days)")%string;
     "";
     ("**Total Messages:** " ++ thousands F (total_messages data))%string;
     ("**Daily Average:** " ++ one_decimal F (avg_messages_per_day data)
      ++ " messages/day")%string;
     ("**Total Pictures:** " ++ thousands F (total_pictures data))%string;
     ""] in
  let output := _add_top_posters_section F output data in
  let output := _add_top_channels_section F output data in
  let output := _add_top_thread_section F output data in
  let output := _add_top_picture_posters_section F output data in
  (output
   ++ [(newline ++ newline
        ++ "This report is powered by [discord-stats](https://github.com/martinmeneval/discord-stats)")%string])%list.

(** [format_statistics_text] *)
Definition format_statistics_text (F : Formats)
    (data : MessageStatisticsData) (start_date end_date : datetime)
  : string :=
  String.concat newline (report_lines F data start_date end_date).

(** ** The embed ([formatters/message_stats.py]) *)

(** [discord.Color.blue()] is the only colour used. *)
Inductive Color : Type := Blue.

Record EmbedField : Type := {
  field_name : string;
  field_value : string;
  field_inline : bool
}.

Record Embed : Type := {
  embed_title : string;
  embed_description : string;
  embed_color : Color;
  embed_timestamp : datetime;
  embed_fields : list EmbedField;
  embed_footer : option string
}.

(** [embed.add_field(name=..., value=..., inline=...)] *)
Definition add_field (name value : string) (inline : bool) (e : Embed)
  : Embed :=
  {| embed_title := embed_title e;
     embed_description := embed_description e;
     embed_color := embed_color e;
     embed_timestamp := embed_timestamp e;
     embed_fields := (embed_fields e
                      ++ [{| field_name := name; field_value := value;
                             field_inline := inline |}])%list;
     embed_footer := embed_footer e |}.

(** [embed.set_footer(text=...)] *)
Definition set_footer (text : string) (e : Embed) : Embed :=
  {| embed_title := embed_title e;
     embed_description := embed_description e;
     embed_color := embed_color e;
     embed_timestamp := embed_timestamp e;
     embed_fields := embed_fields e;
     embed_footer := Some text |}.

(** [text or fallback] on strings: the empty string is falsy. *)
Definition or_text (text fallback : string) : string :=
  if String.eqb text "" then fallback else text.

(** [f"**{i+1}. <@{data.messages_per_author_id.get(name, name)}>**:
    {count:,} messages ({percent:.1f}%)"] *)
Definition embed_poster_line (F : Formats) (data : MessageStatisticsData)
    (entry : nat * (string * Z * Q)) : string :=
  let '(i, (name, count, percent)) := entry in
  let shown := match Dict.get name (messages_per_author_id data) with
               | Some user_id => user_id
               | None => name
               end in
  ("**" ++ str_of_int (Z.of_nat i + 1) ++ ". <@" ++ shown ++ ">**: "
   ++ thousands F count ++ " messages (" ++ one_decimal F percent ++ "%)")%string.

(** [f"**{i+1}. <#{data.messages_per_channel_id.get(name, name)}>**:
    {count:,} messages ({percent:.1f}%)"] *)
Definition embed_channel_line (F : Formats) (data : MessageStatisticsData)
    (entry : nat * (string * Z * Q)) : string :=
  let '(i, (name, count, percent)) := entry in
  let shown := match Dict.get name (messages_per_channel_id data) with
               | Some channel_id => str_of_int channel_id
               | None => name
               end in
  ("**" ++ str_of_int (Z.of_nat i + 1) ++ ". <#" ++ shown ++ ">**: "
   ++ thousands F count ++ " messages (" ++ one_decimal F percent ++ "%)")%string.

Module MessageStatisticsFormatter.

(** [MessageStatisticsFormatter.format]; [now] is the value of
    [datetime.now()]. *)
Definition format (F : Formats) (now : datetime)
    (data : MessageStatisticsData) : Embed :=
  let embed :=
    {| embed_title := "Server Message Statistics";
       embed_description :=
         ("Statistics from the past " ++ str_of_int (days_in_period data)
          ++ " days")%string;
       embed_color := Blue;
       embed_timestamp := now;
       embed_fields := [];
       embed_footer := None |} in
  let embed :=
    add_field "Total Messages" (thousands F (total_messages data)) true
      embed in
  let embed :=
    add_field "Daily Average"
      (one_decimal F (avg_messages_per_day data) ++ " messages/day")%string
      true embed in
  let top_posters := get_top_posters data 3 in
  let embed :=
    match top_posters with
    | [] => embed
    | _ :: _ =>
        let top_posters_text :=
          String.concat newline
            (map (embed_poster_line F data) (enumerate top_posters)) in
        add_field "Top Posters" (or_text top_posters_text "No messages found")
          false embed
    end in
  let top_channels := get_top_channels data 3 in
  let embed :=
    match top_channels with
    | [] => embed
    | _ :: _ =>
        let top_channels_text :=
          String.concat newline
            (map (embed_channel_line F data) (enumerate top_channels)) in
        add_field "Most Active Channels"
          (or_text top_channels_text "No messages found") false embed
    end in
  let embed :=
    match get_top_threads data 1 with
    | (thread_name, thread_count, thread_percent) :: _ =>
        if 0 <? total_thread_messages data then
          let thread_text :=
            ("**" ++ thread_mention data thread_name ++ "**: "
             ++ thousands F thread_count ++ " messages ("
             ++ one_decimal F thread_percent ++ "% of all thread messages)"
             ++ newline ++ "Total messages in all threads: "
             ++ thousands F (total_thread_messages data))%string in
          add_field "Top Thread" thread_text false embed
        else embed
    | [] => embed
    end in
  let embed :=
    if 0 <? total_pictures data then
      match get_top_picture_posters data 1 with
      | (name, count, percent) :: _ =>
          let picture_text :=
            ("**" ++ user_mention data name ++ "**: " ++ thousands F count
             ++ " pictures (" ++ one_decimal F percent ++ "% of all pictures)"
             ++ newline ++ "Total pictures: "
             ++ thousands F (total_pictures data))%string in
          add_field "Top Picture Poster" picture_text false embed
      | [] => embed
      end
    else embed in
  set_footer "Discord Stats Bot" embed.

End MessageStatisticsFormatter.

(** ** The statistics client ([discord_client.py]) *)

(** The log records of [StatisticsClient.on_ready], and those of the
    collector it runs. *)
Inductive ClientEvent : Type :=
| FromCollector (ev : Event)
| LogGuildNotFound (id : Z)
| LogCollectError (e : exn).

(** [StatisticsClient]: [client_guilds] are the guilds the connection
    knows, where [get_guild] looks an id up. *)
Record StatisticsClient : Type := {
  client_guilds : list Guild;
  target_guild_id : Z;
  client_start_date : datetime;
  client_end_date : datetime;
  client_guild : option Guild;
  client_data : option MessageStatisticsData;
  client_ready : bool;
  client_log : list ClientEvent
}.

(** [StatisticsClient.__init__] *)
Definition new_client (guilds : list Guild) (guild_id : Z)
    (start_date end_date : datetime) : StatisticsClient :=
  {| client_guilds := guilds;
     target_guild_id := guild_id;
     client_start_date := start_date;
     client_end_date := end_date;
     client_guild := None;
     client_data := None;
     client_ready := false;
     client_log := [] |}.

(** [self.get_guild(id)]: the guild with this id, or [None]. *)
Definition get_guild (guilds : list Guild) (id : Z) : option Guild :=
  find (fun g => guild_id g =? id) guilds.

(** [StatisticsClient.on_ready]: the body runs under [try], any
    [Exception] is logged, and [finally] sets the [ready] event. *)
Definition on_ready (self : StatisticsClient) : StatisticsClient :=
  let guild := get_guild (client_guilds self) (target_guild_id self) in
  let '(data, log) :=
    match guild with
    | None =>
        (client_data self,
         (client_log self ++ [LogGuildNotFound (target_guild_id self)])%list)
    | Some g =>
        match collect g (client_start_date self) (client_end_date self) []
        with
        | (Ok stats, w) =>
            (Some stats,
             (client_log self ++ map FromCollector (w_trace w))%list)
        | (Raise e, w) =>
            (client_data self,
             (client_log self ++ map FromCollector (w_trace w)
              ++ [LogCollectError e])%list)
        end
    end in
  {| client_guilds := client_guilds self;
     target_guild_id := target_guild_id self;
     client_start_date := client_start_date self;
     client_end_date := client_end_date self;
     client_guild := guild;
     client_data := data;
     client_ready := true;
     client_log := log |}.

(** The history requests among the records of a client. *)
Definition client_requests (log : list ClientEvent)
  : list (string * datetime * datetime) :=
  flat_map (fun ev => match ev with
                      | FromCollector ev => history_requests [ev]
                      | _ => []
                      end) log.

(** ** The bot's [stats] command ([bot/__init__.py]) *)

(** What [date_parser.parse] does with a string: it returns a date, raises
    a [ValueError] (dateutil's [ParserError] is one) or raises another
    exception. *)
Inductive Parse : Type :=
| Parsed (d : datetime)
| ValueError
| ParseRaises (e : exn).

(** The argument of [ctx.send]: a text, or [embed=...]. *)
Inductive Reply : Type :=
| Text (content : string)
| WithEmbed (embed : Embed).

(** The invocation context: [ctx.guild] is [None] outside a guild;
    entering [ctx.typing()] and [ctx.send] are requests that can raise. *)
Record Context : Type := {
  ctx_guild : option Guild;
  ctx_typing : outcome unit;
  ctx_send : Reply -> outcome unit
}.

(** The bot: [self.config.bot.stats_config], which lives as long as the
    bot, the replies delivered so far, the records of [logger.exception]
    and the collector's trace. *)
Record Bot : Type := {
  bot_stats_config : StatisticsConfig;
  bot_sent : list Reply;
  bot_exceptions : list exn;
  bot_trace : list Event
}.

(** [stats_config.start_date = d] *)
Definition set_start_date (d : datetime) (b : Bot) : Bot :=
  {| bot_stats_config :=
       {| cfg_start_date := d;
          cfg_end_date := cfg_end_date (bot_stats_config b) |};
     bot_sent := bot_sent b;
     bot_exceptions := bot_exceptions b;
     bot_trace := bot_trace b |}.

(** [stats_config.end_date = d] *)
Definition set_end_date (d : datetime) (b : Bot) : Bot :=
  {| bot_stats_config :=
       {| cfg_start_date := cfg_start_date (bot_stats_config b);
          cfg_end_date := d |};
     bot_sent := bot_sent b;
     bot_exceptions := bot_exceptions b;
     bot_trace := bot_trace b |}.

(** [await ctx.send(reply)]: a reply is delivered unless the request
    raises. *)
Definition send (ctx : Context) (reply : Reply) (b : Bot)
  : outcome unit * Bot :=
  match ctx_send ctx reply with
  | Ok _ =>
      (Ok tt,
       {| bot_stats_config := bot_stats_config b;
          bot_sent := (bot_sent b ++ [reply])%list;
          bot_exceptions := bot_exceptions b;
          bot_trace := bot_trace b |})
  | Raise e => (Raise e, b)
  end.

(** How a block of the command's [try] body ends: it falls through, it
    executes [return], or it raises. *)
Inductive Flow : Type :=
| Next
| Return
| Throw (e : exn).

(** [if text is not None:
       try: stats_config.<field> = date_parser.parse(text)
       except ValueError: await ctx.send(message); return] *)
Definition read_date (parse : string -> Parse) (ctx : Context)
    (text : option string) (store : datetime -> Bot -> Bot)
    (message : string) (b : Bot) : Flow * Bot :=
  match text with
  | None => (Next, b)
  | Some text =>
      match parse text with
      | Parsed d => (Next, store d b)
      | ValueError =>
          match send ctx (Text message) b with
          | (Ok _, b') => (Return, b')
          | (Raise e, b') => (Throw e, b')
          end
      | ParseRaises e => (Throw e, b)
      end
  end.

(** [await collector.collect(ctx.guild, ...)]: outside a guild [ctx.guild]
    is [None], and the first read of [guild.name] raises
    [AttributeError]. *)
Definition collect_for (guild : option Guild) (start_date end_date : datetime)
    (trace : list Event) : outcome MessageStatisticsData * list Event :=
  match guild with
  | Some g =>
      let '(result, w) := collect g start_date end_date trace in
      (result, w_trace w)
  | None => (Raise AttributeError, trace)
  end.

Definition with_trace (trace : list Event) (b : Bot) : Bot :=
  {| bot_stats_config := bot_stats_config b;
     bot_sent := bot_sent b;
     bot_exceptions := bot_exceptions b;
     bot_trace := trace |}.

(** The body of the [try] of [stats_command]. The two stored dates are
    compared as points of one time line (see [datetime]). *)
Definition stats_command_body (parse : string -> Parse) (F : Formats)
    (now : datetime) (ctx : Context) (start_date end_date : option string)
    (b : Bot) : Flow * Bot :=
  match read_date parse ctx start_date set_start_date
          "Invalid start date format. Please use YYYY-MM-DD." b with
  | (Next, b) =>
      match read_date parse ctx end_date set_end_date
              "Invalid end date format. Please use YYYY-MM-DD." b with
      | (Next, b) =>
          let stats_config := bot_stats_config b in
          if cfg_end_date stats_config <? cfg_start_date stats_config then
            match send ctx (Text "End date must be after start date.") b with
            | (Ok _, b') => (Return, b')
            | (Raise e, b') => (Throw e, b')
            end
          else
            match collect_for (ctx_guild ctx) (cfg_start_date stats_config)
                    (cfg_end_date stats_config) (bot_trace b) with
            | (Ok data, trace) =>
                let embed := MessageStatisticsFormatter.format F now data in
                match send ctx (WithEmbed embed) (with_trace trace b) with
                | (Ok _, b') => (Next, b')
                | (Raise e, b') => (Throw e, b')
                end
            | (Raise e, trace) => (Throw e, with_trace trace b)
            end
      | stopped => stopped
      end
  | stopped => stopped
  end.

(** [logger.exception("Error fetching statistics")] *)
Definition log_exception (e : exn) (b : Bot) : Bot :=
  {| bot_stats_config := bot_stats_config b;
     bot_sent := bot_sent b;
     bot_exceptions := (bot_exceptions b ++ [e])%list;
     bot_trace := bot_trace b |}.

(** [stats_command]: [str_exn] is Python's [str] on an exception. *)
Definition stats_command (parse : string -> Parse) (str_exn : exn -> string)
    (F : Formats) (now : datetime) (ctx : Context)
    (start_date end_date : option string) (b : Bot) : outcome unit * Bot :=
  match ctx_typing ctx with
  | Raise e => (Raise e, b)
  | Ok _ =>
      match stats_command_body parse F now ctx start_date end_date b with
      | (Throw e, b') =>
          send ctx
            (Text ("An error occurred while fetching statistics: "
                   ++ str_exn e)%string)
            (log_exception e b')
      | (_, b') => (Ok tt, b')
      end
  end.

(** A context in which the typing indicator and every reply go through. *)
Definition delivers (ctx : Context) : Prop :=
  ctx_typing ctx = Ok tt /\ forall reply, ctx_send ctx reply = Ok tt.

(** ** Sample data *)

Definition member (id : Z) (name : string) : Author :=
  {| author_id := id; author_bot := Some false;
     author_display_name := Some name |}.

Definition alice : Author := member 1 "alice".
Definition bob : Author := member 2 "bob".
(** Two accounts that share a display name. *)
Definition sam_first : Author := member 3 "sam".
Definition sam_second : Author := member 4 "sam".
Definition helper_bot : Author :=
  {| author_id := 9; author_bot := Some true;
     author_display_name := Some "helper" |}.

Definition image_png : Attachment := {| content_type := Ok (Some "image/png") |}.
Definition text_plain : Attachment :=
  {| content_type := Ok (Some "text/plain") |}.
Definition unreadable_attachment : Attachment :=
  {| content_type := Raise AttributeError |}.

Definition message_from (a : Author) (atts : outcome (list Attachment))
  : Message :=
  {| msg_author := a; msg_channel_id := 100; msg_attachments := atts |}.

Definition in_general (m : Message) : Call :=
  {| call_message := m; call_channel_name := "#general";
     call_is_thread := false |}.

Definition two_pictures : list Call :=
  [in_general (message_from alice (Ok [image_png; image_png]))].

Definition one_picture : list Call :=
  [in_general (message_from alice (Ok [image_png]));
   in_general (message_from bob (Ok []))].

Definition two_sams : list Call :=
  [in_general (message_from sam_first (Ok []));
   in_general (message_from sam_second (Ok []))].

Definition quiet_thread : Thread :=
  {| thread_name := "t1";
     thread_read_message_history := true;
     thread_history := fun _ _ =>
       {| h_messages := [message_from alice (Ok [])]; h_error := None |} |}.

(** A channel whose history fails after two messages. *)
Definition general : TextChannel :=
  {| channel_name := "general";
     channel_read_message_history := true;
     channel_history := fun _ _ =>
       {| h_messages := [message_from alice (Ok [image_png]);
                         message_from bob (Ok [])];
          h_error := Some HTTPException |};
     channel_threads := Ok [quiet_thread] |}.

(** A channel the caller may not read. *)
Definition staff_only : TextChannel :=
  {| channel_name := "staff";
     channel_read_message_history := false;
     channel_history := fun _ _ =>
       {| h_messages := [message_from bob (Ok [])]; h_error := None |};
     channel_threads := Ok [quiet_thread] |}.

(** A channel object without a [threads] attribute. *)
Definition legacy : TextChannel :=
  {| channel_name := "legacy";
     channel_read_message_history := true;
     channel_history := fun _ _ =>
       {| h_messages := [message_from bob (Ok [])]; h_error := None |};
     channel_threads := Raise AttributeError |}.

Definition sample_guild : Guild :=
  {| guild_name := "home";
     guild_id := 1;
     guild_channels := [IsTextChannel staff_only; IsOtherChannel "voice";
                        IsTextChannel general; IsTextChannel legacy] |}.

(** Ten messages of alice, two of them with one image, and five of bob in
    "general", then three of alice in the thread "t1". *)
Definition busy_week : list Call :=
  (repeat (in_general (message_from alice (Ok [image_png]))) 2
   ++ repeat (in_general (message_from alice (Ok []))) 8
   ++ repeat (in_general (message_from bob (Ok []))) 5
   ++ repeat {| call_message := message_from alice (Ok []);
                call_channel_name := "#t1"; call_is_thread := true |} 3)%list.

(** A channel whose thread list cannot be read for a reason the handler
    does not name. *)
Definition flaky : TextChannel :=
  {| channel_name := "flaky";
     channel_read_message_history := true;
     channel_history := fun _ _ =>
       {| h_messages := [message_from bob (Ok [])]; h_error := None |};
     channel_threads := Raise HTTPException |}.

Definition flaky_guild : Guild :=
  {| guild_name := "home";
     guild_id := 1;
     guild_channels := [IsTextChannel general; IsTextChannel flaky;
                        IsTextChannel legacy] |}.

(** Stand-ins for the library formatting, enough to run the report: no
    thousands separators, the integer part only, the raw time stamp. *)
Definition plain_formats : Formats :=
  {| thousands := str_of_int;
     one_decimal := fun x => str_of_int (Qnum x / Z.pos (Qden x));
     ymd := str_of_int |}.

(** A date parser that knows two days, a context in [sample_guild] and one
    in a direct message, and a bot whose stored window is one microsecond
    long. *)
Definition sample_parse (text : string) : Parse :=
  if String.eqb text "2024-01-01" then Parsed 0
  else if String.eqb text "2024-01-02" then Parsed microseconds_per_day
  else ValueError.

Definition sample_str_exn (e : exn) : string :=
  match e with
  | AttributeError => "AttributeError"
  | Forbidden => "Forbidden"
  | HTTPException => "HTTPException"
  | OtherException what => what
  end.

Definition sample_ctx : Context :=
  {| ctx_guild := Some sample_guild;
     ctx_typing := Ok tt;
     ctx_send := fun _ => Ok tt |}.

Definition direct_message_ctx : Context :=
  {| ctx_guild := None;
     ctx_typing := Ok tt;
     ctx_send := fun _ => Ok tt |}.

Definition sample_bot : Bot :=
  {| bot_stats_config := {| cfg_start_date := 0; cfg_end_date := 1 |};
     bot_sent := [];
     bot_exceptions := [];
     bot_trace := [] |}.

(** * Properties *)

(** ** Binary64 rounding *)

Lemma nearest_even_spec (n d : Z) :
  0 < d ->
  - d <= 2 * (nearest_even n d * d - n) <= d.
Proof.
  intros Hd. unfold nearest_even. cbv zeta.
  pose proof (Z.div_mod n d ltac:(lia)) as Hdm.
  pose proof (Z.mod_pos_bound n d Hd) as Hr.
  destruct (Z.compare_spec (2 * (n mod d)) d) as [E|E|E];
    [destruct (Z.even (n / d))| |]; nia.
Qed.

Lemma nearest_even_le (n d k : Z) :
  0 < d -> n <= k * d -> nearest_even n d <= k.
Proof.
  intros Hd Hn. unfold nearest_even. cbv zeta.
  pose proof (Z.div_mod n d ltac:(lia)) as Hdm.
  pose proof (Z.mod_pos_bound n d Hd) as Hr.
  assert (Hq : n / d <= k) by nia.
  destruct (Z.compare_spec (2 * (n mod d)) d) as [E|E|E];
    [destruct (Z.even (n / d))| |]; nia.
Qed.

Lemma nearest_even_ge (n d k : Z) :
  0 < d -> k * d <= n -> k <= nearest_even n d.
Proof.
  intros Hd Hn. unfold nearest_even. cbv zeta.
  pose proof (Z.div_mod n d ltac:(lia)) as Hdm.
  pose proof (Z.mod_pos_bound n d Hd) as Hr.
  assert (Hq : k <= n / d) by nia.
  destruct (Z.compare_spec (2 * (n mod d)) d) as [E|E|E];
    [destruct (Z.even (n / d))| |]; nia.
Qed.

(** Rounding to an integer moves a rational by at most one half. *)
Lemma round_half_even_spec (x : Q) :
  (Qabs (inject_Z (round_half_even x) - x) <= 1 # 2)%Q.
Proof.
  apply Qabs_Qle_condition. unfold round_half_even.
  pose proof (nearest_even_spec (Qnum x) (QDen x) ltac:(lia)) as H.
  destruct x as [n d]. cbn [Qnum Qden] in *.
  unfold Qle, Qminus, Qplus, Qopp, inject_Z. cbn [Qnum Qden].
  split; nia.
Qed.

Lemma round_half_even_le (x : Q) (k : Z) :
  (x <= inject_Z k)%Q -> round_half_even x <= k.
Proof.
  intros H. apply nearest_even_le; [lia|].
  unfold Qle, inject_Z in H. cbn [Qnum Qden] in H. lia.
Qed.

Lemma round_half_even_ge (x : Q) (k : Z) :
  (inject_Z k <= x)%Q -> k <= round_half_even x.
Proof.
  intros H. apply nearest_even_ge; [lia|].
  unfold Qle, inject_Z in H. cbn [Qnum Qden] in H. lia.
Qed.

Lemma pow2_pos (e : Z) : (0 < 2 ^ e)%Q.
Proof. apply Qpower_0_lt. reflexivity. Qed.

Lemma pow2_plus (a b : Z) : (2 ^ (a + b) == 2 ^ a * 2 ^ b)%Q.
Proof. apply Qpower_plus. discriminate. Qed.

Lemma pow2_succ (a : Z) : (2 ^ (a + 1) == 2 * 2 ^ a)%Q.
Proof. rewrite pow2_plus. change (2 ^ 1)%Q with 2%Q. ring. Qed.

Lemma pow2_inject (n : Z) : 0 <= n -> (inject_Z (2 ^ n) == 2 ^ n)%Q.
Proof. intros H. now rewrite Zpower_Qpower. Qed.

Lemma pow2_le (a b : Z) : a <= b -> (2 ^ a <= 2 ^ b)%Q.
Proof. intros H. apply Qpower_le_compat_l; [assumption|]. discriminate. Qed.

Lemma pow2_lt_inv (a b : Z) : (2 ^ a < 2 ^ b)%Q -> a < b.
Proof.
  intros H. apply Qpower_lt_compat_l_inv in H; [assumption|reflexivity].
Qed.

Lemma pow2_opp_cancel (e : Z) : (2 ^ (- e) * 2 ^ e == 1)%Q.
Proof.
  rewrite <- pow2_plus. now replace (- e + e) with 0 by lia.
Qed.

Lemma Q_as_quotient (x : Q) : (x * inject_Z (QDen x) == inject_Z (Qnum x))%Q.
Proof.
  destruct x as [n d]. unfold Qeq, Qmult, inject_Z. cbn [Qnum Qden]. lia.
Qed.

(** [floor_log2] is the floor of the binary logarithm. *)
Lemma floor_log2_spec (x : Q) :
  (0 < x)%Q ->
  (2 ^ floor_log2 x <= x)%Q /\ (x < 2 ^ (floor_log2 x + 1))%Q.
Proof.
  intros Hx.
  assert (Hn : 0 < Qnum x) by (unfold Qlt in Hx; cbn in Hx; lia).
  pose proof (Z.log2_spec (Qnum x) Hn) as [Ha1 Ha2].
  pose proof (Z.log2_spec (QDen x) ltac:(lia)) as [Hb1 Hb2].
  pose proof (Z.log2_nonneg (Qnum x)) as Hla.
  pose proof (Z.log2_nonneg (QDen x)) as Hlb.
  rewrite Zle_Qle in Ha1, Hb1. rewrite Zlt_Qlt in Ha2, Hb2.
  rewrite pow2_inject in Ha1, Ha2, Hb1, Hb2 by lia.
  pose proof (Q_as_quotient x) as Hq.
  set (a := inject_Z (Qnum x)) in *. set (b := inject_Z (QDen x)) in *.
  set (la := Z.log2 (Qnum x)) in *. set (lb := Z.log2 (QDen x)) in *.
  assert (Hl : (2 ^ la == 2 ^ (la - lb) * 2 ^ lb)%Q).
  { rewrite <- pow2_plus. now replace (la - lb + lb) with la by lia. }
  unfold Z.succ in Ha2, Hb2. rewrite pow2_succ in Ha2, Hb2.
  pose proof (pow2_pos (la - lb)) as Hp. pose proof (pow2_pos lb) as Hpb.
  assert (Hlow : (2 ^ (la - lb - 1) < x)%Q).
  { assert (E : (2 ^ (la - lb) == 2 * 2 ^ (la - lb - 1))%Q).
    { rewrite <- pow2_succ.
      now replace (la - lb - 1 + 1) with (la - lb) by lia. }
    pose proof (pow2_pos (la - lb - 1)) as Hp1.
    set (p1 := (2 ^ (la - lb - 1))%Q) in *.
    set (p := (2 ^ (la - lb))%Q) in *. set (pb := (2 ^ lb)%Q) in *.
    set (pa := (2 ^ la)%Q) in *. nra. }
  assert (Hhigh : (x < 2 ^ (la - lb + 1))%Q).
  { rewrite pow2_succ.
    set (p := (2 ^ (la - lb))%Q) in *. set (pb := (2 ^ lb)%Q) in *.
    set (pa := (2 ^ la)%Q) in *. nra. }
  unfold floor_log2. cbv zeta. fold la lb.
  destruct (Qle_bool (2 ^ (la - lb)) x) eqn:E.
  - apply Qle_bool_iff in E. split; assumption.
  - assert (Hlt : (x < 2 ^ (la - lb))%Q).
    { apply Qnot_le_lt. intros H. apply Qle_bool_iff in H. congruence. }
    replace (la - lb - 1 + 1) with (la - lb) by lia.
    split; [apply Qlt_le_weak|]; assumption.
Qed.

Lemma Qeq_bool_false (x y : Q) : ~ (x == y)%Q -> Qeq_bool x y = false.
Proof.
  intros H. destruct (Qeq_bool x y) eqn:E; [|reflexivity].
  apply Qeq_bool_iff in E. contradiction.
Qed.

Lemma binary64_zero (x : Q) : (x == 0)%Q -> binary64 x = 0%Q.
Proof.
  intros H. unfold binary64. apply Qeq_bool_iff in H. now rewrite H.
Qed.

Lemma binary64_nonzero (x : Q) :
  ~ (x == 0)%Q ->
  binary64 x
  = (inject_Z (round_half_even (x * 2 ^ (- ulp_exponent x)))
     * 2 ^ ulp_exponent x)%Q.
Proof.
  intros H. unfold binary64. now rewrite (Qeq_bool_false _ _ H).
Qed.

(** A rounded value is within half a unit in the last place. *)
Lemma binary64_half_ulp (x : Q) :
  ~ (x == 0)%Q ->
  (Qabs (binary64 x - x) <= 2 ^ (ulp_exponent x - 1))%Q.
Proof.
  intros Hx. rewrite (binary64_nonzero x Hx).
  set (e := ulp_exponent x).
  pose proof (round_half_even_spec (x * 2 ^ (- e))) as Hm.
  set (m := inject_Z (round_half_even (x * 2 ^ (- e)))) in *.
  pose proof (pow2_pos e) as He. pose proof (pow2_opp_cancel e) as Hc.
  assert (E : (m * 2 ^ e - x == 2 ^ e * (m - x * 2 ^ (- e)))%Q).
  { setoid_replace x with (x * (2 ^ (- e) * 2 ^ e))%Q at 1
      by (rewrite Hc; ring).
    ring. }
  rewrite E, Qabs_Qmult, (Qabs_pos (2 ^ e)) by (now apply Qlt_le_weak).
  assert (E1 : (2 ^ (e - 1) == 2 ^ e * (1 # 2))%Q).
  { replace (e - 1) with (e + -1) by lia. rewrite pow2_plus. reflexivity. }
  rewrite E1. apply Qmult_le_l; assumption.
Qed.

Lemma Qabs_of_nonneg (x : Q) : (0 <= x)%Q -> Qabs x = x.
Proof.
  destruct x as [n d]. unfold Qle, Qabs. cbn [Qnum Qden]. intros H.
  f_equal. apply Z.abs_eq. lia.
Qed.

Lemma Qabs_pos_nonzero (x : Q) : ~ (x == 0)%Q -> (0 < Qabs x)%Q.
Proof.
  intros Hx. destruct (Qlt_le_dec 0 (Qabs x)) as [H|H]; [assumption|].
  destruct Hx. apply Qabs_Qle_condition in H.
  destruct H as [H1 H2]. apply Qle_antisym; assumption.
Qed.

(** The error of one rounding: relative to the value, or half the smallest
    positive binary64 value where the result is subnormal. *)
Lemma binary64_error (x : Q) :
  (Qabs (binary64 x - x) <= unit_roundoff * Qabs x + half_smallest)%Q.
Proof.
  unfold unit_roundoff, half_smallest.
  pose proof (pow2_pos (-53)) as Hu. pose proof (pow2_pos (-1075)) as Hs.
  pose proof (Qabs_nonneg x) as Hax.
  destruct (Qeq_dec x 0) as [Hx|Hx].
  - rewrite (binary64_zero x Hx).
    setoid_replace (0 - x)%Q with 0%Q by (rewrite Hx; ring).
    change (Qabs 0) with 0%Q. nra.
  - eapply Qle_trans; [apply (binary64_half_ulp x Hx)|].
    pose proof (Qabs_pos_nonzero x Hx) as Hpos.
    destruct (floor_log2_spec (Qabs x) Hpos) as [Hlow _].
    unfold ulp_exponent.
    destruct (Z.max_spec (floor_log2 (Qabs x) - 52) (-1074))
      as [[_ ->]|[_ ->]].
    + change (-1074 - 1) with (-1075). nra.
    + replace (floor_log2 (Qabs x) - 52 - 1)
        with (floor_log2 (Qabs x) + -53) by lia.
      rewrite pow2_plus.
      set (p := (2 ^ floor_log2 (Qabs x))%Q) in *.
      set (u := (2 ^ (-53))%Q) in *. set (h := (2 ^ (-1075))%Q) in *.
      nra.
Qed.

Lemma binary64_nonneg (x : Q) : (0 <= x)%Q -> (0 <= binary64 x)%Q.
Proof.
  intros Hx. destruct (Qeq_dec x 0) as [H0|H0].
  - rewrite (binary64_zero x H0). apply Qle_refl.
  - rewrite (binary64_nonzero x H0).
    pose proof (pow2_pos (ulp_exponent x)) as He.
    pose proof (pow2_pos (- ulp_exponent x)) as He'.
    apply Qmult_le_0_compat; [|now apply Qlt_le_weak].
    change 0%Q with (inject_Z 0). rewrite <- Zle_Qle.
    apply round_half_even_ge. change (inject_Z 0) with 0%Q.
    apply Qmult_le_0_compat; [assumption|now apply Qlt_le_weak].
Qed.

(** Rounding does not cross an integer, for values below 2^53. *)
Lemma binary64_le_integer (x : Q) (B : Z) :
  (0 < x)%Q -> (x <= inject_Z B)%Q -> (x < 2 ^ 53)%Q ->
  (binary64 x <= inject_Z B)%Q.
Proof.
  intros Hpos HB H53.
  assert (Hx : ~ (x == 0)%Q) by (intros H; rewrite H in Hpos; discriminate).
  rewrite (binary64_nonzero x Hx).
  assert (He : ulp_exponent x <= 0).
  { unfold ulp_exponent. rewrite (Qabs_of_nonneg x) by (now apply Qlt_le_weak).
    destruct (floor_log2_spec x Hpos) as [Hlow _].
    assert (floor_log2 x < 53); [|lia].
    apply pow2_lt_inv. eapply Qle_lt_trans; eassumption. }
  set (e := ulp_exponent x) in *.
  pose proof (pow2_pos e) as Hp. pose proof (pow2_pos (- e)) as Hp'.
  pose proof (pow2_opp_cancel e) as Hc.
  assert (Hk : (inject_Z (B * 2 ^ (- e)) == inject_Z B * 2 ^ (- e))%Q).
  { rewrite inject_Z_mult, pow2_inject by lia. reflexivity. }
  assert (Hm : round_half_even (x * 2 ^ (- e)) <= B * 2 ^ (- e)).
  { apply round_half_even_le. rewrite Hk.
    apply Qmult_le_compat_r; [assumption|now apply Qlt_le_weak]. }
  rewrite Zle_Qle, Hk in Hm.
  set (m := inject_Z (round_half_even (x * 2 ^ (- e)))) in *.
  set (b := inject_Z B) in *.
  set (p := (2 ^ e)%Q) in *. set (p' := (2 ^ (- e))%Q) in *.
  nra.
Qed.

(** Rounding does not go below the smallest positive binary64 value. *)
Lemma binary64_positive (x : Q) :
  (2 ^ (-1074) <= x)%Q -> (2 ^ (-1074) <= binary64 x)%Q.
Proof.
  intros Hx. pose proof (pow2_pos (-1074)) as Hs.
  assert (Hpos : (0 < x)%Q) by (eapply Qlt_le_trans; eassumption).
  assert (Hnz : ~ (x == 0)%Q) by (intros H; rewrite H in Hpos; discriminate).
  rewrite (binary64_nonzero x Hnz).
  destruct (floor_log2_spec x Hpos) as [Hlow _].
  assert (He : -1074 <= ulp_exponent x) by (unfold ulp_exponent; lia).
  assert (Hy : (1 <= x * 2 ^ (- ulp_exponent x))%Q).
  { unfold ulp_exponent in *.
    rewrite (Qabs_of_nonneg x) in * by (now apply Qlt_le_weak).
    destruct (Z.max_spec (floor_log2 x - 52) (-1074)) as [[_ E]|[_ E]];
      rewrite E.
    - change (- -1074) with 1074.
      pose proof (pow2_opp_cancel 1074) as Hc.
      change (- 1074) with (-1074) in Hc.
      rewrite <- Hc.
      apply Qmult_le_compat_r; [exact Hx|apply Qlt_le_weak, pow2_pos].
    - pose proof (pow2_opp_cancel (floor_log2 x - 52)) as Hc.
      assert (E52 : (2 ^ floor_log2 x
                     == 2 ^ (floor_log2 x - 52) * 2 ^ 52)%Q).
      { rewrite <- pow2_plus. now replace (floor_log2 x - 52 + 52)
          with (floor_log2 x) by lia. }
      pose proof (pow2_pos (floor_log2 x - 52)) as H1.
      pose proof (pow2_pos (- (floor_log2 x - 52))) as H2.
      assert (H52 : (1 <= 2 ^ 52)%Q) by (vm_compute; discriminate).
      apply Qle_trans
        with (2 ^ floor_log2 x * 2 ^ (- (floor_log2 x - 52)))%Q;
        [|apply Qmult_le_compat_r; [exact Hlow|now apply Qlt_le_weak]].
      rewrite E52.
      setoid_replace (2 ^ (floor_log2 x - 52) * 2 ^ 52
                      * 2 ^ (- (floor_log2 x - 52)))%Q
        with (2 ^ 52 * (2 ^ (- (floor_log2 x - 52))
                        * 2 ^ (floor_log2 x - 52)))%Q by ring.
      rewrite Hc. exact H52. }
  apply (round_half_even_ge _ 1) in Hy. rewrite Zle_Qle in Hy.
  apply pow2_le in He.
  pose proof (pow2_pos (ulp_exponent x)) as Hp.
  set (m := inject_Z (round_half_even (x * 2 ^ (- ulp_exponent x)))) in *.
  change (inject_Z 1) with 1%Q in Hy.
  set (p := (2 ^ ulp_exponent x)%Q) in *. set (s := (2 ^ (-1074))%Q) in *.
  nra.
Qed.

(** The rounding agrees with the kernel's binary64 division and
    multiplication on every pair of a count and a total up to 64, and on
    larger pairs. *)
Lemma rounding_agrees_with_hardware :
  forallb (fun total =>
             forallb (fun count => agrees_with_hardware count total)
                     (map Z.of_nat (seq 1 (Z.to_nat total))))
          (map Z.of_nat (seq 1 64)) = true /\
  forallb (fun pair => agrees_with_hardware (fst pair) (snd pair))
          [(13, 18); (1, 3); (2, 3); (1, 2 ^ 52 + 1); (3, 2 ^ 53 - 1);
           (123456789, 987654321); (2 ^ 53 - 1, 2 ^ 53 - 1);
           (999999, 1000000); (1, 4503599627370497)] = true.
Proof.
  split; vm_compute; reflexivity.
Qed.

(** ** Percentages *)

Lemma roundoff_constants :
  (0 < unit_roundoff)%Q /\ (0 < half_smallest)%Q /\
  (200 * unit_roundoff + 100 * (unit_roundoff * unit_roundoff)
   + (101 * half_smallest + 100 * (unit_roundoff * half_smallest))
   <= 2 ^ (-45))%Q /\
  (200 * unit_roundoff + 100 * (unit_roundoff * unit_roundoff)
   <= 2 ^ (-45))%Q /\
  (101 * half_smallest + 100 * (unit_roundoff * half_smallest)
   <= 2 ^ (-1068))%Q.
Proof.
  repeat split; vm_compute; discriminate.
Qed.

Lemma quotient_nonneg (c t : Z) :
  0 <= c -> 0 < t -> (0 <= inject_Z c / inject_Z t)%Q.
Proof.
  intros Hc Ht. apply Qle_shift_div_l.
  - change 0%Q with (inject_Z 0). now rewrite <- Zlt_Qlt.
  - rewrite Qmult_0_l. change 0%Q with (inject_Z 0). now rewrite <- Zle_Qle.
Qed.

Lemma quotient_le_1 (c t : Z) :
  c <= t -> 0 < t -> (inject_Z c / inject_Z t <= 1)%Q.
Proof.
  intros Hc Ht. apply Qle_shift_div_r.
  - change 0%Q with (inject_Z 0). now rewrite <- Zlt_Qlt.
  - rewrite Qmult_1_l. now rewrite <- Zle_Qle.
Qed.

(** The percentage [(c / t) * 100] against the exact [100 * c / t]: two
    roundings. *)
Lemma percent_error (c t : Z) :
  0 <= c -> 0 < t ->
  (Qabs (float_mul (true_div c t) 100 - 100 * inject_Z c / inject_Z t)
   <= (200 * unit_roundoff + 100 * (unit_roundoff * unit_roundoff))
      * (inject_Z c / inject_Z t)
      + (101 * half_smallest + 100 * (unit_roundoff * half_smallest)))%Q.
Proof.
  intros Hc Ht. unfold float_mul, true_div.
  setoid_replace (100 * inject_Z c / inject_Z t)%Q
    with (100 * (inject_Z c / inject_Z t))%Q by (unfold Qdiv; ring).
  pose proof (quotient_nonneg c t Hc Ht) as Hq.
  set (q := (inject_Z c / inject_Z t)%Q) in *.
  pose proof (binary64_error q) as H1.
  pose proof (binary64_nonneg q Hq) as Hx.
  rewrite (Qabs_of_nonneg q Hq) in H1.
  set (x := binary64 q) in *.
  pose proof (binary64_error (x * 100)) as H2.
  assert (Hy : (0 <= x * 100)%Q) by nra.
  rewrite (Qabs_of_nonneg _ Hy) in H2.
  set (p := binary64 (x * 100)) in *.
  destruct roundoff_constants as (Hu & Hs & _).
  set (u := unit_roundoff) in *. set (h := half_smallest) in *.
  apply Qabs_Qle_condition in H1, H2.
  destruct H1 as [H1l H1u], H2 as [H2l H2u].
  assert (Huq : (0 <= u * q)%Q) by nra.
  assert (Hux : (u * x <= u * q + u * (u * q) + u * h)%Q) by nra.
  apply Qabs_Qle_condition. split; nra.
Qed.

Lemma percent_close (c t : Z) :
  0 <= c <= t -> 0 < t ->
  (Qabs (float_mul (true_div c t) 100 - 100 * inject_Z c / inject_Z t)
   <= 2 ^ (-45))%Q.
Proof.
  intros [Hc Hct] Ht.
  eapply Qle_trans; [apply percent_error; assumption|].
  pose proof (quotient_nonneg c t Hc Ht) as Hq.
  pose proof (quotient_le_1 c t Hct Ht) as Hq1.
  destruct roundoff_constants as (Hu & Hs & C & _).
  set (q := (inject_Z c / inject_Z t)%Q) in *.
  set (u := unit_roundoff) in *. set (h := half_smallest) in *.
  set (b := (2 ^ (-45))%Q) in *.
  assert (Ha : (0 <= 200 * u + 100 * (u * u))%Q) by nra.
  nra.
Qed.

Lemma percent_range (c t : Z) :
  0 <= c <= t -> 0 < t ->
  (0 <= float_mul (true_div c t) 100 <= 100)%Q.
Proof.
  intros [Hc Hct] Ht. unfold float_mul, true_div.
  pose proof (quotient_nonneg c t Hc Ht) as Hq.
  pose proof (quotient_le_1 c t Hct Ht) as Hq1.
  set (q := (inject_Z c / inject_Z t)%Q) in *.
  pose proof (binary64_nonneg q Hq) as Hx.
  assert (Hx1 : (binary64 q <= 1)%Q).
  { destruct (Qeq_dec q 0) as [H0|H0].
    - rewrite (binary64_zero q H0). discriminate.
    - apply (binary64_le_integer q 1); [|exact Hq1|].
      + apply Qle_lt_or_eq in Hq. destruct Hq as [H|H]; [exact H|].
        destruct H0. now symmetry.
      + eapply Qle_lt_trans; [exact Hq1|reflexivity]. }
  set (x := binary64 q) in *.
  assert (Hy : (0 <= x * 100)%Q) by nra.
  assert (Hy1 : (x * 100 <= inject_Z 100)%Q)
    by (change (inject_Z 100) with 100%Q; nra).
  split; [now apply binary64_nonneg|].
  destruct (Qeq_dec (x * 100) 0) as [H0|H0].
  - rewrite (binary64_zero _ H0). discriminate.
  - apply (binary64_le_integer (x * 100) 100); [|exact Hy1|].
    + apply Qle_lt_or_eq in Hy. destruct Hy as [H|H]; [exact H|].
      destruct H0. now symmetry.
    + eapply Qle_lt_trans; [exact Hy1|reflexivity].
Qed.

Lemma percent_positive (c t : Z) :
  1 <= c -> 0 < t <= 2 ^ 1074 ->
  (0 < float_mul (true_div c t) 100)%Q.
Proof.
  intros Hc [Ht Ht']. unfold float_mul, true_div.
  pose proof (pow2_pos (-1074)) as Hs.
  assert (Hq : (2 ^ (-1074) <= inject_Z c / inject_Z t)%Q).
  { apply Qle_shift_div_l.
    - change 0%Q with (inject_Z 0). now rewrite <- Zlt_Qlt.
    - rewrite Zle_Qle, pow2_inject in Ht' by lia.
      rewrite Zle_Qle in Hc. change (inject_Z 1) with 1%Q in Hc.
      pose proof (pow2_opp_cancel 1074) as Hcancel.
      change (- 1074) with (-1074) in Hcancel.
      apply Qle_trans with (2 ^ (-1074) * 2 ^ 1074)%Q.
      + apply Qmult_le_l; assumption.
      + rewrite Hcancel. exact Hc. }
  apply binary64_positive in Hq.
  set (x := binary64 (inject_Z c / inject_Z t)) in *.
  assert (Hy : (2 ^ (-1074) <= x * 100)%Q) by nra.
  apply binary64_positive in Hy.
  eapply Qlt_le_trans; eassumption.
Qed.

(** ** Dictionaries and counters *)

Lemma dict_get_set_same {V} (k : string) (v : V) (d : Dict.t V) :
  Dict.get k (Dict.set k v d) = Some v.
Proof.
  induction d as [|[k' v'] d IH]; simpl.
  - now rewrite String.eqb_refl.
  - destruct (String.eqb k k') eqn:E; simpl; rewrite E; auto.
Qed.

Lemma dict_get_set_other {V} (k k0 : string) (v : V) (d : Dict.t V) :
  k0 <> k -> Dict.get k0 (Dict.set k v d) = Dict.get k0 d.
Proof.
  intros Hne. induction d as [|[k' v'] d IH]; simpl.
  - destruct (String.eqb k0 k) eqn:E; auto.
    apply String.eqb_eq in E. contradiction.
  - destruct (String.eqb k k') eqn:E; simpl.
    + apply String.eqb_eq in E. subst k'.
      destruct (String.eqb k0 k) eqn:E0; auto.
      apply String.eqb_eq in E0. contradiction.
    + now rewrite IH.
Qed.

Lemma counter_get_add (k k0 : string) (n : Z) (c : Counter.t) :
  Counter.get k0 (Counter.add k n c)
  = Counter.get k0 c + (if String.eqb k0 k then n else 0).
Proof.
  unfold Counter.add, Counter.get at 1.
  destruct (String.eqb k0 k) eqn:E.
  - apply String.eqb_eq in E. subst k0. now rewrite dict_get_set_same.
  - apply String.eqb_neq in E. rewrite dict_get_set_other by assumption.
    fold (Counter.get k0 c). lia.
Qed.

Lemma counter_total_set (k : string) (v : Z) (c : Counter.t) :
  Counter.total (Dict.set k v c) = Counter.total c - Counter.get k c + v.
Proof.
  unfold Counter.total, Counter.get, Dict.values.
  induction c as [|[k' v'] c IH]; simpl.
  - lia.
  - destruct (String.eqb k k') eqn:E; simpl; lia.
Qed.

Lemma counter_total_add (k : string) (n : Z) (c : Counter.t) :
  Counter.total (Counter.add k n c) = Counter.total c + n.
Proof. unfold Counter.add. rewrite counter_total_set. lia. Qed.

Lemma dict_keys_set {V} (k : string) (v : V) (d : Dict.t V) :
  Dict.keys (Dict.set k v d)
  = if in_dec string_dec k (Dict.keys d) then Dict.keys d
    else (Dict.keys d ++ [k])%list.
Proof.
  unfold Dict.keys.
  induction d as [|[k' v'] d IH]; simpl.
  - reflexivity.
  - destruct (String.eqb k k') eqn:E; simpl.
    + apply String.eqb_eq in E. subst k'.
      destruct (string_dec k k) as [Heq|N]; [reflexivity | contradiction].
    + apply String.eqb_neq in E.
      destruct (string_dec k' k) as [Heq|Hne]; [congruence|].
      rewrite IH.
      destruct (in_dec string_dec k (map fst d)); reflexivity.
Qed.

Lemma dict_keys_set_nodup {V} (k : string) (v : V) (d : Dict.t V) :
  NoDup (Dict.keys d) -> NoDup (Dict.keys (Dict.set k v d)).
Proof.
  intros H. rewrite dict_keys_set.
  destruct (in_dec string_dec k (Dict.keys d)) as [|Hn]; [assumption|].
  apply NoDup_rev in H. rewrite <- (rev_involutive (_ ++ [k])%list).
  apply NoDup_rev. rewrite rev_app_distr. simpl.
  constructor; [|assumption]. now rewrite <- in_rev.
Qed.

Lemma counter_get_nonneg (k : string) (c : Counter.t) :
  Forall (fun kv => 0 < snd kv) c -> 0 <= Counter.get k c.
Proof.
  unfold Counter.get. induction 1 as [|[k' v'] c Hv _ IH]; simpl.
  - lia.
  - destruct (String.eqb k k'); simpl in *; lia.
Qed.

Lemma dict_set_forall {V} (P : string * V -> Prop) (k : string) (v : V)
    (d : Dict.t V) :
  (forall k', P (k', v)) -> Forall P d -> Forall P (Dict.set k v d).
Proof.
  intros Hv. induction 1 as [|[k' v'] d Hx Hd IH]; simpl.
  - constructor; auto.
  - destruct (String.eqb k k'); constructor; auto.
Qed.

Lemma counter_add_positive (k : string) (n : Z) (c : Counter.t) :
  0 < n -> Forall (fun kv => 0 < snd kv) c ->
  Forall (fun kv => 0 < snd kv) (Counter.add k n c).
Proof.
  intros Hn Hc. unfold Counter.add. apply dict_set_forall; [|assumption].
  intros k'. simpl. pose proof (counter_get_nonneg k c Hc). lia.
Qed.

Lemma counter_positive_total_zero (c : Counter.t) :
  Forall (fun kv => 0 < snd kv) c -> Counter.total c = 0 -> c = [].
Proof.
  intros Hc. unfold Counter.total, Dict.values.
  assert (Hge : forall l : Counter.t, Forall (fun kv => 0 < snd kv) l ->
                 0 <= fold_right Z.add 0 (map snd l)).
  { induction 1; simpl; lia. }
  destruct Hc as [|x c Hx Hc]; [reflexivity|].
  simpl. intros Ht. specialize (Hge c Hc). lia.
Qed.

(** ** One message *)

Lemma process_message_nonbot (m : Message) (cn : string) (it : bool)
    (w : World) :
  author_bot (msg_author m) = Some false ->
  _process_message m cn it w
  = _process_attachments m (author_name_of (msg_author m))
      (run_on (count_message m cn it (w_stats w)) (w_trace w)).
Proof.
  intros Hbot. unfold _process_message. rewrite Hbot. reflexivity.
Qed.

Lemma process_attachments_images (m : Message) (name : string) (w : World)
    (imgs : list Attachment) :
  image_attachments m = Ok imgs ->
  _process_attachments m name w
  = (Ok tt,
     run_on (match imgs with
             | [] => w_stats w
             | _ :: _ =>
                 count_pictures name (Z.of_nat (List.length imgs)) (w_stats w)
             end) (w_trace w)).
Proof.
  intros Himgs. unfold _process_attachments, try_except, bind, lift.
  rewrite Himgs. destruct w as [s tr]. destruct imgs; reflexivity.
Qed.

Lemma process_attachments_raise (m : Message) (name : string) (w : World)
    (e : exn) :
  image_attachments m = Raise e ->
  _process_attachments m name w
  = (Ok tt, run_on (w_stats w) (w_trace w ++ [LogAttachmentError e])).
Proof.
  intros Himgs. unfold _process_attachments, try_except, bind, lift.
  rewrite Himgs. reflexivity.
Qed.

(** The pictures a message adds: the number of its image attachments, or
    none when reading them raises. *)
Lemma process_message_pictures (m : Message) (cn : string) (it : bool)
    (w : World) :
  author_bot (msg_author m) = Some false ->
  exists k tr',
    0 <= k /\
    (image_attachments m = Ok [] \/ (exists e, image_attachments m = Raise e)
     -> k = 0) /\
    (forall imgs, image_attachments m = Ok imgs ->
                  k = Z.of_nat (List.length imgs)) /\
    _process_message m cn it w
    = (Ok tt,
       run_on (if k =? 0 then count_message m cn it (w_stats w)
               else count_pictures (author_name_of (msg_author m)) k
                      (count_message m cn it (w_stats w)))
              (w_trace w ++ tr')%list) /\
    history_requests tr' = [].
Proof.
  intros Hbot. rewrite process_message_nonbot by assumption.
  destruct (image_attachments m) as [imgs|e] eqn:Himgs.
  - exists (Z.of_nat (List.length imgs)), [].
    rewrite (process_attachments_images _ _ _ imgs Himgs).
    rewrite app_nil_r. repeat split.
    + lia.
    + intros [H|[e H]]; [injection H as ->; reflexivity | discriminate].
    + intros imgs' H. injection H as ->. reflexivity.
    + destruct imgs; reflexivity.
  - exists 0, [LogAttachmentError e].
    rewrite (process_attachments_raise _ _ _ e Himgs).
    repeat split; try lia; try reflexivity.
    intros imgs H. discriminate.
Qed.

(** The message counters after a message of a non-bot author, whatever
    its attachments do. *)
Lemma process_message_counts (m : Message) (cn : string) (it : bool)
    (w : World) :
  author_bot (msg_author m) = Some false ->
  let name := author_name_of (msg_author m) in
  let s := w_stats w in
  let s' := w_stats (snd (_process_message m cn it w)) in
  fst (_process_message m cn it w) = Ok tt /\
  total_messages s' = total_messages s + 1 /\
  messages_per_author s' = Counter.add name 1 (messages_per_author s) /\
  messages_per_author_id s'
  = Dict.set name (str_of_int (author_id (msg_author m)))
      (messages_per_author_id s) /\
  messages_per_channel s' = Counter.add cn 1 (messages_per_channel s) /\
  messages_per_channel_id s'
  = Dict.set cn (msg_channel_id m) (messages_per_channel_id s) /\
  messages_per_thread s'
  = (if it then Counter.add cn 1 (messages_per_thread s)
     else messages_per_thread s) /\
  messages_per_thread_id s'
  = (if it then Dict.set cn (msg_channel_id m) (messages_per_thread_id s)
     else messages_per_thread_id s) /\
  total_thread_messages s'
  = (if it then total_thread_messages s + 1 else total_thread_messages s) /\
  days_in_period s' = days_in_period s /\
  bot_id s' = bot_id s.
Proof.
  intros Hbot name s s'. subst s' s.
  destruct (process_message_pictures m cn it w Hbot)
    as (k & tr' & _ & _ & _ & Hrun & _).
  rewrite Hrun. cbn [fst snd run_on w_stats].
  destruct (k =? 0); repeat split.
Qed.

(** C1 as stated fails: the author's entry is found by the display name, so
    a message of one account raises the entry that holds the count of
    another account with the same name, and overwrites the id stored with
    it. After a message of "sam" with id 3, a message of the "sam" with
    id 4 takes the entry from 1 to 2 and the stored id from "3" to "4". *)
Lemma namesake_message_changes_entry :
  let s :=
    stats_after [in_general (message_from sam_first (Ok []))] new_stats in
  let s' :=
    w_stats (snd (_process_message (message_from sam_second (Ok []))
                    "#general" false (run_on s []))) in
  author_id sam_first <> author_id sam_second /\
  Counter.get (author_name_of sam_first) (messages_per_author s) = 1 /\
  Counter.get (author_name_of sam_first) (messages_per_author s') = 2 /\
  Dict.get (author_name_of sam_first) (messages_per_author_id s) = Some "3" /\
  Dict.get (author_name_of sam_first) (messages_per_author_id s') = Some "4" /\
  ~ (forall (w : World) (m : Message) (cn : string) (it : bool)
            (other : Author),
        author_bot (msg_author m) = Some false ->
        author_id other <> author_id (msg_author m) ->
        let s := w_stats w in
        let s' := w_stats (snd (_process_message m cn it w)) in
        Counter.get (author_name_of other) (messages_per_author s')
        = Counter.get (author_name_of other) (messages_per_author s) /\
        Dict.get (author_name_of other) (messages_per_author_id s')
        = Dict.get (author_name_of other) (messages_per_author_id s)).
Proof.
  cbv zeta. split; [discriminate|]. split; [reflexivity|].
  split; [reflexivity|]. split; [reflexivity|]. split; [reflexivity|].
  intros H.
  destruct (H (run_on (stats_after
                         [in_general (message_from sam_first (Ok []))]
                         new_stats) [])
              (message_from sam_second (Ok [])) "#general" false sam_first
              eq_refl) as [Hcount _]; [discriminate|].
  vm_compute in Hcount. discriminate Hcount.
Qed.

(** C1, amended. Recording a message whose author is not a bot and whose
    image attachments, [k] of them, are read without error: [total_messages]
    grows by one; the entry of [messages_per_author] under the author's
    display name (the fallback name when it has none) grows by one and the
    author's id is stored under that name, whoever held the entry before;
    the channel's counter grows by one and its id is stored; for a thread
    the thread's counter and [total_thread_messages] grow by one as well;
    the picture counter under the author's name and [total_pictures] grow
    by [k]; every entry under another name and every other field keeps its
    value. *)
Theorem process_message_updates (m : Message) (cn : string) (it : bool)
    (w : World) (imgs : list Attachment) :
  author_bot (msg_author m) = Some false ->
  image_attachments m = Ok imgs ->
  let name := author_name_of (msg_author m) in
  let k := Z.of_nat (List.length imgs) in
  let s := w_stats w in
  let s' := w_stats (snd (_process_message m cn it w)) in
  fst (_process_message m cn it w) = Ok tt /\
  total_messages s' = total_messages s + 1 /\
  (forall a, Counter.get a (messages_per_author s')
             = Counter.get a (messages_per_author s)
               + (if String.eqb a name then 1 else 0)) /\
  Dict.get name (messages_per_author_id s')
  = Some (str_of_int (author_id (msg_author m))) /\
  (forall a, a <> name -> Dict.get a (messages_per_author_id s')
                          = Dict.get a (messages_per_author_id s)) /\
  (forall c, Counter.get c (messages_per_channel s')
             = Counter.get c (messages_per_channel s)
               + (if String.eqb c cn then 1 else 0)) /\
  Dict.get cn (messages_per_channel_id s') = Some (msg_channel_id m) /\
  (forall c, c <> cn -> Dict.get c (messages_per_channel_id s')
                        = Dict.get c (messages_per_channel_id s)) /\
  (if it
   then (forall t, Counter.get t (messages_per_thread s')
                   = Counter.get t (messages_per_thread s)
                     + (if String.eqb t cn then 1 else 0)) /\
        Dict.get cn (messages_per_thread_id s') = Some (msg_channel_id m) /\
        (forall t, t <> cn -> Dict.get t (messages_per_thread_id s')
                              = Dict.get t (messages_per_thread_id s)) /\
        total_thread_messages s' = total_thread_messages s + 1
   else messages_per_thread s' = messages_per_thread s /\
        messages_per_thread_id s' = messages_per_thread_id s /\
        total_thread_messages s' = total_thread_messages s) /\
  (forall a, Counter.get a (pictures_per_author s')
             = Counter.get a (pictures_per_author s)
               + (if String.eqb a name then k else 0)) /\
  (k = 0 -> pictures_per_author s' = pictures_per_author s) /\
  total_pictures s' = total_pictures s + k /\
  days_in_period s' = days_in_period s /\
  bot_id s' = bot_id s.
Proof.
  intros Hbot Himgs name k s s'. subst s' s.
  rewrite process_message_nonbot by assumption.
  rewrite (process_attachments_images _ _ _ imgs Himgs).
  destruct w as [s tr].
  cbn [fst snd w_stats w_trace run_on].
  split; [reflexivity|].
  assert (Hpics :
    forall a, Counter.get a
                (pictures_per_author
                   (match imgs with
                    | [] => count_message m cn it s
                    | _ :: _ => count_pictures name k (count_message m cn it s)
                    end))
              = Counter.get a (pictures_per_author s)
                + (if String.eqb a name then k else 0)).
  { intros a. destruct imgs as [|a0 imgs].
    - subst k. simpl. destruct (String.eqb a name); lia.
    - cbn [count_pictures pictures_per_author count_message].
      apply counter_get_add. }
  assert (Hzero :
    k = 0 ->
    pictures_per_author
      (match imgs with
       | [] => count_message m cn it s
       | _ :: _ => count_pictures name k (count_message m cn it s)
       end) = pictures_per_author s).
  { destruct imgs as [|a0 imgs]; [reflexivity|].
    subst k. simpl List.length. lia. }
  assert (Htotal :
    total_pictures
      (match imgs with
       | [] => count_message m cn it s
       | _ :: _ => count_pictures name k (count_message m cn it s)
       end) = total_pictures s + k).
  { destruct imgs as [|a0 imgs]; [|reflexivity].
    subst k. simpl. lia. }
  fold name. fold k.
  replace (match imgs with
           | [] => count_message m cn it s
           | _ :: _ =>
               count_pictures name (Z.of_nat (List.length imgs))
                 (count_message m cn it s)
           end)
    with (match imgs with
          | [] => count_message m cn it s
          | _ :: _ => count_pictures name k (count_message m cn it s)
          end) by reflexivity.
  set (s1 := match imgs with
             | [] => count_message m cn it s
             | _ :: _ => count_pictures name k (count_message m cn it s)
             end) in *.
  assert (Hs1 : s1 = w_stats (snd (_process_message m cn it (run_on s tr)))).
  { rewrite process_message_nonbot by assumption.
    rewrite (process_attachments_images _ _ _ imgs Himgs). reflexivity. }
  destruct (process_message_counts m cn it (run_on s tr) Hbot)
    as (_ & E1 & E2 & E3 & E4 & E5 & E6 & E7 & E8 & E9 & E10).
  rewrite <- Hs1 in E1, E2, E3, E4, E5, E6, E7, E8, E9, E10.
  cbn [run_on w_stats] in E1, E2, E3, E4, E5, E6, E7, E8, E9, E10.
  fold name in E2, E3.
  rewrite E1, E2, E3, E4, E5, E6, E7, E8, E9, E10.
  repeat match goal with |- _ /\ _ => split end;
    try assumption; try reflexivity.
  - intros a. apply counter_get_add.
  - apply dict_get_set_same.
  - intros a Ha. now apply dict_get_set_other.
  - intros c. apply counter_get_add.
  - apply dict_get_set_same.
  - intros c Hc. now apply dict_get_set_other.
  - destruct it.
    + repeat split.
      * intros t. apply counter_get_add.
      * apply dict_get_set_same.
      * intros t Ht. now apply dict_get_set_other.
    + repeat split.
Qed.

Lemma process_message_updates_witness :
  author_bot (msg_author (message_from alice (Ok [image_png; text_plain])))
  = Some false /\
  image_attachments (message_from alice (Ok [image_png; text_plain]))
  = Ok [image_png] /\
  total_pictures
    (w_stats (snd (_process_message
                     (message_from alice (Ok [image_png; text_plain]))
                     "#general" false (run_on new_stats []))))
  = total_pictures new_stats + 1.
Proof.
  split; [reflexivity|]. split; [reflexivity|].
  apply (process_message_updates
           (message_from alice (Ok [image_png; text_plain]))
           "#general" false (run_on new_stats []) [image_png]
           eq_refl eq_refl).
Defined.

(** C4. Recording a message whose author is a bot returns normally and
    leaves the statistics object, every field of it, and the trace as they
    were. *)
Theorem bot_message_is_noop (m : Message) (cn : string) (it : bool)
    (w : World) :
  author_bot (msg_author m) = Some true ->
  _process_message m cn it w = (Ok tt, w).
Proof.
  intros Hbot. unfold _process_message. rewrite Hbot. reflexivity.
Qed.

Lemma bot_message_is_noop_witness :
  author_bot (msg_author (message_from helper_bot (Ok [image_png])))
  = Some true /\
  _process_message (message_from helper_bot (Ok [image_png])) "#general"
    true (run_on new_stats [])
  = (Ok tt, run_on new_stats []).
Proof.
  split; [reflexivity|].
  apply (bot_message_is_noop (message_from helper_bot (Ok [image_png]))
           "#general" true (run_on new_stats []) eq_refl).
Defined.

(** C10. When reading or classifying the attachments of a non-bot message
    raises, the call still returns normally, the message has been counted
    in [total_messages] and in the author, channel and thread counters, and
    [pictures_per_author] and [total_pictures] are unchanged. *)
Theorem attachment_error_keeps_message (m : Message) (cn : string)
    (it : bool) (w : World) (e : exn) :
  author_bot (msg_author m) = Some false ->
  image_attachments m = Raise e ->
  let name := author_name_of (msg_author m) in
  let s := w_stats w in
  let s' := w_stats (snd (_process_message m cn it w)) in
  fst (_process_message m cn it w) = Ok tt /\
  total_messages s' = total_messages s + 1 /\
  Counter.get name (messages_per_author s')
  = Counter.get name (messages_per_author s) + 1 /\
  Counter.get cn (messages_per_channel s')
  = Counter.get cn (messages_per_channel s) + 1 /\
  Counter.get cn (messages_per_thread s')
  = Counter.get cn (messages_per_thread s) + (if it then 1 else 0) /\
  total_thread_messages s'
  = total_thread_messages s + (if it then 1 else 0) /\
  pictures_per_author s' = pictures_per_author s /\
  total_pictures s' = total_pictures s.
Proof.
  intros Hbot Himgs name s s'.
  destruct (process_message_counts m cn it w Hbot)
    as (Hok & E1 & E2 & _ & E4 & _ & E6 & _ & E8 & _ & _).
  fold s' s name in E1, E2, E4, E6, E8.
  split; [assumption|]. split; [assumption|].
  rewrite E2, E4, E6, E8, !counter_get_add, !String.eqb_refl.
  repeat split.
  - destruct it; [|lia]. now rewrite counter_get_add, String.eqb_refl.
  - destruct it; lia.
  - subst s' s. rewrite process_message_nonbot by assumption.
    now rewrite (process_attachments_raise _ _ _ e Himgs).
  - subst s' s. rewrite process_message_nonbot by assumption.
    now rewrite (process_attachments_raise _ _ _ e Himgs).
Qed.

Lemma attachment_error_keeps_message_witness :
  author_bot
    (msg_author (message_from alice (Ok [image_png; unreadable_attachment])))
  = Some false /\
  image_attachments (message_from alice (Ok [image_png; unreadable_attachment]))
  = Raise AttributeError /\
  total_pictures
    (w_stats (snd (_process_message
                     (message_from alice
                        (Ok [image_png; unreadable_attachment]))
                     "#general" false (run_on new_stats []))))
  = total_pictures new_stats.
Proof.
  split; [reflexivity|]. split; [reflexivity|].
  apply (attachment_error_keeps_message
           (message_from alice (Ok [image_png; unreadable_attachment]))
           "#general" false (run_on new_stats []) AttributeError
           eq_refl eq_refl).
Defined.

(** ** Sequences of messages *)

Lemma process_message_run (m : Message) (cn : string) (it : bool)
    (w : World) :
  exists tr',
    _process_message m cn it w
    = (Ok tt,
       run_on (apply_call {| call_message := m; call_channel_name := cn;
                             call_is_thread := it |} (w_stats w))
              (w_trace w ++ tr')%list) /\
    history_requests tr' = [].
Proof.
  unfold apply_call, record_message. cbn [call_message call_channel_name
    call_is_thread].
  destruct (author_bot (msg_author m)) as [[|]|] eqn:Hbot.
  - exists []. unfold _process_message. rewrite Hbot.
    destruct w as [s tr]. cbn. now rewrite app_nil_r.
  - rewrite !process_message_nonbot by assumption.
    destruct (image_attachments m) as [imgs|e] eqn:Himgs.
    + exists [].
      rewrite !(process_attachments_images _ _ _ imgs Himgs).
      cbn. now rewrite app_nil_r.
    + exists [LogAttachmentError e].
      rewrite !(process_attachments_raise _ _ _ e Himgs).
      cbn. split; reflexivity.
  - exists []. unfold _process_message. rewrite Hbot.
    destruct w as [s tr]. cbn. now rewrite app_nil_r.
Qed.

Lemma for_each_messages_run (msgs : list Message) (cn : string) (it : bool)
    (w : World) :
  exists tr',
    for_each msgs (fun m => _process_message m cn it) w
    = (Ok tt,
       run_on (fold_left (fun s c => apply_call c s)
                 (map (fun m => {| call_message := m;
                                   call_channel_name := cn;
                                   call_is_thread := it |}) msgs)
                 (w_stats w))
              (w_trace w ++ tr')%list) /\
    history_requests tr' = [].
Proof.
  revert w. induction msgs as [|m msgs IH]; intros w.
  - exists []. destruct w as [s tr]. cbn. now rewrite app_nil_r.
  - destruct (process_message_run m cn it w) as (tr1 & Hrun & Hreq1).
    cbn [for_each map fold_left]. unfold bind at 1. rewrite Hrun.
    destruct (IH (run_on (apply_call {| call_message := m;
                                        call_channel_name := cn;
                                        call_is_thread := it |} (w_stats w))
                         (w_trace w ++ tr1)%list))
      as (tr2 & Hrun2 & Hreq2).
    exists (tr1 ++ tr2)%list. rewrite Hrun2.
    cbn [run_on w_stats w_trace]. rewrite app_assoc. split; [reflexivity|].
    unfold history_requests in *. rewrite flat_map_app, Hreq1, Hreq2.
    reflexivity.
Qed.

Lemma record_all_run (calls : list Call) (w : World) :
  exists tr',
    record_all calls w
    = (Ok tt,
       run_on (fold_left (fun s c => apply_call c s) calls (w_stats w))
              (w_trace w ++ tr')%list) /\
    history_requests tr' = [].
Proof.
  unfold record_all. revert w.
  induction calls as [|[m cn it] calls IH]; intros w.
  - exists []. destruct w as [s tr]. cbn. now rewrite app_nil_r.
  - destruct (process_message_run m cn it w) as (tr1 & Hrun & Hreq1).
    cbn [for_each fold_left]. unfold bind at 1.
    unfold record_message at 1. cbn [call_message call_channel_name call_is_thread].
    rewrite Hrun.
    destruct (IH (run_on (apply_call {| call_message := m;
                                        call_channel_name := cn;
                                        call_is_thread := it |} (w_stats w))
                         (w_trace w ++ tr1)%list))
      as (tr2 & Hrun2 & Hreq2).
    exists (tr1 ++ tr2)%list. rewrite Hrun2.
    cbn [run_on w_stats w_trace]. rewrite app_assoc. split; [reflexivity|].
    unfold history_requests in *. rewrite flat_map_app, Hreq1, Hreq2.
    reflexivity.
Qed.

Lemma stats_after_fold (calls : list Call) (s : MessageStatisticsData) :
  stats_after calls s = fold_left (fun s c => apply_call c s) calls s.
Proof.
  unfold stats_after.
  destruct (record_all_run calls (run_on s [])) as (tr' & Hrun & _).
  rewrite Hrun. reflexivity.
Qed.

(** A call either leaves the statistics alone (bot author) or counts the
    message and then its pictures. *)
Lemma apply_call_cases (c : Call) (s : MessageStatisticsData) :
  (author_bot (msg_author (call_message c)) <> Some false /\
   apply_call c s = s) \/
  (author_bot (msg_author (call_message c)) = Some false /\
   apply_call c s
   = if pictures_in (call_message c) =? 0
     then count_message (call_message c) (call_channel_name c)
            (call_is_thread c) s
     else count_pictures (author_name_of (msg_author (call_message c)))
            (pictures_in (call_message c))
            (count_message (call_message c) (call_channel_name c)
               (call_is_thread c) s)).
Proof.
  destruct c as [m cn it]. unfold apply_call, record_message, pictures_in.
  cbn [call_message call_channel_name call_is_thread].
  destruct (author_bot (msg_author m)) as [[|]|] eqn:Hbot.
  - left. split; [discriminate|].
    unfold _process_message. rewrite Hbot. reflexivity.
  - right. split; [reflexivity|].
    rewrite process_message_nonbot by assumption.
    destruct (image_attachments m) as [imgs|e] eqn:Himgs.
    + rewrite (process_attachments_images _ _ _ imgs Himgs).
      destruct imgs; reflexivity.
    + rewrite (process_attachments_raise _ _ _ e Himgs). reflexivity.
  - left. split; [discriminate|].
    unfold _process_message. rewrite Hbot. reflexivity.
Qed.

Lemma pictures_in_nonneg (m : Message) : 0 <= pictures_in m.
Proof. unfold pictures_in. destruct (image_attachments m); lia. Qed.

Lemma count_message_consistent (m : Message) (cn : string) (it : bool)
    (s : MessageStatisticsData) :
  consistent s -> consistent (count_message m cn it s).
Proof.
  intros (H1 & H2 & H3 & H4). unfold consistent.
  cbn [count_message total_messages messages_per_channel messages_per_author
       total_thread_messages messages_per_thread total_pictures
       pictures_per_author].
  rewrite !counter_total_add. repeat split; try lia.
  destruct it; [rewrite counter_total_add|]; lia.
Qed.

Lemma count_pictures_consistent (name : string) (k : Z)
    (s : MessageStatisticsData) :
  consistent s -> consistent (count_pictures name k s).
Proof.
  intros (H1 & H2 & H3 & H4). unfold consistent.
  cbn [count_pictures total_messages messages_per_channel messages_per_author
       total_thread_messages messages_per_thread total_pictures
       pictures_per_author].
  rewrite counter_total_add. repeat split; lia.
Qed.

Lemma counter_add_ok (k : string) (n : Z) (c : Counter.t) :
  0 < n -> counter_ok c -> counter_ok (Counter.add k n c).
Proof.
  intros Hn [Hpos Hnd]. split.
  - now apply counter_add_positive.
  - unfold Counter.add. now apply dict_keys_set_nodup.
Qed.

Lemma count_message_counters_ok (m : Message) (cn : string) (it : bool)
    (s : MessageStatisticsData) :
  counters_ok s -> counters_ok (count_message m cn it s).
Proof.
  intros (H1 & H2 & H3 & H4). unfold counters_ok.
  cbn [count_message messages_per_channel messages_per_author
       messages_per_thread pictures_per_author].
  repeat split; try (apply counter_add_ok; [lia|]); try apply H1;
    try apply H2; try apply H4.
  - destruct it; [apply counter_add_positive; [lia|]|]; apply H3.
  - destruct it; [apply dict_keys_set_nodup|]; apply H3.
Qed.

Lemma count_pictures_counters_ok (name : string) (k : Z)
    (s : MessageStatisticsData) :
  0 < k -> counters_ok s -> counters_ok (count_pictures name k s).
Proof.
  intros Hk (H1 & H2 & H3 & H4). unfold counters_ok.
  cbn [count_pictures messages_per_channel messages_per_author
       messages_per_thread pictures_per_author].
  repeat split; try apply H1; try apply H2; try apply H3;
    now apply counter_add_ok.
Qed.

Lemma apply_call_invariant (c : Call) (s : MessageStatisticsData) :
  consistent s /\ counters_ok s ->
  consistent (apply_call c s) /\ counters_ok (apply_call c s).
Proof.
  intros [Hc Ho].
  destruct (apply_call_cases c s) as [[_ ->]|[_ ->]]; [now split|].
  pose proof (pictures_in_nonneg (call_message c)) as Hk.
  destruct (pictures_in (call_message c) =? 0) eqn:Ek.
  - split; [now apply count_message_consistent
           | now apply count_message_counters_ok].
  - apply Z.eqb_neq in Ek. split.
    + now apply count_pictures_consistent, count_message_consistent.
    + apply count_pictures_counters_ok; [lia|].
      now apply count_message_counters_ok.
Qed.

Lemma fold_calls_invariant (calls : list Call) (s : MessageStatisticsData) :
  consistent s /\ counters_ok s ->
  consistent (fold_left (fun s c => apply_call c s) calls s) /\
  counters_ok (fold_left (fun s c => apply_call c s) calls s).
Proof.
  revert s. induction calls as [|c calls IH]; intros s H; [assumption|].
  simpl. apply IH. now apply apply_call_invariant.
Qed.

Lemma new_stats_invariant : consistent new_stats /\ counters_ok new_stats.
Proof.
  split.
  - repeat split.
  - repeat split; constructor.
Qed.

Lemma stats_after_invariant (calls : list Call) :
  consistent (stats_after calls new_stats) /\
  counters_ok (stats_after calls new_stats).
Proof.
  rewrite stats_after_fold. apply fold_calls_invariant, new_stats_invariant.
Qed.

Lemma record_all_stats (calls : list Call) (s : MessageStatisticsData)
    (tr : list Event) :
  fst (record_all calls (run_on s tr)) = Ok tt /\
  w_stats (snd (record_all calls (run_on s tr))) = stats_after calls s.
Proof.
  rewrite stats_after_fold.
  destruct (record_all_run calls (run_on s tr)) as (tr' & Hrun & _).
  rewrite Hrun. split; reflexivity.
Qed.

Lemma apply_call_channel_bucket (c : Call) (s : MessageStatisticsData)
    (k : string) :
  Counter.get k (messages_per_channel (apply_call c s))
  = Counter.get k (messages_per_channel s)
    + (if String.eqb k (call_channel_name c)
       then total_messages (apply_call c s) - total_messages s
       else 0).
Proof.
  destruct (apply_call_cases c s) as [[_ ->]|[_ ->]].
  - destruct (String.eqb k (call_channel_name c)); lia.
  - destruct (pictures_in (call_message c) =? 0);
      cbn [count_pictures count_message messages_per_channel total_messages];
      rewrite counter_get_add;
      destruct (String.eqb k (call_channel_name c)); lia.
Qed.

(** C2. After any sequence of recorded messages on a fresh container,
    [total_messages] is the sum of the values of [messages_per_channel];
    a message, of a thread or not, is counted in the bucket of the name it
    is recorded under and in no other bucket. *)
Theorem total_messages_is_channel_sum (calls : list Call) (tr : list Event) :
  let r := record_all calls (run_on new_stats tr) in
  fst r = Ok tt /\
  total_messages (w_stats (snd r))
  = Counter.total (messages_per_channel (w_stats (snd r))) /\
  (forall c s k,
      Counter.get k (messages_per_channel (apply_call c s))
      = Counter.get k (messages_per_channel s)
        + (if String.eqb k (call_channel_name c)
           then total_messages (apply_call c s) - total_messages s
           else 0)).
Proof.
  cbv zeta. destruct (record_all_stats calls new_stats tr) as [Hok ->].
  split; [assumption|]. split.
  - apply (stats_after_invariant calls).
  - intros c s k. apply apply_call_channel_bucket.
Qed.

Lemma fold_calls_pictures_bound (calls : list Call)
    (s : MessageStatisticsData) :
  (forall c imgs, In c calls ->
                  image_attachments (call_message c) = Ok imgs ->
                  (List.length imgs <= 1)%nat) ->
  total_pictures s <= total_messages s ->
  total_pictures (fold_left (fun s c => apply_call c s) calls s)
  <= total_messages (fold_left (fun s c => apply_call c s) calls s).
Proof.
  revert s. induction calls as [|c calls IH]; intros s Hone Hle;
    [assumption|].
  simpl. apply IH.
  - intros c' imgs Hin. apply Hone. now right.
  - destruct (apply_call_cases c s) as [[_ ->]|[_ ->]]; [assumption|].
    assert (Hk1 : pictures_in (call_message c) <= 1).
    { unfold pictures_in.
      destruct (image_attachments (call_message c)) as [imgs|e] eqn:Himgs;
        [|lia].
      specialize (Hone c imgs (or_introl eq_refl) Himgs). lia. }
    destruct (pictures_in (call_message c) =? 0);
      cbn [count_pictures count_message total_pictures total_messages]; lia.
Qed.

(** C3 as stated fails: one message with two image attachments leaves
    [total_pictures = 2] above [total_messages = 1]. *)
Lemma pictures_exceed_messages :
  ~ (forall calls : list Call,
        let s := stats_after calls new_stats in
        total_pictures s = Counter.total (pictures_per_author s) /\
        total_pictures s <= total_messages s).
Proof.
  intros H. destruct (H two_pictures) as [_ Hle].
  change (2 <= 1) in Hle. lia.
Qed.

(** C3, amended. After any sequence of recorded messages on a fresh
    container, [total_pictures] is the sum of the values of
    [pictures_per_author]; it is at most [total_messages] when no recorded
    message carries more than one image attachment. *)
Theorem total_pictures_is_author_sum (calls : list Call) (tr : list Event) :
  let s := w_stats (snd (record_all calls (run_on new_stats tr))) in
  total_pictures s = Counter.total (pictures_per_author s) /\
  ((forall c imgs, In c calls ->
                   image_attachments (call_message c) = Ok imgs ->
                   (List.length imgs <= 1)%nat) ->
   total_pictures s <= total_messages s).
Proof.
  cbv zeta. destruct (record_all_stats calls new_stats tr) as [_ ->].
  split.
  - apply (stats_after_invariant calls).
  - intros Hone. rewrite stats_after_fold.
    apply fold_calls_pictures_bound; [assumption|]. simpl. lia.
Qed.

Lemma total_pictures_is_author_sum_witness :
  (forall c imgs, In c one_picture ->
                  image_attachments (call_message c) = Ok imgs ->
                  (List.length imgs <= 1)%nat) /\
  total_pictures (w_stats (snd (record_all one_picture (run_on new_stats []))))
  <= total_messages
       (w_stats (snd (record_all one_picture (run_on new_stats [])))).
Proof.
  assert (H : forall c imgs, In c one_picture ->
                image_attachments (call_message c) = Ok imgs ->
                (List.length imgs <= 1)%nat).
  { intros c imgs [<-|[<-|[]]] Himgs; injection Himgs as <-; simpl; lia. }
  split; [exact H|].
  exact (proj2 (total_pictures_is_author_sum one_picture []) H).
Defined.

(** ** Grouping of authors *)

(** C8 as stated fails: two accounts with distinct ids and the same display
    name are counted in one entry of [messages_per_author]. *)
Lemma same_display_name_shares_entry :
  author_id sam_first <> author_id sam_second /\
  messages_per_author (stats_after two_sams new_stats) = [("sam", 2)] /\
  ~ (forall m1 m2 : Message,
        author_bot (msg_author m1) = Some false ->
        author_bot (msg_author m2) = Some false ->
        author_id (msg_author m1) <> author_id (msg_author m2) ->
        exists k1 k2,
          k1 <> k2 /\
          0 < Counter.get k1 (messages_per_author
                 (stats_after [in_general m1; in_general m2] new_stats)) /\
          0 < Counter.get k2 (messages_per_author
                 (stats_after [in_general m1; in_general m2] new_stats))).
Proof.
  split; [discriminate|]. split; [reflexivity|].
  intros H.
  destruct (H (message_from sam_first (Ok [])) (message_from sam_second (Ok []))
              eq_refl eq_refl) as (k1 & k2 & Hne & H1 & H2);
    [discriminate|].
  change (stats_after _ new_stats) with (stats_after two_sams new_stats)
    in H1, H2.
  replace (messages_per_author (stats_after two_sams new_stats))
    with [("sam", 2)] in H1, H2 by reflexivity.
  unfold Counter.get in H1, H2. simpl in H1, H2.
  destruct (String.eqb k1 "sam") eqn:E1; [|lia].
  destruct (String.eqb k2 "sam") eqn:E2; [|lia].
  apply String.eqb_eq in E1, E2. congruence.
Qed.

Lemma bind_process_message (m : Message) (cn : string) (it : bool)
    (k : M unit) (w : World) :
  (_process_message m cn it ;; k) w
  = k (snd (_process_message m cn it w)).
Proof.
  unfold bind. destruct (process_message_run m cn it w) as (tr' & -> & _).
  reflexivity.
Qed.

(** C8, amended. Messages are grouped by the author's display name (the
    fallback name when it is missing), not by the author's id: two non-bot
    messages under different names raise two different entries by one each,
    two under the same name raise that one entry by two whatever the ids;
    the id is kept in a separate dictionary, overwritten by the last
    message under the name, and no other entry changes. *)
Theorem authors_grouped_by_display_name (m1 m2 : Message)
    (cn1 cn2 : string) (it1 it2 : bool) (w : World) :
  author_bot (msg_author m1) = Some false ->
  author_bot (msg_author m2) = Some false ->
  let n1 := author_name_of (msg_author m1) in
  let n2 := author_name_of (msg_author m2) in
  let s := w_stats w in
  let s' := w_stats (snd ((_process_message m1 cn1 it1 ;;
                           _process_message m2 cn2 it2) w)) in
  (n1 <> n2 ->
   Counter.get n1 (messages_per_author s')
   = Counter.get n1 (messages_per_author s) + 1 /\
   Counter.get n2 (messages_per_author s')
   = Counter.get n2 (messages_per_author s) + 1 /\
   Dict.get n1 (messages_per_author_id s')
   = Some (str_of_int (author_id (msg_author m1)))) /\
  (n1 = n2 ->
   Counter.get n1 (messages_per_author s')
   = Counter.get n1 (messages_per_author s) + 2) /\
  Dict.get n2 (messages_per_author_id s')
  = Some (str_of_int (author_id (msg_author m2))) /\
  (forall a, a <> n1 -> a <> n2 ->
             Counter.get a (messages_per_author s')
             = Counter.get a (messages_per_author s)).
Proof.
  intros Hb1 Hb2 n1 n2 s s'. subst s'.
  rewrite bind_process_message.
  destruct (process_message_counts m1 cn1 it1 w Hb1)
    as (_ & _ & A1 & I1 & _).
  destruct (process_message_counts m2 cn2 it2
              (snd (_process_message m1 cn1 it1 w)) Hb2)
    as (_ & _ & A2 & I2 & _).
  cbv zeta in A1, I1, A2, I2. fold n1 in A1, I1. fold n2 in A2, I2.
  fold s in A1, I1.
  rewrite A2, I2, A1, I1, !counter_get_add.
  repeat split.
  - rewrite String.eqb_refl.
    destruct (String.eqb n1 n2) eqn:E; [|lia].
    apply String.eqb_eq in E. contradiction.
  - rewrite String.eqb_refl.
    destruct (String.eqb n2 n1) eqn:E; [|lia].
    apply String.eqb_eq in E. congruence.
  - rewrite dict_get_set_other by assumption. apply dict_get_set_same.
  - intros <-. rewrite !String.eqb_refl. lia.
  - apply dict_get_set_same.
  - intros a Ha1 Ha2. rewrite ?counter_get_add.
    apply String.eqb_neq in Ha1, Ha2. rewrite Ha1, Ha2. lia.
Qed.

Lemma authors_grouped_by_display_name_witness :
  author_bot (msg_author (message_from sam_first (Ok []))) = Some false /\
  author_bot (msg_author (message_from sam_second (Ok []))) = Some false /\
  Counter.get "sam"
    (messages_per_author
       (w_stats (snd ((_process_message (message_from sam_first (Ok []))
                         "#general" false ;;
                       _process_message (message_from sam_second (Ok []))
                         "#general" false) (run_on new_stats [])))))
  = Counter.get "sam" (messages_per_author new_stats) + 2.
Proof.
  split; [reflexivity|]. split; [reflexivity|].
  exact (proj1 (proj2 (authors_grouped_by_display_name
                         (message_from sam_first (Ok []))
                         (message_from sam_second (Ok []))
                         "#general" "#general" false false
                         (run_on new_stats []) eq_refl eq_refl))
               eq_refl).
Defined.

(** ** Rankings *)

Lemma insert_desc_perm (x : string * Z) (l : list (string * Z)) :
  Permutation (Counter.insert_desc x l) (x :: l).
Proof.
  induction l as [|y l IH]; simpl.
  - apply Permutation_refl.
  - destruct (snd x <? snd y).
    + eapply perm_trans; [apply perm_skip, IH | apply perm_swap].
    + apply Permutation_refl.
Qed.

Lemma sorted_desc_perm (l : list (string * Z)) :
  Permutation (Counter.sorted_desc l) l.
Proof.
  induction l as [|x l IH]; simpl.
  - constructor.
  - eapply perm_trans; [apply insert_desc_perm | now apply perm_skip].
Qed.

Lemma insert_desc_sorted (x : string * Z) (l : list (string * Z)) :
  StronglySorted by_count_desc l ->
  StronglySorted by_count_desc (Counter.insert_desc x l).
Proof.
  induction 1 as [|y l Hs IH Hy]; simpl.
  - repeat constructor.
  - destruct (snd x <? snd y) eqn:E.
    + apply Z.ltb_lt in E. constructor; [assumption|].
      apply (Permutation_Forall (Permutation_sym (insert_desc_perm x l))).
      constructor; [unfold by_count_desc; lia | assumption].
    + apply Z.ltb_ge in E. constructor.
      * now constructor.
      * constructor; [exact E|].
        eapply Forall_impl; [|exact Hy].
        unfold by_count_desc. intros z Hz. lia.
Qed.

Lemma sorted_desc_sorted (l : list (string * Z)) :
  StronglySorted by_count_desc (Counter.sorted_desc l).
Proof.
  induction l as [|x l IH]; simpl.
  - constructor.
  - now apply insert_desc_sorted.
Qed.

Lemma insert_desc_ties (x : string * Z) (l : list (string * Z)) (c : Z) :
  filter (fun y => snd y =? c) (Counter.insert_desc x l)
  = filter (fun y => snd y =? c) (x :: l).
Proof.
  induction l as [|y l IH]; [reflexivity|].
  cbn [Counter.insert_desc]. destruct (snd x <? snd y) eqn:E;
    [|reflexivity].
  apply Z.ltb_lt in E.
  cbn [filter] in *. rewrite IH.
  destruct (snd y =? c) eqn:Ey; [|reflexivity].
  apply Z.eqb_eq in Ey.
  destruct (snd x =? c) eqn:Ex; [|reflexivity].
  apply Z.eqb_eq in Ex. lia.
Qed.

Lemma sorted_desc_ties (l : list (string * Z)) :
  same_order_among_ties (Counter.sorted_desc l) l.
Proof.
  intros c. induction l as [|x l IH]; [reflexivity|].
  cbn [Counter.sorted_desc]. rewrite insert_desc_ties.
  cbn [filter]. now rewrite IH.
Qed.

Lemma counter_value_le_total (k : string) (v : Z) (c : Counter.t) :
  Forall (fun kv => 0 < snd kv) c -> In (k, v) c -> v <= Counter.total c.
Proof.
  unfold Counter.total, Dict.values.
  induction 1 as [|x c Hx Hc IH]; cbn [In map fold_right]; [contradiction|].
  assert (Hge : 0 <= fold_right Z.add 0 (map snd c)).
  { clear IH. induction Hc; cbn [map fold_right]; lia. }
  intros [->|H]; [cbn [snd] in *; lia|]. specialize (IH H). lia.
Qed.

(** An entry of a ranking: the item, and its share of the total as the
    binary64 value of [(count / total) * 100], which is within 2^-45 of
    the exact [100 * count / total]. *)
Lemma ranked_entry_percent (t : Z) (c ranked : Counter.t)
    (item : string * Z) :
  counter_ok c -> t = Counter.total c -> Permutation ranked c ->
  In item ranked ->
  fst (ranked_entry t item) = item /\
  snd (ranked_entry t item) = float_mul (true_div (snd item) t) 100 /\
  (Qabs (snd (ranked_entry t item) - 100 * inject_Z (snd item) / inject_Z t)
   <= 2 ^ (-45))%Q.
Proof.
  intros [Hpos _] Ht Hperm Hin.
  apply (Permutation_in _ Hperm) in Hin.
  destruct item as [k v]. cbn [ranked_entry fst snd].
  split; [reflexivity|]. split; [reflexivity|].
  pose proof (counter_value_le_total k v c Hpos Hin) as Hle.
  rewrite Forall_forall in Hpos. specialize (Hpos _ Hin). cbn [snd] in Hpos.
  apply percent_close; lia.
Qed.

Lemma counter_total_perm (l l' : Counter.t) :
  Permutation l l' -> Counter.total l = Counter.total l'.
Proof.
  unfold Counter.total, Dict.values.
  induction 1; simpl; lia.
Qed.

Lemma sum_percent_error (t : Z) (l : list (string * Z)) :
  0 < t -> Forall (fun kv => 0 <= snd kv) l ->
  (Qabs (sum_percent (map (ranked_entry t) l)
         - 100 * inject_Z (Counter.total l) / inject_Z t)
   <= (200 * unit_roundoff + 100 * (unit_roundoff * unit_roundoff))
      * (inject_Z (Counter.total l) / inject_Z t)
      + inject_Z (Z.of_nat (List.length l))
        * (101 * half_smallest + 100 * (unit_roundoff * half_smallest)))%Q.
Proof.
  intros Ht. unfold Counter.total, Dict.values.
  induction 1 as [|[k c] l Hc Hl IH]; cbn [map fold_right List.length].
  - cbn [sum_percent fold_right]. apply Qabs_Qle_condition.
    unfold Qdiv. change (inject_Z 0) with 0%Q.
    change (inject_Z (Z.of_nat 0)) with 0%Q. split; nra.
  - cbn [snd] in Hc. change (sum_percent (ranked_entry t (k, c)
                                            :: map (ranked_entry t) l))
      with (float_mul (true_div c t) 100
            + sum_percent (map (ranked_entry t) l))%Q.
    pose proof (percent_error c t Hc Ht) as Hp.
    rewrite Nat2Z.inj_succ. unfold Z.succ. rewrite !inject_Z_plus.
    change (inject_Z 1) with 1%Q.
    set (T := fold_right Z.add 0 (map snd l)) in *.
    setoid_replace (100 * (inject_Z c + inject_Z T) / inject_Z t)%Q
      with (100 * inject_Z c / inject_Z t
            + 100 * inject_Z T / inject_Z t)%Q by (unfold Qdiv; ring).
    setoid_replace ((inject_Z c + inject_Z T) / inject_Z t)%Q
      with (inject_Z c / inject_Z t + inject_Z T / inject_Z t)%Q
      by (unfold Qdiv; ring).
    set (p := float_mul (true_div c t) 100) in *.
    set (S := sum_percent (map (ranked_entry t) l)) in *.
    set (e1 := (100 * inject_Z c / inject_Z t)%Q) in *.
    set (e2 := (100 * inject_Z T / inject_Z t)%Q) in *.
    set (q1 := (inject_Z c / inject_Z t)%Q) in *.
    set (q2 := (inject_Z T / inject_Z t)%Q) in *.
    set (A := (200 * unit_roundoff
               + 100 * (unit_roundoff * unit_roundoff))%Q) in *.
    set (E := (101 * half_smallest
               + 100 * (unit_roundoff * half_smallest))%Q) in *.
    set (n := inject_Z (Z.of_nat (List.length l))) in *.
    apply Qabs_Qle_condition in Hp, IH. apply Qabs_Qle_condition.
    destruct Hp as [Hp1 Hp2], IH as [IH1 IH2]. split; nra.
Qed.

Lemma most_common_all (n : Z) (c : Counter.t) :
  Z.of_nat (List.length c) <= n ->
  Counter.most_common n c = Counter.sorted_desc c.
Proof.
  intros Hn. unfold Counter.most_common. apply firstn_all2.
  rewrite (Permutation_length (sorted_desc_perm c)). lia.
Qed.

(** The percentages of a full ranking add up to 100 within
    [rounding_epsilon]. *)
Lemma full_ranking_sum (t : Z) (c : Counter.t) :
  0 < t -> t = Counter.total c -> counter_ok c ->
  let ranking :=
    map (ranked_entry t) (Counter.most_common (Z.of_nat (List.length c)) c) in
  (Qabs (sum_percent ranking - 100)
   <= rounding_epsilon (List.length ranking))%Q.
Proof.
  intros Ht Hsum [Hpos _]. cbv zeta. rewrite most_common_all by lia.
  assert (Hnonneg : Forall (fun kv => 0 <= snd kv) (Counter.sorted_desc c)).
  { rewrite Forall_forall in *. intros kv Hin.
    apply (Permutation_in _ (sorted_desc_perm c)) in Hin.
    specialize (Hpos kv Hin). lia. }
  pose proof (sum_percent_error t (Counter.sorted_desc c) Ht Hnonneg) as H.
  rewrite (counter_total_perm _ _ (sorted_desc_perm c)), <- Hsum in H.
  rewrite length_map. unfold rounding_epsilon.
  assert (Hone : (inject_Z t / inject_Z t == 1)%Q).
  { field. intros H0. apply (inject_Z_injective t 0) in H0. lia. }
  setoid_replace (100 * inject_Z t / inject_Z t)%Q with 100%Q in H
    by (setoid_replace (100 * inject_Z t / inject_Z t)%Q
          with (100 * (inject_Z t / inject_Z t))%Q by (unfold Qdiv; ring);
        rewrite Hone; ring).
  rewrite Hone in H.
  destruct roundoff_constants as (Hu & Hs & _ & CA & CE).
  assert (Hn : (0 <= inject_Z (Z.of_nat (List.length (Counter.sorted_desc c))))%Q).
  { change 0%Q with (inject_Z 0). rewrite <- Zle_Qle. lia. }
  set (S := sum_percent (map (ranked_entry t) (Counter.sorted_desc c))) in *.
  set (A := (200 * unit_roundoff
             + 100 * (unit_roundoff * unit_roundoff))%Q) in *.
  set (E := (101 * half_smallest
             + 100 * (unit_roundoff * half_smallest))%Q) in *.
  set (n := inject_Z (Z.of_nat (List.length (Counter.sorted_desc c)))) in *.
  set (b1 := (2 ^ (-45))%Q) in *. set (b2 := (2 ^ (-1068))%Q) in *.
  apply Qabs_Qle_condition in H. apply Qabs_Qle_condition.
  destruct H as [H1 H2]. split; nra.
Qed.

Lemma growth_succ (n : nat) :
  ((1 + unit_roundoff) ^ Z.of_nat (S n)
   == (1 + unit_roundoff) ^ Z.of_nat n * (1 + unit_roundoff))%Q.
Proof.
  rewrite Nat2Z.inj_succ. unfold Z.succ.
  rewrite Qpower_plus by (vm_compute; discriminate).
  reflexivity.
Qed.

Lemma growth_ge_1 (n : nat) : (1 <= (1 + unit_roundoff) ^ Z.of_nat n)%Q.
Proof.
  induction n as [|n IH].
  - discriminate.
  - rewrite growth_succ.
    destruct roundoff_constants as (Hu & _).
    set (P := ((1 + unit_roundoff) ^ Z.of_nat n)%Q) in *.
    set (u := unit_roundoff) in *. nra.
Qed.

Lemma half_smallest_split :
  (half_smallest == unit_roundoff * 2 ^ (-1022))%Q.
Proof. vm_compute. reflexivity. Qed.

(** Adding non-negative numbers one after the other in binary64. *)
Lemma added_in_binary64_error (l : list Q) (acc : Q) :
  (0 <= acc)%Q -> Forall (fun p => (0 <= p)%Q) l ->
  let added := fold_left (fun total p => binary64 (total + p)) l acc in
  let exact := (acc + fold_right Qplus 0 l)%Q in
  (0 <= fold_right Qplus 0 l)%Q /\
  (Qabs (added - exact)
   <= ((1 + unit_roundoff) ^ Z.of_nat (List.length l) - 1)
      * (exact + 2 ^ (-1022)))%Q.
Proof.
  intros Hacc Hl. revert acc Hacc.
  induction Hl as [|p l Hp Hl IH]; intros acc Hacc; cbv zeta.
  - cbn [fold_left fold_right List.length]. split; [discriminate|].
    change ((1 + unit_roundoff) ^ Z.of_nat 0)%Q with 1%Q.
    apply Qabs_Qle_condition. split; nra.
  - cbn [fold_left fold_right List.length].
    assert (Hsum : (0 <= acc + p)%Q) by nra.
    pose proof (binary64_nonneg _ Hsum) as Ha'.
    pose proof (binary64_error (acc + p)) as E1.
    rewrite (Qabs_of_nonneg _ Hsum) in E1.
    destruct (IH (binary64 (acc + p)) Ha') as [Hrest IH'].
    cbv zeta in IH'. clear IH.
    split; [nra|].
    rewrite growth_succ.
    pose proof (growth_ge_1 (List.length l)) as HP.
    destruct roundoff_constants as (Hu & Hh & _).
    pose proof half_smallest_split as Hsplit.
    pose proof (pow2_pos (-1022)) as Hm.
    set (a' := binary64 (acc + p)) in *.
    set (F := fold_left (fun total p0 => binary64 (total + p0)) l a') in *.
    set (R := fold_right Qplus 0%Q l) in *.
    set (P := ((1 + unit_roundoff) ^ Z.of_nat (List.length l))%Q) in *.
    set (u := unit_roundoff) in *. set (h := half_smallest) in *.
    set (m := (2 ^ (-1022))%Q) in *.
    apply Qabs_Qle_condition in E1, IH'.
    destruct E1 as [E1l E1u], IH' as [IHl IHu].
    remember (acc + p + R + m)%Q as X eqn:EX.
    assert (HX : (0 <= X)%Q) by (rewrite EX; nra).
    assert (HY : (a' + R + m <= (1 + u) * X)%Q) by (rewrite EX; nra).
    assert (HP1 : (0 <= P - 1)%Q) by nra.
    assert (HPY : ((P - 1) * (a' + R + m) <= (P - 1) * ((1 + u) * X))%Q)
      by nra.
    assert (HE : (u * (acc + p) + h <= u * X)%Q) by (rewrite EX; nra).
    setoid_replace (acc + (p + R) + m)%Q with X by (rewrite EX; ring).
    apply Qabs_Qle_condition. split; nra.
Qed.

Lemma sum_percent_as_fold (l : list (string * Z * Q)) :
  sum_percent l = fold_right Qplus 0%Q (map snd l).
Proof.
  unfold sum_percent. induction l as [|e l IH]; [reflexivity|].
  cbn [map fold_right]. now rewrite IH.
Qed.

(** The percentages of a full ranking, added one after the other in
    binary64, give 100 within [summation_epsilon]. *)
Lemma full_ranking_added (t : Z) (c : Counter.t) :
  0 < t -> t = Counter.total c -> counter_ok c ->
  let ranking :=
    map (ranked_entry t) (Counter.most_common (Z.of_nat (List.length c)) c) in
  (Qabs (added_in_binary64 ranking - 100)
   <= summation_epsilon (List.length ranking))%Q.
Proof.
  intros Ht Hsum Hok.
  pose proof (full_ranking_sum t c Ht Hsum Hok) as Hexact.
  cbv zeta in *.
  set (ranking := map (ranked_entry t)
                      (Counter.most_common (Z.of_nat (List.length c)) c)) in *.
  assert (Hnonneg : Forall (fun p => (0 <= p)%Q) (map snd ranking)).
  { destruct Hok as [Hpos _]. subst ranking.
    rewrite Forall_forall. intros p Hp.
    apply in_map_iff in Hp. destruct Hp as (e & <- & He).
    apply in_map_iff in He. destruct He as ([k v] & <- & Hin).
    rewrite most_common_all in Hin by lia.
    apply (Permutation_in _ (sorted_desc_perm c)) in Hin.
    cbn [ranked_entry snd].
    pose proof (counter_value_le_total k v c Hpos Hin) as Hle.
    rewrite Forall_forall in Hpos. specialize (Hpos _ Hin).
    cbn [snd] in Hpos. apply percent_range; lia. }
  destruct (added_in_binary64_error (map snd ranking) 0 (Qle_refl 0) Hnonneg)
    as [_ Hadd].
  cbv zeta in Hadd. rewrite length_map, <- sum_percent_as_fold in Hadd.
  fold (added_in_binary64 ranking) in Hadd.
  unfold summation_epsilon.
  pose proof (growth_ge_1 (List.length ranking)) as HP.
  pose proof (pow2_pos (-1022)) as Hm.
  set (F := added_in_binary64 ranking) in *.
  set (S := sum_percent ranking) in *.
  set (e := rounding_epsilon (List.length ranking)) in *.
  set (P := ((1 + unit_roundoff) ^ Z.of_nat (List.length ranking))%Q) in *.
  set (m := (2 ^ (-1022))%Q) in *.
  apply Qabs_Qle_condition in Hexact, Hadd.
  destruct Hexact as [X1 X2], Hadd as [A1 A2].
  assert (HP1 : (0 <= P - 1)%Q) by nra.
  assert (HS : ((P - 1) * (0 + S + m) <= (P - 1) * (100 + e + m))%Q) by nra.
  apply Qabs_Qle_condition. split; nra.
Qed.

(** What a ranking query returns, for any counter and denominator. *)
Lemma ranking_spec (t n : Z) (c : Counter.t) :
  0 <= n ->
  exists ranked,
    Permutation ranked c /\
    StronglySorted by_count_desc ranked /\
    same_order_among_ties ranked c /\
    map (ranked_entry t) (Counter.most_common n c)
    = map (ranked_entry t) (firstn (Z.to_nat n) ranked) /\
    map (ranked_entry t) (Counter.most_common 0 c) = [] /\
    (Z.of_nat (List.length c) <= n ->
     map (ranked_entry t) (Counter.most_common n c)
     = map (ranked_entry t) ranked).
Proof.
  intros Hn. exists (Counter.sorted_desc c). repeat split.
  - apply sorted_desc_perm.
  - apply sorted_desc_sorted.
  - apply sorted_desc_ties.
  - intros Hall. now rewrite most_common_all.
Qed.

Lemma fresh_run_invariant (calls : list Call) (tr : list Event) :
  let s := w_stats (snd (record_all calls (run_on new_stats tr))) in
  consistent s /\ counters_ok s.
Proof.
  cbv zeta. destruct (record_all_stats calls new_stats tr) as [_ ->].
  apply stats_after_invariant.
Qed.

(** C5 as stated fails: the percentage of an entry is a binary64 number,
    the rounded product of 100 with the rounded quotient, and in general
    neither the exact [100 * count / total] nor that expression evaluated
    in binary64. With 13 of 18 messages the entry holds
    72.2222222222222143..., not 650/9. *)
Lemma top_poster_percent_is_rounded :
  let s := stats_after busy_week new_stats in
  total_messages s = 18 /\
  map fst (get_top_posters s 1) = [("alice", 13)] /\
  Forall (fun entry =>
            (snd entry == 5082187079497955 # 70368744177664)%Q /\
            ~ (snd entry == 100 * 13 / 18)%Q /\
            ~ (snd entry == binary64 (100 * 13 / 18))%Q)
         (get_top_posters s 1) /\
  ~ (forall (calls : list Call) (n : Z) (entry : string * Z * Q),
        let s := stats_after calls new_stats in
        In entry (get_top_posters s n) ->
        (snd entry
         == 100 * inject_Z (snd (fst entry)) / inject_Z (total_messages s))%Q).
Proof.
  cbv zeta.
  remember (get_top_posters (stats_after busy_week new_stats) 1) as top
    eqn:Etop.
  vm_compute in Etop. subst top.
  split; [reflexivity|]. split; [reflexivity|]. split.
  - constructor; [|constructor]. cbn [snd].
    split; [reflexivity|]. split; intros H; vm_compute in H; discriminate H.
  - intros H. specialize (H busy_week 1).
    remember (get_top_posters (stats_after busy_week new_stats) 1) as top
      eqn:Etop.
    vm_compute in Etop. subst top.
    specialize (H _ (or_introl eq_refl)).
    vm_compute in H. discriminate H.
Qed.

(** C5, amended. On a container filled by any sequence of recorded messages
    and for [n >= 0], [get_top_posters n] is the first [n] items of the
    author counter's items ranked by decreasing count with equal counts kept
    in insertion order, each given as (key, count, percent) where percent
    is the binary64 value of [(count / total_messages) * 100], within 2^-45
    of the exact [100 * count / total_messages]; it is empty for [n = 0]
    and when [total_messages = 0], and it is the whole ranking when [n] is
    at least the number of keys, which are pairwise distinct. *)
Theorem get_top_posters_ranking (calls : list Call) (tr : list Event)
    (n : Z) :
  0 <= n ->
  let s := w_stats (snd (record_all calls (run_on new_stats tr))) in
  let t := total_messages s in
  exists ranked,
    Permutation ranked (messages_per_author s) /\
    NoDup (Dict.keys (messages_per_author s)) /\
    StronglySorted by_count_desc ranked /\
    same_order_among_ties ranked (messages_per_author s) /\
    get_top_posters s n = map (ranked_entry t) (firstn (Z.to_nat n) ranked) /\
    (forall item,
        In item ranked ->
        fst (ranked_entry t item) = item /\
        snd (ranked_entry t item)
        = float_mul (true_div (snd item) t) 100 /\
        (Qabs (snd (ranked_entry t item)
               - 100 * inject_Z (snd item) / inject_Z t)
         <= 2 ^ (-45))%Q) /\
    get_top_posters s 0 = [] /\
    (t = 0 -> get_top_posters s n = []) /\
    (Z.of_nat (List.length (messages_per_author s)) <= n ->
     get_top_posters s n = map (ranked_entry t) ranked).
Proof.
  intros Hn s t.
  destruct (fresh_run_invariant calls tr) as [(_ & Hsum & _) (Hok & _)].
  fold s in Hsum, Hok. fold t in Hsum.
  pose proof Hok as [Hpos Hnd].
  destruct (ranking_spec t n (messages_per_author s) Hn)
    as (ranked & Hperm & Hsorted & Hties & Hfirst & Hzero & Hall).
  exists ranked. unfold get_top_posters. fold t.
  assert (Hitems : forall item, In item ranked ->
            fst (ranked_entry t item) = item /\
            snd (ranked_entry t item)
            = float_mul (true_div (snd item) t) 100 /\
            (Qabs (snd (ranked_entry t item)
                   - 100 * inject_Z (snd item) / inject_Z t)
             <= 2 ^ (-45))%Q).
  { intros item Hin.
    exact (ranked_entry_percent t _ ranked item Hok Hsum Hperm Hin). }
  destruct (t =? 0) eqn:Et.
  - apply Z.eqb_eq in Et.
    assert (Hnil : messages_per_author s = []).
    { apply counter_positive_total_zero; [assumption | lia]. }
    rewrite Hnil in Hperm. apply Permutation_sym, Permutation_nil in Hperm.
    subst ranked. rewrite firstn_nil.
    repeat match goal with |- _ /\ _ => split end; auto.
    rewrite Hnil. constructor.
  - apply Z.eqb_neq in Et.
    repeat match goal with |- _ /\ _ => split end; auto.
    intros Ht. contradiction.
Qed.

Lemma get_top_posters_ranking_witness :
  0 <= 1 /\
  get_top_posters
    (w_stats (snd (record_all one_picture (run_on new_stats [])))) 0 = [].
Proof.
  split; [lia|].
  destruct (get_top_posters_ranking one_picture [] 1 (Z.le_0_1))
    as (ranked & _ & _ & _ & _ & _ & _ & Hzero & _).
  exact Hzero.
Defined.

(** C9. On a container filled by any sequence of recorded messages, the
    percentages of a full ranking (as many entries as the counter has keys),
    which are binary64 numbers, add up to 100 within a rounding epsilon:
    their exact sum differs from 100 by at most [rounding_epsilon], that is
    2^-45 plus 2^-1068 for each entry, and their sum computed in binary64,
    one addition after the other, by at most [summation_epsilon], which
    allows one more rounding for every addition. This holds for the authors
    and the channels when [total_messages > 0], for the threads when
    [total_thread_messages > 0], for the picture posters when
    [total_pictures > 0]. *)
Theorem full_ranking_percentages_sum_to_100 (calls : list Call)
    (tr : list Event) :
  let s := w_stats (snd (record_all calls (run_on new_stats tr))) in
  let size (c : Counter.t) := Z.of_nat (List.length c) in
  let sums_to_100 (ranking : list (string * Z * Q)) :=
    (Qabs (sum_percent ranking - 100)
     <= rounding_epsilon (List.length ranking))%Q /\
    (Qabs (added_in_binary64 ranking - 100)
     <= summation_epsilon (List.length ranking))%Q in
  (0 < total_messages s ->
   sums_to_100 (get_top_posters s (size (messages_per_author s))) /\
   sums_to_100 (get_top_channels s (size (messages_per_channel s)))) /\
  (0 < total_thread_messages s ->
   sums_to_100 (get_top_threads s (size (messages_per_thread s)))) /\
  (0 < total_pictures s ->
   sums_to_100
     (get_top_picture_posters s (size (pictures_per_author s)))).
Proof.
  intros s size sums_to_100.
  destruct (fresh_run_invariant calls tr)
    as [(Hch & Hau & Hth & Hpi) (Oau & Och & Oth & Opi)].
  fold s in Hch, Hau, Hth, Hpi, Oau, Och, Oth, Opi.
  unfold get_top_posters, get_top_channels, get_top_threads,
    get_top_picture_posters, size, sums_to_100.
  split; [intros Hpos; split | split; intros Hpos].
  - replace (total_messages s =? 0) with false
      by (symmetry; apply Z.eqb_neq; lia).
    split; [now apply full_ranking_sum|now apply full_ranking_added].
  - replace (total_messages s =? 0) with false
      by (symmetry; apply Z.eqb_neq; lia).
    split; [now apply full_ranking_sum|now apply full_ranking_added].
  - replace (total_thread_messages s =? 0) with false
      by (symmetry; apply Z.eqb_neq; lia).
    split; [now apply full_ranking_sum|now apply full_ranking_added].
  - replace (total_pictures s =? 0) with false
      by (symmetry; apply Z.eqb_neq; lia).
    split; [now apply full_ranking_sum|now apply full_ranking_added].
Qed.

Lemma full_ranking_percentages_sum_to_100_witness :
  0 < total_messages (w_stats (snd (record_all busy_week (run_on new_stats []))))
  /\
  (Qabs
     (sum_percent
        (get_top_posters
           (w_stats (snd (record_all busy_week (run_on new_stats []))))
           (Z.of_nat
              (List.length
                 (messages_per_author
                    (w_stats (snd (record_all busy_week
                                     (run_on new_stats []))))))))
      - 100)
   <= rounding_epsilon 2)%Q.
Proof.
  assert (H : 0 < total_messages
                    (w_stats (snd (record_all busy_week
                                     (run_on new_stats [])))))
    by (vm_compute; reflexivity).
  split; [exact H|].
  exact (proj1 (proj1 (proj1 (full_ranking_percentages_sum_to_100
                                busy_week []) H))).
Defined.

(** ** The channel walk *)

Lemma fold_calls_app (l l' : list Call) (s : MessageStatisticsData) :
  fold_left (fun s c => apply_call c s) (l ++ l') s
  = fold_left (fun s c => apply_call c s) l'
      (fold_left (fun s c => apply_call c s) l s).
Proof. apply fold_left_app. Qed.

Lemma history_requests_app (tr tr' : list Event) :
  history_requests (tr ++ tr') = (history_requests tr ++ history_requests tr')%list.
Proof. apply flat_map_app. Qed.

Lemma process_channel_run (ch : Messageable) (start_date end_date : datetime)
    (w : World) :
  exists tr',
    _process_channel ch start_date end_date w
    = (Ok tt,
       run_on (fold_left (fun s c => apply_call c s)
                 (history_calls ("#" ++ messageable_name ch)%string
                    (is_thread_instance ch)
                    (messageable_history ch start_date end_date))
                 (w_stats w))
              (w_trace w ++ tr')%list) /\
    history_requests tr'
    = [(("#" ++ messageable_name ch)%string, start_date, end_date)].
Proof.
  unfold _process_channel, try_except, iterate_history, history_calls.
  set (cn := ("#" ++ messageable_name ch)%string).
  set (it := is_thread_instance ch).
  set (h := messageable_history ch start_date end_date).
  unfold bind at 1. unfold emit at 1.
  set (w1 := {| w_stats := w_stats w;
                w_trace := (w_trace w
                            ++ [HistoryRequest cn start_date end_date])%list |}).
  unfold bind.
  destruct (for_each_messages_run (h_messages h) cn it w1)
    as (tr1 & Hrun & Hreq).
  rewrite Hrun. subst w1. cbn [w_stats w_trace].
  destruct (h_error h) as [e|].
  - exists ([HistoryRequest cn start_date end_date] ++ tr1
            ++ [LogFetchError cn e])%list.
    unfold lift, any_exception, emit, run_on. cbn [w_stats w_trace].
    rewrite <- !app_assoc. split; [reflexivity|].
    rewrite !history_requests_app, Hreq. reflexivity.
  - exists ([HistoryRequest cn start_date end_date] ++ tr1)%list.
    unfold ret, run_on. rewrite <- !app_assoc. split; [reflexivity|].
    rewrite !history_requests_app, Hreq. reflexivity.
Qed.

(** A loop whose body always returns, records [calls x] and requests
    [reqs x] does so for every element in turn. *)
Lemma for_each_run {A} (l : list A) (body : A -> M unit)
    (calls : A -> list Call)
    (reqs : A -> list (string * datetime * datetime)) :
  (forall x w, exists tr',
      body x w
      = (Ok tt,
         run_on (fold_left (fun s c => apply_call c s) (calls x) (w_stats w))
                (w_trace w ++ tr')%list) /\
      history_requests tr' = reqs x) ->
  forall w, exists tr',
    for_each l body w
    = (Ok tt,
       run_on (fold_left (fun s c => apply_call c s) (flat_map calls l)
                 (w_stats w))
              (w_trace w ++ tr')%list) /\
    history_requests tr' = flat_map reqs l.
Proof.
  intros Hbody. induction l as [|x l IH]; intros w.
  - exists []. destruct w as [s tr]. cbn. now rewrite app_nil_r.
  - destruct (Hbody x w) as (tr1 & Hrun1 & Hreq1).
    cbn [for_each flat_map]. unfold bind. rewrite Hrun1.
    destruct (IH (run_on (fold_left (fun s c => apply_call c s) (calls x)
                            (w_stats w))
                         (w_trace w ++ tr1)%list))
      as (tr2 & Hrun2 & Hreq2).
    rewrite Hrun2. exists (tr1 ++ tr2)%list.
    cbn [run_on w_stats w_trace].
    rewrite fold_calls_app, app_assoc, history_requests_app, Hreq1, Hreq2.
    split; reflexivity.
Qed.

Lemma thread_body_run (start_date end_date : datetime) (t : Thread)
    (w : World) :
  exists tr',
    (if thread_read_message_history t
     then emit (LogProcessingThread (thread_name t)) ;;
          _process_channel (OfThread t) start_date end_date
     else ret tt) w
    = (Ok tt,
       run_on (fold_left (fun s c => apply_call c s)
                 (thread_calls start_date end_date t) (w_stats w))
              (w_trace w ++ tr')%list) /\
    history_requests tr' = thread_requests start_date end_date t.
Proof.
  unfold thread_calls, thread_requests.
  destruct (thread_read_message_history t).
  - unfold bind, emit.
    destruct (process_channel_run (OfThread t) start_date end_date
                {| w_stats := w_stats w;
                   w_trace := (w_trace w
                               ++ [LogProcessingThread (thread_name t)])%list |})
      as (tr1 & Hrun & Hreq).
    rewrite Hrun. cbn [w_stats w_trace messageable_name is_thread_instance
      messageable_history].
    exists ([LogProcessingThread (thread_name t)] ++ tr1)%list.
    rewrite <- app_assoc. split; [reflexivity|].
    rewrite history_requests_app, Hreq. reflexivity.
  - exists []. destruct w as [s tr]. cbn. now rewrite app_nil_r.
Qed.

(** One channel with its threads: the statistics and the requests are
    those of [channel_calls] and [channel_requests] in every case; the call
    returns unless reading the thread list raises an exception its handler
    does not name. *)
Lemma process_channel_with_threads_run (c : TextChannel)
    (start_date end_date : datetime) (w : World) :
  exists o tr',
    _process_channel_with_threads c start_date end_date w
    = (o,
       run_on (fold_left (fun s c => apply_call c s)
                 (channel_calls start_date end_date c) (w_stats w))
              (w_trace w ++ tr')%list) /\
    history_requests tr' = channel_requests start_date end_date c /\
    (threads_ok c -> o = Ok tt).
Proof.
  unfold _process_channel_with_threads, channel_calls, channel_requests,
    threads_ok, threads_of.
  destruct (channel_read_message_history c); cbn [negb].
  - unfold bind at 1. unfold emit at 1.
    set (w0 := {| w_stats := w_stats w;
                  w_trace := (w_trace w
                              ++ [LogProcessingChannel (channel_name c)])%list |}).
    destruct (process_channel_run (OfChannel c) start_date end_date w0)
      as (tr1 & Hrun & Hreq1).
    cbn [messageable_name is_thread_instance messageable_history]
      in Hrun, Hreq1.
    unfold bind at 1. rewrite Hrun. subst w0. cbn [w_stats w_trace].
    set (s1 := fold_left (fun s c => apply_call c s)
                 (history_calls ("#" ++ channel_name c)%string false
                    (channel_history c start_date end_date)) (w_stats w)).
    unfold try_except, bind at 1. unfold lift at 1.
    destruct (channel_threads c) as [threads|e].
    + destruct threads as [|t threads].
      * exists (Ok tt), ([LogProcessingChannel (channel_name c)] ++ tr1)%list.
        unfold ret, run_on. cbn [flat_map fold_left].
        rewrite app_nil_r, <- app_assoc. split; [reflexivity|].
        rewrite history_requests_app, Hreq1. split; reflexivity.
      * unfold bind at 1. unfold emit at 1. cbn [run_on w_stats w_trace].
        destruct (for_each_run (t :: threads)
                    (fun thread =>
                       if thread_read_message_history thread
                       then emit (LogProcessingThread (thread_name thread)) ;;
                            _process_channel (OfThread thread) start_date
                              end_date
                       else ret tt)
                    (thread_calls start_date end_date)
                    (thread_requests start_date end_date)
                    (thread_body_run start_date end_date)
                    {| w_stats := s1;
                       w_trace :=
                         ((w_trace w
                           ++ [LogProcessingChannel (channel_name c)] ++ tr1)
                          ++ [LogFoundThreads
                                (Z.of_nat (List.length (t :: threads)))
                                (channel_name c)])%list |})
          as (tr2 & Hrun2 & Hreq2).
        rewrite <- app_assoc in Hrun2.
        rewrite <- !app_assoc. cbn [w_stats w_trace] in Hrun2.
        rewrite <- !app_assoc in Hrun2. rewrite Hrun2.
        exists (Ok tt),
          ([LogProcessingChannel (channel_name c)] ++ tr1
           ++ [LogFoundThreads (Z.of_nat (List.length (t :: threads)))
                 (channel_name c)] ++ tr2)%list.
        rewrite fold_calls_app. fold s1. split; [reflexivity|].
        rewrite !history_requests_app, Hreq1, Hreq2. split; reflexivity.
    + cbn [flat_map]. rewrite app_nil_r.
      destruct (attribute_error_or_forbidden e) eqn:He.
      * exists (Ok tt),
          ([LogProcessingChannel (channel_name c)] ++ tr1
           ++ [LogThreadsUnavailable (channel_name c) e])%list.
        unfold emit, run_on. cbn [w_stats w_trace].
        rewrite <- !app_assoc. split; [reflexivity|].
        rewrite !history_requests_app, Hreq1. split; reflexivity.
      * exists (Raise e), ([LogProcessingChannel (channel_name c)] ++ tr1)%list.
        unfold run_on. rewrite <- !app_assoc. split; [reflexivity|].
        rewrite !history_requests_app, Hreq1. split; [reflexivity|].
        intros H. specialize (H eq_refl). discriminate.
  - exists (Ok tt), [LogSkippingChannel (channel_name c)].
    unfold emit, run_on. cbn [fold_left]. repeat split.
Qed.

Lemma bind_modify {B} (f : MessageStatisticsData -> MessageStatisticsData)
    (k : M B) (w : World) :
  (modify f ;; k) w = k (run_on (f (w_stats w)) (w_trace w)).
Proof. reflexivity. Qed.

Lemma bind_emit {B} (ev : Event) (k : M B) (w : World) :
  (emit ev ;; k) w = k (run_on (w_stats w) (w_trace w ++ [ev])%list).
Proof. reflexivity. Qed.

(** The loop over the channels: it stops at the first channel that raises;
    when none does it records and requests what [channel_calls] and
    [channel_requests] list. *)
Lemma walk_run (chans : list TextChannel) (start_date end_date : datetime)
    (w : World) :
  exists o calls tr',
    for_each chans
      (fun channel => _process_channel_with_threads channel start_date
                        end_date) w
    = (o,
       run_on (fold_left (fun s c => apply_call c s) calls (w_stats w))
              (w_trace w ++ tr')%list) /\
    (Forall threads_ok chans ->
     o = Ok tt /\
     calls = flat_map (channel_calls start_date end_date) chans /\
     history_requests tr'
     = flat_map (channel_requests start_date end_date) chans).
Proof.
  revert w. induction chans as [|c chans IH]; intros w.
  - exists (Ok tt), [], []. destruct w as [s tr]. cbn.
    rewrite app_nil_r. repeat split.
  - destruct (process_channel_with_threads_run c start_date end_date w)
      as (o1 & tr1 & Hrun1 & Hreq1 & Hok1).
    cbn [for_each flat_map]. unfold bind. rewrite Hrun1.
    destruct o1 as [[]|e].
    + destruct (IH (run_on (fold_left (fun s c => apply_call c s)
                              (channel_calls start_date end_date c)
                              (w_stats w))
                           (w_trace w ++ tr1)%list))
        as (o & calls & tr2 & Hrun2 & Hall).
      rewrite Hrun2. cbn [run_on w_stats w_trace].
      exists o, (channel_calls start_date end_date c ++ calls)%list,
        (tr1 ++ tr2)%list.
      rewrite fold_calls_app, app_assoc. split; [reflexivity|].
      intros Hf. inversion Hf as [|c' chans' Hc Hchans]; subst.
      destruct (Hall Hchans) as (-> & -> & Hreq2).
      rewrite history_requests_app, Hreq1, Hreq2. repeat split.
    + exists (Raise e), (channel_calls start_date end_date c), tr1.
      split; [reflexivity|].
      intros Hf. inversion Hf as [|c' chans' Hc Hchans]; subst.
      specialize (Hok1 Hc). discriminate.
Qed.

Lemma collect_run (g : Guild) (start_date end_date : datetime)
    (tr : list Event) :
  exists o calls tr',
    let s := fold_left (fun s c => apply_call c s) calls
               (set_days_in_period
                  (or_one (timedelta_days start_date end_date)) new_stats) in
    collect g start_date end_date tr = (o, run_on s (tr ++ tr')%list) /\
    (o = Ok s \/ exists e, o = Raise e) /\
    (threads_listable g ->
     o = Ok s /\
     calls = guild_calls g start_date end_date /\
     history_requests tr' = guild_requests g start_date end_date).
Proof.
  unfold collect, threads_listable, guild_calls, guild_requests.
  rewrite bind_modify, bind_emit, bind_emit.
  cbn [run_on w_stats w_trace].
  set (d := or_one (timedelta_days start_date end_date)).
  set (chans := _get_text_channels g).
  set (w0 := run_on (set_days_in_period d new_stats)
               ((tr ++ [LogCollecting (guild_name g) (guild_id g)])
                ++ [LogFoundChannels (Z.of_nat (List.length chans))])%list).
  destruct (walk_run chans start_date end_date w0)
    as (o & calls & tr1 & Hrun & Hall).
  unfold bind at 1. rewrite Hrun. subst w0. cbn [run_on w_stats w_trace].
  set (s := fold_left (fun s c => apply_call c s) calls
              (set_days_in_period d new_stats)).
  destruct o as [[]|e].
  - exists (Ok s), calls,
      ([LogCollecting (guild_name g) (guild_id g)]
       ++ [LogFoundChannels (Z.of_nat (List.length chans))] ++ tr1
       ++ [LogComplete (total_messages s)
             (Z.of_nat (List.length (messages_per_channel s)))])%list.
    cbv zeta. fold s. unfold bind, get_stats, emit, ret, run_on.
    cbn [w_stats w_trace]. rewrite <- !app_assoc.
    split; [reflexivity|]. split; [now left|].
    intros Hf. destruct (Hall Hf) as (_ & Hcalls & Hreq).
    split; [reflexivity|]. split; [assumption|].
    rewrite !history_requests_app, Hreq.
    change (history_requests [LogCollecting (guild_name g) (guild_id g)])
      with (@nil (string * datetime * datetime)).
    change (history_requests
              [LogFoundChannels (Z.of_nat (List.length chans))])
      with (@nil (string * datetime * datetime)).
    change (history_requests
              [LogComplete (total_messages s)
                 (Z.of_nat (List.length (messages_per_channel s)))])
      with (@nil (string * datetime * datetime)).
    now rewrite app_nil_r.
  - exists (Raise e), calls,
      ([LogCollecting (guild_name g) (guild_id g)]
       ++ [LogFoundChannels (Z.of_nat (List.length chans))] ++ tr1)%list.
    cbv zeta. fold s. unfold run_on. rewrite <- !app_assoc.
    split; [reflexivity|]. split; [right; now exists e|].
    intros Hf. destruct (Hall Hf) as (Ho & _). discriminate.
Qed.

Lemma apply_call_days (c : Call) (s : MessageStatisticsData) :
  days_in_period (apply_call c s) = days_in_period s.
Proof.
  destruct (apply_call_cases c s) as [[_ ->]|[_ ->]]; [reflexivity|].
  destruct (pictures_in (call_message c) =? 0); reflexivity.
Qed.

Lemma fold_calls_days (calls : list Call) (s : MessageStatisticsData) :
  days_in_period (fold_left (fun s c => apply_call c s) calls s)
  = days_in_period s.
Proof.
  revert s. induction calls as [|c calls IH]; intros s; [reflexivity|].
  simpl. rewrite IH. apply apply_call_days.
Qed.

Lemma text_channels_readable_only (g : Guild) :
  _get_text_channels (readable_only g)
  = filter channel_read_message_history (_get_text_channels g).
Proof.
  unfold _get_text_channels, readable_only. cbn [guild_channels].
  induction (guild_channels g) as [|[c|name] l IH]; cbn [filter flat_map].
  - reflexivity.
  - change ([c] ++ ?l)%list with (c :: l). cbn [filter].
    destruct (channel_read_message_history c) eqn:E.
    + cbn [flat_map]. change ([c] ++ ?l)%list with (c :: l).
      now rewrite IH.
    + exact IH.
  - cbn [flat_map app]. exact IH.
Qed.

Lemma unreadable_channel_contributes_nothing (start_date end_date : datetime)
    (c : TextChannel) :
  channel_read_message_history c = false ->
  channel_calls start_date end_date c = [] /\
  channel_requests start_date end_date c = [].
Proof.
  intros E. unfold channel_calls, channel_requests. rewrite E. now split.
Qed.

Lemma flat_map_readable {B} (f : TextChannel -> list B)
    (l : list TextChannel) :
  (forall c, channel_read_message_history c = false -> f c = []) ->
  flat_map f (filter channel_read_message_history l) = flat_map f l.
Proof.
  intros Hf. induction l as [|c l IH]; [reflexivity|].
  cbn [filter flat_map].
  destruct (channel_read_message_history c) eqn:E.
  - cbn [flat_map]. now rewrite IH.
  - now rewrite (Hf c E), IH.
Qed.

Lemma readable_only_same_walk (g : Guild) (start_date end_date : datetime) :
  guild_calls (readable_only g) start_date end_date
  = guild_calls g start_date end_date /\
  guild_requests (readable_only g) start_date end_date
  = guild_requests g start_date end_date /\
  (threads_listable g -> threads_listable (readable_only g)).
Proof.
  unfold guild_calls, guild_requests, threads_listable.
  rewrite text_channels_readable_only. repeat split.
  - apply flat_map_readable. intros c E.
    now apply unreadable_channel_contributes_nothing.
  - apply flat_map_readable. intros c E.
    now apply unreadable_channel_contributes_nothing.
  - rewrite !Forall_forall. intros H c Hin.
    apply filter_In in Hin. now apply H.
Qed.

(** C6 as stated fails: an error inside a single channel can abort the run.
    Reading the thread list of "flaky" raises [HTTPException], which the
    handler around the threads does not name: [collect] raises it, returns
    no statistics, and never requests "legacy", the channel after it. *)
Lemma thread_list_error_aborts_run :
  channel_threads flaky = Raise HTTPException /\
  fst (collect flaky_guild 0 1 []) = Raise HTTPException /\
  history_requests (w_trace (snd (collect flaky_guild 0 1 [])))
  = [("#general", 0, 1); ("#t1", 0, 1); ("#flaky", 0, 1)] /\
  guild_requests flaky_guild 0 1
  = [("#general", 0, 1); ("#t1", 0, 1); ("#flaky", 0, 1); ("#legacy", 0, 1)] /\
  ~ (forall (g : Guild) (start_date end_date : datetime) (tr : list Event),
        exists s,
          fst (collect g start_date end_date tr) = Ok s /\
          history_requests (w_trace (snd (collect g start_date end_date tr)))
          = (history_requests tr
             ++ guild_requests g start_date end_date)%list).
Proof.
  split; [reflexivity|]. split; [vm_compute; reflexivity|].
  split; [vm_compute; reflexivity|]. split; [vm_compute; reflexivity|].
  intros H. destruct (H flaky_guild 0 1 []) as (s & Hs & _).
  vm_compute in Hs. discriminate Hs.
Qed.

(** C6, amended. In a guild where reading a channel's thread list succeeds
    or raises one of the two exceptions its handler names, whatever errors
    the history streams raise: [collect] returns the statistics object; its
    statistics
    are those of the messages that the readable channels and their readable
    threads yielded before any error; it sent one history request for each
    readable channel and readable thread of a readable channel, in order,
    and none for a channel without the permission, which with its threads
    contributes no message: collecting on the guild without those channels
    returns the same statistics. *)
Theorem collect_survives_channel_errors (g : Guild)
    (start_date end_date : datetime) (tr : list Event) :
  threads_listable g ->
  let r := collect g start_date end_date tr in
  let fresh := set_days_in_period
                 (or_one (timedelta_days start_date end_date)) new_stats in
  exists s,
    fst r = Ok s /\
    s = stats_after (guild_calls g start_date end_date) fresh /\
    history_requests (w_trace (snd r))
    = (history_requests tr ++ guild_requests g start_date end_date)%list /\
    (forall c, In c (_get_text_channels g) ->
               channel_read_message_history c = false ->
               channel_calls start_date end_date c = [] /\
               channel_requests start_date end_date c = []) /\
    fst (collect (readable_only g) start_date end_date tr) = Ok s.
Proof.
  intros Hlist r fresh. subst r.
  destruct (collect_run g start_date end_date tr)
    as (o & calls & tr' & Hrun & _ & Hall).
  destruct (Hall Hlist) as (-> & -> & Hreq). cbv zeta in Hrun.
  fold fresh in Hrun. rewrite Hrun. cbn [fst snd run_on w_trace].
  exists (fold_left (fun s c => apply_call c s)
            (guild_calls g start_date end_date) fresh).
  split; [reflexivity|]. split; [now rewrite stats_after_fold|].
  split; [now rewrite history_requests_app, Hreq|].
  split.
  - intros c _ E. now apply unreadable_channel_contributes_nothing.
  - destruct (readable_only_same_walk g start_date end_date)
      as (Hcalls & _ & Hlist').
    destruct (collect_run (readable_only g) start_date end_date tr)
      as (o2 & calls2 & tr2 & Hrun2 & _ & Hall2).
    destruct (Hall2 (Hlist' Hlist)) as (-> & -> & _). cbv zeta in Hrun2.
    rewrite Hrun2, Hcalls. reflexivity.
Qed.

Lemma sample_guild_listable : threads_listable sample_guild.
Proof.
  unfold threads_listable, threads_ok. cbn.
  repeat constructor.
Defined.

Lemma collect_survives_channel_errors_witness :
  threads_listable sample_guild /\
  exists s, fst (collect sample_guild 0 1 []) = Ok s /\
            total_messages s = 4 /\
            history_requests (w_trace (snd (collect sample_guild 0 1 [])))
            = [("#general", 0, 1); ("#t1", 0, 1); ("#legacy", 0, 1)].
Proof.
  split; [exact sample_guild_listable|].
  destruct (collect_survives_channel_errors sample_guild 0 1 []
              sample_guild_listable)
    as (s & Hs & Hstats & Hreq & _).
  exists s. split; [exact Hs|]. split.
  - rewrite Hstats. reflexivity.
  - rewrite Hreq. reflexivity.
Defined.



(** ** A worked week *)

Example busy_week_statistics :
  let s := stats_after busy_week new_stats in
  total_messages s = 18 /\
  Counter.get "#general" (messages_per_channel s) = 15 /\
  Counter.get "#t1" (messages_per_thread s) = 3 /\
  total_thread_messages s = 3 /\
  total_pictures s = 2 /\
  Counter.get "alice" (pictures_per_author s) = 2 /\
  map fst (get_top_posters s 1) = [("alice", 13)] /\
  Forall (fun e => (snd e == 5082187079497955 # 70368744177664)%Q)
         (get_top_posters s 1).
Proof.
  vm_compute. repeat split; try reflexivity.
  repeat constructor.
Qed.

(** * Further properties of the collector *)

(** ** Exact counts *)

Lemma count_where_cons (p : Call -> bool) (c : Call) (calls : list Call) :
  count_where p (c :: calls)
  = (if counted c && p c then 1 else 0) + count_where p calls.
Proof.
  unfold count_where. cbn [filter].
  destruct (counted c && p c); cbn [List.length]; lia.
Qed.

Lemma pictures_where_cons (p : Call -> bool) (c : Call) (calls : list Call) :
  pictures_where p (c :: calls)
  = (if counted c && p c then pictures_in (call_message c) else 0)
    + pictures_where p calls.
Proof.
  unfold pictures_where. cbn [filter].
  destruct (counted c && p c); cbn [map fold_right]; lia.
Qed.

(** What one call adds to every total and counter. *)
Lemma apply_call_deltas (c : Call) (s : MessageStatisticsData) :
  let one (b : bool) : Z := if counted c && b then 1 else 0 in
  let pics (b : bool) : Z :=
    if counted c && b then pictures_in (call_message c) else 0 in
  let s' := apply_call c s in
  total_messages s' = total_messages s + one true /\
  (forall a, Counter.get a (messages_per_author s')
             = Counter.get a (messages_per_author s)
               + one (String.eqb (call_author c) a)) /\
  (forall k, Counter.get k (messages_per_channel s')
             = Counter.get k (messages_per_channel s)
               + one (String.eqb (call_channel_name c) k)) /\
  (forall k, Counter.get k (messages_per_thread s')
             = Counter.get k (messages_per_thread s)
               + one (call_is_thread c
                      && String.eqb (call_channel_name c) k)) /\
  total_thread_messages s'
  = total_thread_messages s + one (call_is_thread c) /\
  (forall a, Counter.get a (pictures_per_author s')
             = Counter.get a (pictures_per_author s)
               + pics (String.eqb (call_author c) a)) /\
  total_pictures s' = total_pictures s + pics true.
Proof.
  cbv zeta. unfold call_author.
  destruct (apply_call_cases c s) as [[Hbot ->]|[Hbot ->]].
  - assert (Hc : counted c = false).
    { unfold counted.
      destruct (author_bot (msg_author (call_message c))) as [[|]|];
        try reflexivity. contradiction. }
    rewrite Hc. cbn [andb]. repeat split; intros; lia.
  - assert (Hc : counted c = true) by (unfold counted; now rewrite Hbot).
    rewrite Hc. cbn [andb].
    pose proof (pictures_in_nonneg (call_message c)) as Hk.
    assert (Hadd : forall k0 k n cnt,
               Counter.get k (Counter.add k0 n cnt)
               = Counter.get k cnt + (if String.eqb k0 k then n else 0)).
    { intros k0 k n cnt. rewrite counter_get_add, (String.eqb_sym k).
      reflexivity. }
    destruct (pictures_in (call_message c) =? 0) eqn:Ek;
      [apply Z.eqb_eq in Ek|];
      cbn [count_pictures count_message total_messages messages_per_author
           messages_per_channel messages_per_thread total_thread_messages
           pictures_per_author total_pictures].
    + repeat split; intros; rewrite ?Hadd;
        try (destruct (call_is_thread c); cbn [andb]; rewrite ?Hadd);
        try match goal with
            | |- context [String.eqb ?x ?y] => destruct (String.eqb x y)
            end; lia.
    + repeat split; intros; rewrite ?Hadd;
        try (destruct (call_is_thread c); cbn [andb]; rewrite ?Hadd);
        try match goal with
            | |- context [String.eqb ?x ?y] => destruct (String.eqb x y)
            end; lia.
Qed.

Lemma fold_calls_counts (calls : list Call) (s : MessageStatisticsData) :
  let s' := fold_left (fun s c => apply_call c s) calls s in
  total_messages s' = total_messages s + count_where (fun _ => true) calls /\
  (forall a, Counter.get a (messages_per_author s')
             = Counter.get a (messages_per_author s)
               + count_where (fun c => String.eqb (call_author c) a) calls) /\
  (forall k, Counter.get k (messages_per_channel s')
             = Counter.get k (messages_per_channel s)
               + count_where (fun c => String.eqb (call_channel_name c) k)
                   calls) /\
  (forall k, Counter.get k (messages_per_thread s')
             = Counter.get k (messages_per_thread s)
               + count_where (fun c => call_is_thread c
                                       && String.eqb (call_channel_name c) k)
                   calls) /\
  total_thread_messages s'
  = total_thread_messages s + count_where call_is_thread calls /\
  (forall a, Counter.get a (pictures_per_author s')
             = Counter.get a (pictures_per_author s)
               + pictures_where (fun c => String.eqb (call_author c) a)
                   calls) /\
  total_pictures s' = total_pictures s + pictures_where (fun _ => true) calls.
Proof.
  revert s. induction calls as [|c calls IH]; intros s.
  - cbv zeta. cbn [fold_left]. unfold count_where, pictures_where.
    cbn [filter List.length map fold_right Z.of_nat].
    repeat split; intros; lia.
  - cbn [fold_left]. cbv zeta.
    destruct (IH (apply_call c s)) as (H1 & H2 & H3 & H4 & H5 & H6 & H7).
    destruct (apply_call_deltas c s) as (D1 & D2 & D3 & D4 & D5 & D6 & D7).
    cbv zeta in H1, H2, H3, H4, H5, H6, H7.
    rewrite !count_where_cons, !pictures_where_cons.
    repeat split; intros.
    + rewrite H1, D1. lia.
    + rewrite H2, D2, count_where_cons. lia.
    + rewrite H3, D3, count_where_cons. lia.
    + rewrite H4, D4, count_where_cons. lia.
    + rewrite H5, D5. lia.
    + rewrite H6, D6, pictures_where_cons. lia.
    + rewrite H7, D7. lia.
Qed.

(** X1. Every total and every counter entry is an exact count of the
    recorded calls whose author is not a bot: messages per author name and
    per channel name, thread messages per name, and image attachments per
    author name. *)
Theorem recorded_counts_exact (calls : list Call) (tr : list Event) :
  let s := w_stats (snd (record_all calls (run_on new_stats tr))) in
  total_messages s = count_where (fun _ => true) calls /\
  (forall a, Counter.get a (messages_per_author s)
             = count_where (fun c => String.eqb (call_author c) a) calls) /\
  (forall k, Counter.get k (messages_per_channel s)
             = count_where (fun c => String.eqb (call_channel_name c) k)
                 calls) /\
  (forall k, Counter.get k (messages_per_thread s)
             = count_where (fun c => call_is_thread c
                                     && String.eqb (call_channel_name c) k)
                 calls) /\
  total_thread_messages s = count_where call_is_thread calls /\
  (forall a, Counter.get a (pictures_per_author s)
             = pictures_where (fun c => String.eqb (call_author c) a) calls) /\
  total_pictures s = pictures_where (fun _ => true) calls.
Proof.
  cbv zeta. destruct (record_all_stats calls new_stats tr) as [_ ->].
  rewrite stats_after_fold.
  destruct (fold_calls_counts calls new_stats)
    as (H1 & H2 & H3 & H4 & H5 & H6 & H7).
  cbv zeta in H1, H2, H3, H4, H5, H6, H7.
  repeat split; intros;
    rewrite ?H1, ?H2, ?H3, ?H4, ?H5, ?H6, ?H7; reflexivity.
Qed.

Lemma count_where_perm (p : Call -> bool) (calls calls' : list Call) :
  Permutation calls calls' -> count_where p calls = count_where p calls'.
Proof.
  intros H. unfold count_where. f_equal.
  apply Permutation_length.
  induction H; cbn [filter].
  - constructor.
  - destruct (counted x && p x); [now constructor | assumption].
  - destruct (counted x && p x), (counted y && p y);
      try apply Permutation_refl. apply perm_swap.
  - eapply perm_trans; eassumption.
Qed.

Lemma pictures_where_perm (p : Call -> bool) (calls calls' : list Call) :
  Permutation calls calls' ->
  pictures_where p calls = pictures_where p calls'.
Proof.
  intros H. induction H.
  - reflexivity.
  - rewrite !pictures_where_cons. lia.
  - rewrite !pictures_where_cons. lia.
  - congruence.
Qed.

(** X2. The totals and the value of every counter entry do not depend on
    the order in which the messages are recorded. *)
Theorem counts_independent_of_order (calls calls' : list Call) :
  Permutation calls calls' ->
  let s := stats_after calls new_stats in
  let s' := stats_after calls' new_stats in
  total_messages s = total_messages s' /\
  total_thread_messages s = total_thread_messages s' /\
  total_pictures s = total_pictures s' /\
  (forall k, Counter.get k (messages_per_author s)
             = Counter.get k (messages_per_author s')) /\
  (forall k, Counter.get k (messages_per_channel s)
             = Counter.get k (messages_per_channel s')) /\
  (forall k, Counter.get k (messages_per_thread s)
             = Counter.get k (messages_per_thread s')) /\
  (forall k, Counter.get k (pictures_per_author s)
             = Counter.get k (pictures_per_author s')).
Proof.
  intros Hperm. cbv zeta. rewrite !stats_after_fold.
  destruct (fold_calls_counts calls new_stats)
    as (H1 & H2 & H3 & H4 & H5 & H6 & H7).
  destruct (fold_calls_counts calls' new_stats)
    as (H1' & H2' & H3' & H4' & H5' & H6' & H7').
  cbv zeta in *.
  repeat split; intros;
    rewrite ?H1, ?H2, ?H3, ?H4, ?H5, ?H6, ?H7,
            ?H1', ?H2', ?H3', ?H4', ?H5', ?H6', ?H7';
    f_equal; first [now apply count_where_perm
                   | now apply pictures_where_perm].
Qed.

Lemma counts_independent_of_order_witness :
  Permutation one_picture (List.rev one_picture) /\
  total_pictures (stats_after one_picture new_stats)
  = total_pictures (stats_after (List.rev one_picture) new_stats).
Proof.
  split; [apply Permutation_rev|].
  apply (counts_independent_of_order one_picture (List.rev one_picture)
           (Permutation_rev one_picture)).
Defined.

(** ** Bounds between the counters *)

Lemma count_where_nonneg (p : Call -> bool) (calls : list Call) :
  0 <= count_where p calls.
Proof. unfold count_where. lia. Qed.

Lemma count_where_le (p q : Call -> bool) (calls : list Call) :
  (forall c, p c = true -> q c = true) ->
  count_where p calls <= count_where q calls.
Proof.
  intros Hpq. induction calls as [|c calls IH].
  - reflexivity.
  - rewrite !count_where_cons.
    destruct (counted c); cbn [andb]; [|lia].
    destruct (p c) eqn:Ep; [rewrite (Hpq c Ep); lia|].
    destruct (q c); lia.
Qed.

Lemma pictures_where_nonneg (p : Call -> bool) (calls : list Call) :
  0 <= pictures_where p calls.
Proof.
  induction calls as [|c calls IH]; [reflexivity|].
  rewrite pictures_where_cons.
  pose proof (pictures_in_nonneg (call_message c)).
  destruct (counted c && p c); lia.
Qed.

Lemma pictures_where_positive (p : Call -> bool) (calls : list Call) :
  0 < pictures_where p calls -> 0 < count_where p calls.
Proof.
  induction calls as [|c calls IH].
  - unfold pictures_where. cbn. lia.
  - rewrite pictures_where_cons, count_where_cons.
    pose proof (count_where_nonneg p calls).
    destruct (counted c && p c); [lia|]. intros Hp. apply IH in Hp. lia.
Qed.

(** X3. On a container filled by recorded messages, thread messages are a
    part of the messages: [total_thread_messages] is the sum of
    [messages_per_thread] and at most [total_messages], which is also the sum
    of [messages_per_author]; a thread's entry never exceeds the channel
    entry of the same name; an author with pictures has messages. *)
Theorem thread_and_picture_counts_bounded (calls : list Call)
    (tr : list Event) :
  let s := w_stats (snd (record_all calls (run_on new_stats tr))) in
  total_thread_messages s = Counter.total (messages_per_thread s) /\
  total_thread_messages s <= total_messages s /\
  total_messages s = Counter.total (messages_per_author s) /\
  (forall k, Counter.get k (messages_per_thread s)
             <= Counter.get k (messages_per_channel s)) /\
  (forall a, 0 < Counter.get a (pictures_per_author s) ->
             0 < Counter.get a (messages_per_author s)).
Proof.
  cbv zeta.
  destruct (fresh_run_invariant calls tr) as [(_ & Hau & Hth & _) _].
  cbv zeta in Hau, Hth.
  destruct (record_all_stats calls new_stats tr) as [_ Hs].
  rewrite Hs in *. clear Hs. rewrite stats_after_fold in *.
  destruct (fold_calls_counts calls new_stats)
    as (H1 & H2 & H3 & H4 & H5 & H6 & H7).
  cbv zeta in H1, H2, H3, H4, H5, H6, H7.
  repeat split; try assumption.
  - rewrite H1, H5. cbn [new_stats total_thread_messages total_messages].
    apply Z.add_le_mono_l, count_where_le. reflexivity.
  - intros k. rewrite H3, H4. apply Z.add_le_mono_l, count_where_le.
    intros c Hc. apply andb_true_iff in Hc. apply Hc.
  - intros a. rewrite H2, H6. unfold Counter.get. cbn [new_stats
      pictures_per_author messages_per_author Dict.get].
    intros H. apply pictures_where_positive. lia.
Qed.

(** X4. Recording more messages never lowers a total or a counter entry. *)
Theorem counters_never_decrease (calls more : list Call)
    (s : MessageStatisticsData) :
  let s1 := stats_after calls s in
  let s2 := stats_after (calls ++ more) s in
  total_messages s1 <= total_messages s2 /\
  total_thread_messages s1 <= total_thread_messages s2 /\
  total_pictures s1 <= total_pictures s2 /\
  (forall k, Counter.get k (messages_per_author s1)
             <= Counter.get k (messages_per_author s2)) /\
  (forall k, Counter.get k (messages_per_channel s1)
             <= Counter.get k (messages_per_channel s2)) /\
  (forall k, Counter.get k (messages_per_thread s1)
             <= Counter.get k (messages_per_thread s2)) /\
  (forall k, Counter.get k (pictures_per_author s1)
             <= Counter.get k (pictures_per_author s2)).
Proof.
  cbv zeta. rewrite !stats_after_fold, fold_calls_app.
  destruct (fold_calls_counts more
              (fold_left (fun s c => apply_call c s) calls s))
    as (H1 & H2 & H3 & H4 & H5 & H6 & H7).
  cbv zeta in H1, H2, H3, H4, H5, H6, H7.
  repeat split; intros;
    rewrite ?H1, ?H2, ?H3, ?H4, ?H5, ?H6, ?H7;
    match goal with
    | |- _ <= _ + count_where ?p ?l =>
        pose proof (count_where_nonneg p l); lia
    | |- _ <= _ + pictures_where ?p ?l =>
        pose proof (pictures_where_nonneg p l); lia
    end.
Qed.

(** ** The side dictionaries *)

Lemma dict_keys_set_in {V} (k : string) (v : V) (d : Dict.t V) :
  In k (Dict.keys (Dict.set k v d)).
Proof.
  rewrite dict_keys_set.
  destruct (in_dec string_dec k (Dict.keys d)); [assumption|].
  apply in_or_app. right. now left.
Qed.

Lemma dict_keys_set_incl {V} (k : string) (v : V) (d : Dict.t V) :
  incl (Dict.keys d) (Dict.keys (Dict.set k v d)).
Proof.
  rewrite dict_keys_set.
  destruct (in_dec string_dec k (Dict.keys d));
    [apply incl_refl | apply incl_appl, incl_refl].
Qed.

Lemma dict_keys_set_same {V W} (k : string) (v : V) (w : W)
    (d : Dict.t V) (d' : Dict.t W) :
  Dict.keys d = Dict.keys d' ->
  Dict.keys (Dict.set k v d) = Dict.keys (Dict.set k w d').
Proof. intros H. now rewrite !dict_keys_set, H. Qed.

Lemma dict_get_in_keys {V} (k : string) (d : Dict.t V) :
  In k (Dict.keys d) <-> exists v, Dict.get k d = Some v.
Proof.
  unfold Dict.keys. induction d as [|[k' v'] d IH]; cbn [map Dict.get In fst].
  - split; [contradiction | intros [v H]; discriminate].
  - destruct (String.eqb k k') eqn:E.
    + apply String.eqb_eq in E. subst k'. split; [eauto | now left].
    + apply String.eqb_neq in E. rewrite <- IH. split.
      * intros [H|H]; [congruence | assumption].
      * now right.
Qed.

Lemma apply_call_side_keys (c : Call) (s : MessageStatisticsData) :
  side_keys_ok s -> side_keys_ok (apply_call c s).
Proof.
  intros (H1 & H2 & H3 & H4).
  destruct (apply_call_cases c s) as [[_ ->]|[_ ->]]; [now repeat split|].
  assert (Hmsg : side_keys_ok (count_message (call_message c)
                                 (call_channel_name c) (call_is_thread c) s)).
  { unfold side_keys_ok, Counter.add.
    cbn [count_message messages_per_author_id messages_per_author
         messages_per_channel_id messages_per_channel messages_per_thread_id
         messages_per_thread pictures_per_author].
    repeat split.
    - now apply dict_keys_set_same.
    - now apply dict_keys_set_same.
    - destruct (call_is_thread c); [now apply dict_keys_set_same | assumption].
    - eapply incl_tran; [exact H4 | apply dict_keys_set_incl]. }
  destruct (pictures_in (call_message c) =? 0); [assumption|].
  destruct Hmsg as (M1 & M2 & M3 & M4).
  unfold side_keys_ok.
  cbn [count_pictures messages_per_author_id messages_per_author
       messages_per_channel_id messages_per_channel messages_per_thread_id
       messages_per_thread pictures_per_author] in *.
  repeat split; try assumption.
  unfold Counter.add at 1. rewrite dict_keys_set.
  destruct (in_dec string_dec _ _); [assumption|].
  apply incl_app; [assumption|].
  intros k [<-|[]]. unfold Counter.add.
  apply dict_keys_set_in.
Qed.

Lemma fold_calls_side_keys (calls : list Call) (s : MessageStatisticsData) :
  side_keys_ok s ->
  side_keys_ok (fold_left (fun s c => apply_call c s) calls s).
Proof.
  revert s. induction calls as [|c calls IH]; intros s H; [assumption|].
  cbn [fold_left]. now apply IH, apply_call_side_keys.
Qed.

Lemma in_firstn {A} (n : nat) (l : list A) (x : A) :
  In x (firstn n l) -> In x l.
Proof.
  revert l. induction n as [|n IH]; intros [|y l]; cbn [firstn In];
    try contradiction.
  intros [H|H]; [now left | right; now apply IH].
Qed.

Lemma in_most_common (n : Z) (c : Counter.t) (item : string * Z) :
  In item (Counter.most_common n c) -> In item c.
Proof.
  unfold Counter.most_common. intros H. apply in_firstn in H.
  now apply (Permutation_in _ (sorted_desc_perm c)).
Qed.

(** X5. On a container filled by recorded messages the id dictionaries
    have exactly the keys of their counters, in the same order, and every
    picture poster is an author; so every name the rankings return has a
    stored id. *)
Theorem ranked_names_have_ids (calls : list Call) (tr : list Event) :
  let s := w_stats (snd (record_all calls (run_on new_stats tr))) in
  Dict.keys (messages_per_author_id s) = Dict.keys (messages_per_author s) /\
  Dict.keys (messages_per_channel_id s) = Dict.keys (messages_per_channel s) /\
  Dict.keys (messages_per_thread_id s) = Dict.keys (messages_per_thread s) /\
  (forall n e, In e (get_top_posters s n) ->
     exists id, Dict.get (fst (fst e)) (messages_per_author_id s) = Some id) /\
  (forall n e, In e (get_top_channels s n) ->
     exists id, Dict.get (fst (fst e)) (messages_per_channel_id s) = Some id) /\
  (forall n e, In e (get_top_threads s n) ->
     exists id, Dict.get (fst (fst e)) (messages_per_thread_id s) = Some id) /\
  (forall n e, In e (get_top_picture_posters s n) ->
     exists id, Dict.get (fst (fst e)) (messages_per_author_id s) = Some id).
Proof.
  cbv zeta. destruct (record_all_stats calls new_stats tr) as [_ ->].
  rewrite stats_after_fold.
  set (s := fold_left (fun s c => apply_call c s) calls new_stats).
  assert (Hk : side_keys_ok s).
  { apply fold_calls_side_keys. repeat split. apply incl_refl. }
  destruct Hk as (K1 & K2 & K3 & K4).
  assert (Hin : forall t n (c : Counter.t) e,
             In e (if t =? 0 then []
                   else map (ranked_entry t) (Counter.most_common n c)) ->
             In (fst (fst e)) (Dict.keys c)).
  { intros t n c e He. destruct (t =? 0); [contradiction|].
    apply in_map_iff in He. destruct He as (item & <- & Hitem).
    apply in_most_common in Hitem. cbn [ranked_entry fst].
    unfold Dict.keys. now apply in_map. }
  repeat split; try assumption; intros n e He; apply dict_get_in_keys.
  - rewrite K1. exact (Hin _ _ _ _ He).
  - rewrite K2. exact (Hin _ _ _ _ He).
  - rewrite K3. exact (Hin _ _ _ _ He).
  - rewrite K1. apply K4. exact (Hin _ _ _ _ He).
Qed.

(** ** The ranking queries *)

Lemma ranking_query_unfold (q : Ranking) (s : MessageStatisticsData)
    (n : Z) :
  ranking_query q s n
  = if ranking_total q s =? 0 then []
    else map (ranked_entry (ranking_total q s))
             (Counter.most_common n (ranking_counter q s)).
Proof. destruct q; reflexivity. Qed.

Lemma ranking_invariant (q : Ranking) (calls : list Call) (tr : list Event) :
  let s := w_stats (snd (record_all calls (run_on new_stats tr))) in
  ranking_total q s = Counter.total (ranking_counter q s) /\
  counter_ok (ranking_counter q s).
Proof.
  destruct (fresh_run_invariant calls tr)
    as [(Hch & Hau & Hth & Hpi) (Oau & Och & Oth & Opi)].
  cbv zeta in *. destruct q; split; assumption.
Qed.

(** X6. Each of the four ranking queries, on a container filled by
    recorded messages and for [n >= 0], returns the first [n] items of its
    own counter ranked by decreasing count with equal counts in insertion
    order, with percentages of its own total: [total_messages] for posters
    and channels, [total_pictures] for picture posters,
    [total_thread_messages] for threads. A percentage is the binary64 value
    of [(count / total) * 100], within 2^-45 of the exact
    [100 * count / total]. The result is empty for [n = 0] and for a zero
    total, and complete for [n] at least the number of keys. *)
Theorem ranking_queries_spec (q : Ranking) (calls : list Call)
    (tr : list Event) (n : Z) :
  0 <= n ->
  let s := w_stats (snd (record_all calls (run_on new_stats tr))) in
  let t := ranking_total q s in
  let c := ranking_counter q s in
  exists ranked,
    Permutation ranked c /\
    StronglySorted by_count_desc ranked /\
    same_order_among_ties ranked c /\
    ranking_query q s n = map (ranked_entry t) (firstn (Z.to_nat n) ranked) /\
    (forall item,
        In item ranked ->
        fst (ranked_entry t item) = item /\
        snd (ranked_entry t item)
        = float_mul (true_div (snd item) t) 100 /\
        (Qabs (snd (ranked_entry t item)
               - 100 * inject_Z (snd item) / inject_Z t)
         <= 2 ^ (-45))%Q) /\
    ranking_query q s 0 = [] /\
    (t = 0 -> ranking_query q s n = []) /\
    (Z.of_nat (List.length c) <= n ->
     ranking_query q s n = map (ranked_entry t) ranked).
Proof.
  intros Hn s t c.
  destruct (ranking_invariant q calls tr) as [Hsum Hok].
  fold s in Hsum, Hok. fold t in Hsum. fold c in Hsum, Hok.
  pose proof Hok as [Hpos _].
  destruct (ranking_spec t n c Hn)
    as (ranked & Hperm & Hsorted & Hties & Hfirst & Hzero & Hall).
  exists ranked. rewrite !ranking_query_unfold. fold t c.
  assert (Hitems : forall item, In item ranked ->
            fst (ranked_entry t item) = item /\
            snd (ranked_entry t item)
            = float_mul (true_div (snd item) t) 100 /\
            (Qabs (snd (ranked_entry t item)
                   - 100 * inject_Z (snd item) / inject_Z t)
             <= 2 ^ (-45))%Q).
  { intros item Hin.
    exact (ranked_entry_percent t c ranked item Hok Hsum Hperm Hin). }
  destruct (t =? 0) eqn:Et.
  - apply Z.eqb_eq in Et.
    assert (Hnil : c = []).
    { apply counter_positive_total_zero; [assumption | lia]. }
    rewrite Hnil in Hperm. apply Permutation_sym, Permutation_nil in Hperm.
    subst ranked. rewrite firstn_nil.
    repeat match goal with |- _ /\ _ => split end; auto.
    rewrite Hnil. constructor.
  - apply Z.eqb_neq in Et.
    repeat match goal with |- _ /\ _ => split end; auto.
    intros Ht. contradiction.
Qed.

Lemma ranking_queries_spec_witness :
  0 <= 1 /\
  ranking_query Threads
    (w_stats (snd (record_all busy_week (run_on new_stats [])))) 0 = [].
Proof.
  split; [lia|].
  destruct (ranking_queries_spec Threads busy_week [] 1 Z.le_0_1)
    as (ranked & _ & _ & _ & _ & _ & Hzero & _).
  exact Hzero.
Defined.

Lemma dict_get_in {V} (k : string) (v : V) (d : Dict.t V) :
  Dict.get k d = Some v -> In (k, v) d.
Proof.
  induction d as [|[k' v'] d IH]; cbn [Dict.get]; [discriminate|].
  destruct (String.eqb k k') eqn:E.
  - apply String.eqb_eq in E. intros [= ->]. subst. now left.
  - intros H. right. now apply IH.
Qed.

Lemma dict_get_of_in {V} (k : string) (v : V) (d : Dict.t V) :
  NoDup (Dict.keys d) -> In (k, v) d -> Dict.get k d = Some v.
Proof.
  unfold Dict.keys. induction d as [|[k' v'] d IH]; cbn [map fst In Dict.get];
    [contradiction|].
  intros Hnd [H|H].
  - injection H as -> ->. now rewrite String.eqb_refl.
  - inversion Hnd as [|? ? Hnotin Hnd']; subst.
    destruct (String.eqb k k') eqn:E; [|now apply IH].
    apply String.eqb_eq in E. subst k'. exfalso. apply Hnotin.
    change k with (fst (k, v)). now apply in_map.
Qed.

Lemma nodup_keys_firstn {V} (n : nat) (l : list (string * V)) :
  NoDup (map fst l) -> NoDup (map fst (firstn n l)).
Proof.
  intros H. rewrite <- (firstn_skipn n l), map_app in H.
  now apply NoDup_app_remove_r in H.
Qed.

(** X7. What a ranking query returns, on a container filled by recorded
    messages and for [n >= 0]: as many entries as the smaller of [n] and
    the number of keys; pairwise distinct keys; each entry's count is the
    counter's value for its key, at least 1 and at most the query's total;
    each percentage, a binary64 number, is at least 0 and at most 100, and
    above 0 unless the total is beyond 2^1074, where the quotient
    underflows. *)
Theorem ranking_entries_sound (q : Ranking) (calls : list Call)
    (tr : list Event) (n : Z) :
  0 <= n ->
  let s := w_stats (snd (record_all calls (run_on new_stats tr))) in
  let r := ranking_query q s n in
  List.length r
  = Nat.min (Z.to_nat n) (List.length (ranking_counter q s)) /\
  NoDup (map (fun e => fst (fst e)) r) /\
  (forall e, In e r ->
     Counter.get (fst (fst e)) (ranking_counter q s) = snd (fst e) /\
     1 <= snd (fst e) <= ranking_total q s /\
     (0 <= snd e <= 100)%Q /\
     (ranking_total q s <= 2 ^ 1074 -> (0 < snd e)%Q)).
Proof.
  intros Hn s r. subst r.
  destruct (ranking_invariant q calls tr) as [Hsum [Hpos Hnd]].
  fold s in Hsum, Hpos, Hnd.
  rewrite ranking_query_unfold.
  set (t := ranking_total q s) in *. set (c := ranking_counter q s) in *.
  destruct (t =? 0) eqn:Et.
  - apply Z.eqb_eq in Et.
    assert (Hnil : c = [])
      by (apply counter_positive_total_zero; [assumption | lia]).
    rewrite Hnil. cbn [List.length map]. rewrite Nat.min_0_r.
    repeat split; try constructor; contradiction.
  - apply Z.eqb_neq in Et. unfold Counter.most_common.
    repeat split.
    + rewrite length_map, length_firstn.
      now rewrite (Permutation_length (sorted_desc_perm c)).
    + rewrite map_map. cbn [ranked_entry fst].
      apply nodup_keys_firstn.
      apply (Permutation_NoDup
               (Permutation_sym
                  (Permutation_map fst (sorted_desc_perm c)))).
      exact Hnd.
    + apply in_map_iff in H. destruct H as ([k v] & <- & Hin).
      apply in_firstn in Hin.
      apply (Permutation_in _ (sorted_desc_perm c)) in Hin.
      cbn [ranked_entry fst snd]. unfold Counter.get.
      now rewrite (dict_get_of_in k v c Hnd Hin).
    + apply in_map_iff in H. destruct H as ([k v] & <- & Hin).
      apply in_firstn in Hin.
      apply (Permutation_in _ (sorted_desc_perm c)) in Hin.
      cbn [ranked_entry fst snd].
      rewrite Forall_forall in Hpos. specialize (Hpos _ Hin).
      cbn [snd] in Hpos. lia.
    + apply in_map_iff in H. destruct H as ([k v] & <- & Hin).
      apply in_firstn in Hin.
      apply (Permutation_in _ (sorted_desc_perm c)) in Hin.
      cbn [ranked_entry fst snd]. rewrite Hsum.
      now apply (counter_value_le_total k).
    + apply in_map_iff in H. destruct H as ([k v] & <- & Hin).
      apply in_firstn in Hin.
      apply (Permutation_in _ (sorted_desc_perm c)) in Hin.
      cbn [ranked_entry fst snd].
      pose proof (counter_value_le_total k v c Hpos Hin) as Hle.
      rewrite Forall_forall in Hpos. specialize (Hpos _ Hin).
      cbn [snd] in Hpos. apply percent_range; lia.
    + apply in_map_iff in H. destruct H as ([k v] & <- & Hin).
      apply in_firstn in Hin.
      apply (Permutation_in _ (sorted_desc_perm c)) in Hin.
      cbn [ranked_entry fst snd].
      pose proof (counter_value_le_total k v c Hpos Hin) as Hle.
      rewrite Forall_forall in Hpos. specialize (Hpos _ Hin).
      cbn [snd] in Hpos. apply percent_range; lia.
    + apply in_map_iff in H. destruct H as ([k v] & <- & Hin).
      apply in_firstn in Hin.
      apply (Permutation_in _ (sorted_desc_perm c)) in Hin.
      cbn [ranked_entry fst snd].
      pose proof (counter_value_le_total k v c Hpos Hin) as Hle.
      rewrite Forall_forall in Hpos. specialize (Hpos _ Hin).
      cbn [snd] in Hpos. intros Hbig. apply percent_positive; lia.
Qed.

Lemma ranking_entries_sound_witness :
  0 <= 3 /\
  List.length
    (ranking_query Posters
       (w_stats (snd (record_all busy_week (run_on new_stats [])))) 3)
  = Nat.min (Z.to_nat 3)
      (List.length
         (ranking_counter Posters
            (w_stats (snd (record_all busy_week (run_on new_stats [])))))).
Proof.
  split; [lia|].
  apply (ranking_entries_sound Posters busy_week [] 3).
  lia.
Defined.

(** X8. When its total is positive and [n >= 1], a ranking query's first
    entry has the largest count of its counter, and among the keys with
    that count it is the one inserted first. *)
Theorem top_entry_is_maximum (q : Ranking) (calls : list Call)
    (tr : list Event) (n : Z) :
  1 <= n ->
  let s := w_stats (snd (record_all calls (run_on new_stats tr))) in
  0 < ranking_total q s ->
  exists top rest later,
    ranking_query q s n = top :: rest /\
    (forall k, Counter.get k (ranking_counter q s) <= snd (fst top)) /\
    Counter.get (fst (fst top)) (ranking_counter q s) = snd (fst top) /\
    filter (fun y => snd y =? snd (fst top)) (ranking_counter q s)
    = fst top :: later.
Proof.
  intros Hn s Ht.
  destruct (ranking_invariant q calls tr) as [Hsum [Hpos Hnd]].
  fold s in Hsum, Hpos, Hnd.
  rewrite ranking_query_unfold.
  set (t := ranking_total q s) in *. set (c := ranking_counter q s) in *.
  replace (t =? 0) with false by (symmetry; apply Z.eqb_neq; lia).
  pose proof (sorted_desc_perm c) as Hperm.
  pose proof (sorted_desc_sorted c) as Hsorted.
  pose proof (sorted_desc_ties c) as Hties.
  unfold Counter.most_common.
  destruct (Counter.sorted_desc c) as [|[k m] xs] eqn:Hs.
  - apply Permutation_nil in Hperm. rewrite Hperm in Hsum.
    cbn in Hsum. lia.
  - destruct (Z.to_nat n) as [|n'] eqn:En; [lia|].
    cbn [firstn map].
    exists (ranked_entry t (k, m)), (map (ranked_entry t) (firstn n' xs)),
      (filter (fun y => snd y =? m) xs).
    cbn [ranked_entry fst snd].
    assert (Hin : In (k, m) c)
      by (apply (Permutation_in _ Hperm); now left).
    assert (Hm : 0 < m).
    { rewrite Forall_forall in Hpos. exact (Hpos _ Hin). }
    inversion Hsorted as [|? ? _ Hhd]; subst.
    repeat split.
    + intros k'. unfold Counter.get.
      destruct (Dict.get k' c) as [v|] eqn:Eg; [|lia].
      apply dict_get_in in Eg.
      apply (Permutation_in _ (Permutation_sym Hperm)) in Eg.
      destruct Eg as [Eg|Eg]; [injection Eg as _ <-; lia|].
      rewrite Forall_forall in Hhd. exact (Hhd _ Eg).
    + unfold Counter.get. now rewrite (dict_get_of_in k m c Hnd Hin).
    + rewrite <- (Hties m). cbn [filter snd]. now rewrite Z.eqb_refl.
Qed.

Lemma top_entry_is_maximum_witness :
  1 <= 1 /\
  0 < ranking_total Posters
        (w_stats (snd (record_all busy_week (run_on new_stats [])))) /\
  exists top rest,
    ranking_query Posters
      (w_stats (snd (record_all busy_week (run_on new_stats [])))) 1
    = top :: rest.
Proof.
  assert (H : 0 < ranking_total Posters
                    (w_stats (snd (record_all busy_week
                                     (run_on new_stats [])))))
    by (vm_compute; reflexivity).
  split; [lia|]. split; [exact H|].
  destruct (top_entry_is_maximum Posters busy_week [] 1 (Z.le_refl 1) H)
    as (top & rest & later & Hq & _).
  exists top, rest. exact Hq.
Defined.

(** ** The window *)

Lemma collect_returns (g : Guild) (start_date end_date : datetime)
    (tr : list Event) :
  (threads_listable g ->
   exists s, fst (collect g start_date end_date tr) = Ok s) /\
  (forall s, fst (collect g start_date end_date tr) = Ok s ->
     days_in_period s = or_one (timedelta_days start_date end_date) /\
     s = w_stats (snd (collect g start_date end_date tr))).
Proof.
  destruct (collect_run g start_date end_date tr)
    as (o & calls & tr' & Hrun & Ho & Hall).
  cbv zeta in Hrun, Ho, Hall. rewrite Hrun. cbn [fst snd run_on w_stats].
  split.
  - intros Hlist. destruct (Hall Hlist) as (-> & _). eauto.
  - intros s Hs.
    destruct Ho as [Ho|[e Ho]]; rewrite Ho in Hs; [|discriminate].
    injection Hs as <-. split; [|reflexivity].
    now rewrite fold_calls_days.
Qed.

Lemma timedelta_days_sign (start_date end_date : datetime) :
  (start_date <= end_date -> 0 <= timedelta_days start_date end_date) /\
  (end_date < start_date -> timedelta_days start_date end_date <= -1).
Proof.
  unfold timedelta_days, microseconds_per_day. split; intros H.
  - apply Z.div_pos; lia.
  - assert ((end_date - start_date) / 86400000000 < 0); [|lia].
    apply Z.div_lt_upper_bound; lia.
Qed.

(** X9. For a window whose end lies before its start, every statistics
    object [collect] returns has a negative [days_in_period] and a daily
    average of 0, whatever was counted; [collect] does return whenever the
    thread lists can be read. *)
Theorem inverted_window_average_is_zero (g : Guild)
    (start_date end_date : datetime) (tr : list Event) :
  end_date < start_date ->
  (threads_listable g ->
   exists s, fst (collect g start_date end_date tr) = Ok s) /\
  (forall s, fst (collect g start_date end_date tr) = Ok s ->
     days_in_period s <= -1 /\ avg_messages_per_day s = 0%Q).
Proof.
  intros Hwin.
  destruct (collect_returns g start_date end_date tr) as [Hex Hdays].
  split; [assumption|]. intros s Hs.
  destruct (Hdays s Hs) as [Hd _].
  destruct (timedelta_days_sign start_date end_date) as [_ Hneg].
  specialize (Hneg Hwin).
  assert (Hle : days_in_period s <= -1).
  { rewrite Hd. unfold or_one.
    destruct (timedelta_days start_date end_date =? 0) eqn:E; [|assumption].
    apply Z.eqb_eq in E. lia. }
  split; [assumption|]. unfold avg_messages_per_day.
  replace (0 <? days_in_period s) with false; [reflexivity|].
  symmetry. apply Z.ltb_ge. lia.
Qed.

Lemma inverted_window_average_is_zero_witness :
  0 < 1 /\
  exists s, fst (collect sample_guild 1 0 []) = Ok s /\
            0 < total_messages s /\ avg_messages_per_day s = 0%Q.
Proof.
  split; [lia|].
  destruct (inverted_window_average_is_zero sample_guild 1 0 [] Z.lt_0_1)
    as [Hex Hall].
  destruct (Hex sample_guild_listable) as [s Hs].
  exists s. split; [exact Hs|]. split.
  - injection Hs as <-. vm_compute. reflexivity.
  - apply (Hall s Hs).
Defined.

(** X10. [StatisticsConfig.time_range_days] is always at least 1. For a
    window with [start <= end] it is the [days_in_period] of every
    statistics object [collect] returns for that window; for an inverted
    window it is 1 while [days_in_period] is negative. *)
Theorem time_range_days_matches_collect (cfg : StatisticsConfig)
    (g : Guild) (tr : list Event) :
  1 <= time_range_days cfg /\
  (forall s,
      fst (collect g (cfg_start_date cfg) (cfg_end_date cfg) tr) = Ok s ->
      (cfg_start_date cfg <= cfg_end_date cfg ->
       days_in_period s = time_range_days cfg) /\
      (cfg_end_date cfg < cfg_start_date cfg ->
       time_range_days cfg = 1 /\ days_in_period s <= -1)).
Proof.
  unfold time_range_days. cbv zeta. split; [lia|].
  intros s Hs.
  destruct (collect_returns g (cfg_start_date cfg) (cfg_end_date cfg) tr)
    as [_ Hdays].
  destruct (Hdays s Hs) as [Hd _].
  destruct (timedelta_days_sign (cfg_start_date cfg) (cfg_end_date cfg))
    as [Hpos Hneg].
  rewrite Hd. unfold or_one.
  destruct (timedelta_days (cfg_start_date cfg) (cfg_end_date cfg) =? 0)
    eqn:E; [apply Z.eqb_eq in E | apply Z.eqb_neq in E];
    split; intros H; try specialize (Hpos H); try specialize (Hneg H); lia.
Qed.

(** ** Errors that end the walk *)

Lemma collect_unfold (g : Guild) (start_date end_date : datetime)
    (tr : list Event) :
  collect g start_date end_date tr
  = match for_each (_get_text_channels g)
            (fun channel => _process_channel_with_threads channel start_date
                               end_date)
            (run_on (set_days_in_period
                       (or_one (timedelta_days start_date end_date))
                       new_stats)
                    ((tr ++ [LogCollecting (guild_name g) (guild_id g)])
                     ++ [LogFoundChannels
                           (Z.of_nat (List.length (_get_text_channels g)))])%list)
    with
    | (Ok _, w1) =>
        (Ok (w_stats w1),
         run_on (w_stats w1)
           (w_trace w1
            ++ [LogComplete (total_messages (w_stats w1))
                  (Z.of_nat (List.length (messages_per_channel (w_stats w1))))])%list)
    | (Raise e, w1) => (Raise e, w1)
    end.
Proof.
  unfold collect. rewrite bind_modify, bind_emit, bind_emit.
  cbn [run_on w_stats w_trace]. unfold bind at 1.
  destruct (for_each _ _ _) as [[[]|e] w1]; reflexivity.
Qed.

Lemma for_each_app {A} (l l' : list A) (body : A -> M unit) (w : World) :
  for_each (l ++ l') body w
  = match for_each l body w with
    | (Ok _, w') => for_each l' body w'
    | (Raise e, w') => (Raise e, w')
    end.
Proof.
  revert w. induction l as [|x l IH]; intros w.
  - reflexivity.
  - rewrite <- app_comm_cons. cbn [for_each]. unfold bind.
    destruct (body x w) as [[[]|e] w']; [apply IH | reflexivity].
Qed.

Lemma process_channel_with_threads_raise (c : TextChannel)
    (start_date end_date : datetime) (w : World) (e : exn) :
  channel_read_message_history c = true ->
  channel_threads c = Raise e ->
  attribute_error_or_forbidden e = false ->
  fst (_process_channel_with_threads c start_date end_date w) = Raise e.
Proof.
  intros Hread Hthreads Hcatch. unfold _process_channel_with_threads.
  rewrite Hread. cbn [negb]. unfold bind at 1. unfold emit at 1.
  unfold bind at 1.
  destruct (process_channel_run (OfChannel c) start_date end_date
              {| w_stats := w_stats w;
                 w_trace := (w_trace w
                             ++ [LogProcessingChannel (channel_name c)])%list |})
    as (tr1 & Hrun & _).
  rewrite Hrun. unfold try_except, bind, lift.
  rewrite Hthreads, Hcatch. reflexivity.
Qed.

(** X11. When reading the thread list of a readable channel raises an
    exception other than [AttributeError] and [Forbidden], and the channels
    before it raise nothing of the kind, [collect] raises that exception:
    no statistics are returned, the channel's own history was requested,
    and no channel after it is requested. *)
Theorem unnamed_thread_error_aborts_collect (g : Guild)
    (start_date end_date : datetime) (tr : list Event)
    (before after : list TextChannel) (c : TextChannel) (e : exn) :
  _get_text_channels g = (before ++ c :: after)%list ->
  Forall threads_ok before ->
  channel_read_message_history c = true ->
  channel_threads c = Raise e ->
  attribute_error_or_forbidden e = false ->
  fst (collect g start_date end_date tr) = Raise e /\
  history_requests (w_trace (snd (collect g start_date end_date tr)))
  = (history_requests tr
     ++ flat_map (channel_requests start_date end_date) before
     ++ [(("#" ++ channel_name c)%string, start_date, end_date)])%list.
Proof.
  intros Hchans Hbefore Hread Hthreads Hcatch.
  rewrite collect_unfold, Hchans.
  set (w0 := run_on _ _).
  rewrite for_each_app.
  destruct (walk_run before start_date end_date w0)
    as (o & calls & tr1 & Hrun & Hall).
  destruct (Hall Hbefore) as (-> & _ & Hreq1).
  rewrite Hrun. cbn [for_each]. unfold bind.
  set (w1 := run_on _ (w_trace w0 ++ tr1)%list).
  pose proof (process_channel_with_threads_raise c start_date end_date w1 e
                Hread Hthreads Hcatch) as Hraise.
  destruct (process_channel_with_threads_run c start_date end_date w1)
    as (o2 & tr2 & Hrun2 & Hreq2 & _).
  rewrite Hrun2 in Hraise |- *. cbn [fst] in Hraise. subst o2.
  cbn [fst snd run_on w_trace]. split; [reflexivity|].
  subst w1 w0. cbn [run_on w_trace].
  rewrite !history_requests_app, Hreq1, Hreq2.
  unfold channel_requests, threads_of. rewrite Hread, Hthreads.
  cbn [flat_map].
  change (history_requests [LogCollecting (guild_name g) (guild_id g)])
    with (@nil (string * datetime * datetime)).
  change (history_requests
            [LogFoundChannels
               (Z.of_nat (List.length (before ++ c :: after)))])
    with (@nil (string * datetime * datetime)).
  now rewrite !app_nil_r, <- !app_assoc.
Qed.

Lemma unnamed_thread_error_aborts_collect_witness :
  _get_text_channels flaky_guild = ([general] ++ flaky :: [legacy])%list /\
  Forall threads_ok [general] /\
  channel_read_message_history flaky = true /\
  channel_threads flaky = Raise HTTPException /\
  attribute_error_or_forbidden HTTPException = false /\
  fst (collect flaky_guild 0 1 []) = Raise HTTPException.
Proof.
  assert (H : Forall threads_ok [general]).
  { repeat constructor. }
  split; [reflexivity|]. split; [exact H|]. split; [reflexivity|].
  split; [reflexivity|]. split; [reflexivity|].
  apply (unnamed_thread_error_aborts_collect flaky_guild 0 1 []
           [general] [legacy] flaky HTTPException
           eq_refl H eq_refl eq_refl eq_refl).
Defined.

(** ** What is requested *)

Lemma walk_requests_prefix (chans : list TextChannel)
    (start_date end_date : datetime) (w : World) :
  exists tr' rest,
    w_trace (snd (for_each chans
                    (fun channel => _process_channel_with_threads channel
                                      start_date end_date) w))
    = (w_trace w ++ tr')%list /\
    flat_map (channel_requests start_date end_date) chans
    = (history_requests tr' ++ rest)%list.
Proof.
  revert w. induction chans as [|c chans IH]; intros w.
  - exists [], []. cbn. now rewrite app_nil_r.
  - destruct (process_channel_with_threads_run c start_date end_date w)
      as (o1 & tr1 & Hrun1 & Hreq1 & _).
    cbn [for_each flat_map]. unfold bind. rewrite Hrun1.
    destruct o1 as [[]|e].
    + destruct (IH (run_on (fold_left (fun s c => apply_call c s)
                              (channel_calls start_date end_date c)
                              (w_stats w))
                           (w_trace w ++ tr1)%list))
        as (tr2 & rest & Htr & Hpre).
      exists (tr1 ++ tr2)%list, rest.
      rewrite Htr. cbn [run_on w_trace].
      rewrite history_requests_app, Hreq1, Hpre, <- !app_assoc.
      split; reflexivity.
    + exists tr1, (flat_map (channel_requests start_date end_date) chans).
      cbn [snd run_on w_trace]. rewrite Hreq1. split; reflexivity.
Qed.

(** X12. Whatever the guild and whatever fails, every history request
    [collect] sends is for a text channel of the guild whose history the
    caller may read, or for a readable thread of such a channel, under the
    name prefixed with "#", and with the window's two dates as bounds. *)
Theorem requests_only_for_readable (g : Guild)
    (start_date end_date : datetime) (tr : list Event)
    (r : string * datetime * datetime) :
  In r (history_requests
          (w_trace (snd (collect g start_date end_date tr)))) ->
  In r (history_requests tr) \/
  exists c,
    In (IsTextChannel c) (guild_channels g) /\
    channel_read_message_history c = true /\
    (r = (("#" ++ channel_name c)%string, start_date, end_date) \/
     exists t ts,
       channel_threads c = Ok ts /\ In t ts /\
       thread_read_message_history t = true /\
       r = (("#" ++ thread_name t)%string, start_date, end_date)).
Proof.
  rewrite collect_unfold.
  set (w0 := run_on _ _).
  destruct (walk_requests_prefix (_get_text_channels g) start_date end_date
              w0) as (tr' & rest & Htr & Hpre).
  intros Hin.
  assert (Hcases : In r (history_requests tr)
                   \/ In r (history_requests tr')).
  { destruct (for_each _ _ w0) as [[[]|e] w1]; cbn [snd run_on w_trace] in *;
      rewrite Htr in Hin; subst w0; cbn [run_on w_trace] in Hin;
      rewrite !history_requests_app in Hin;
      repeat (apply in_app_or in Hin; destruct Hin as [Hin|Hin]);
      auto; cbn in Hin; contradiction. }
  destruct Hcases as [H|H]; [now left|]. right.
  assert (Hg : In r (flat_map (channel_requests start_date end_date)
                       (_get_text_channels g)))
    by (rewrite Hpre; apply in_or_app; now left).
  apply in_flat_map in Hg. destruct Hg as (c & Hc & Hr).
  unfold _get_text_channels in Hc. apply in_flat_map in Hc.
  destruct Hc as ([c'|name] & Hgc & Hc'); [|contradiction].
  destruct Hc' as [->|[]].
  exists c. split; [assumption|].
  unfold channel_requests, threads_of in Hr.
  destruct (channel_read_message_history c); [|contradiction].
  split; [reflexivity|].
  destruct Hr as [<-|Hr]; [now left|]. right.
  destruct (channel_threads c) as [ts|e]; [|contradiction].
  apply in_flat_map in Hr. destruct Hr as (t & Ht & Hr).
  unfold thread_requests in Hr.
  destruct (thread_read_message_history t) eqn:Et; [|contradiction].
  destruct Hr as [<-|[]]. exists t, ts. repeat split; auto.
Qed.

Lemma requests_only_for_readable_witness :
  In ("#t1", 0, 1)
     (history_requests (w_trace (snd (collect sample_guild 0 1 [])))) /\
  (In ("#t1", 0, 1) (history_requests []) \/
   exists c,
     In (IsTextChannel c) (guild_channels sample_guild) /\
     channel_read_message_history c = true /\
     (("#t1", 0, 1) = (("#" ++ channel_name c)%string, 0, 1) \/
      exists t ts,
        channel_threads c = Ok ts /\ In t ts /\
        thread_read_message_history t = true /\
        ("#t1", 0, 1) = (("#" ++ thread_name t)%string, 0, 1))).
Proof.
  assert (H : In ("#t1", 0, 1)
                (history_requests
                   (w_trace (snd (collect sample_guild 0 1 [])))))
    by (right; left; reflexivity).
  split; [exact H|].
  exact (requests_only_for_readable sample_guild 0 1 [] ("#t1", 0, 1) H).
Defined.

(** ** What a collection counts *)

(** X13. In a guild whose thread lists can be read, the statistics
    [collect] returns count exactly the messages of non-bot authors that the
    readable channels and their readable threads yielded, each stream up to
    its error if it has one: in total, per author name, per channel or
    thread name, and the image attachments per author name. *)
Theorem collect_counts_exact (g : Guild) (start_date end_date : datetime)
    (tr : list Event) :
  threads_listable g ->
  let calls := guild_calls g start_date end_date in
  exists s,
    fst (collect g start_date end_date tr) = Ok s /\
    total_messages s = count_where (fun _ => true) calls /\
    (forall a, Counter.get a (messages_per_author s)
               = count_where (fun c => String.eqb (call_author c) a) calls) /\
    (forall k, Counter.get k (messages_per_channel s)
               = count_where (fun c => String.eqb (call_channel_name c) k)
                   calls) /\
    (forall k, Counter.get k (messages_per_thread s)
               = count_where (fun c => call_is_thread c
                                       && String.eqb (call_channel_name c) k)
                   calls) /\
    total_thread_messages s = count_where call_is_thread calls /\
    (forall a, Counter.get a (pictures_per_author s)
               = pictures_where (fun c => String.eqb (call_author c) a)
                   calls) /\
    total_pictures s = pictures_where (fun _ => true) calls.
Proof.
  intros Hlist calls.
  destruct (collect_run g start_date end_date tr)
    as (o & calls' & tr' & Hrun & _ & Hall).
  destruct (Hall Hlist) as (-> & -> & _). cbv zeta in Hrun.
  rewrite Hrun. cbn [fst]. fold calls.
  set (fresh := set_days_in_period
                  (or_one (timedelta_days start_date end_date)) new_stats).
  exists (fold_left (fun s c => apply_call c s) calls fresh).
  destruct (fold_calls_counts calls fresh)
    as (H1 & H2 & H3 & H4 & H5 & H6 & H7).
  cbv zeta in H1, H2, H3, H4, H5, H6, H7.
  split; [reflexivity|].
  repeat split; intros;
    rewrite ?H1, ?H2, ?H3, ?H4, ?H5, ?H6, ?H7; reflexivity.
Qed.

Lemma collect_counts_exact_witness :
  threads_listable sample_guild /\
  exists s, fst (collect sample_guild 0 1 []) = Ok s /\
            total_messages s
            = count_where (fun _ => true) (guild_calls sample_guild 0 1).
Proof.
  split; [exact sample_guild_listable|].
  destruct (collect_counts_exact sample_guild 0 1 [] sample_guild_listable)
    as (s & Hs & Ht & _).
  exists s. split; [exact Hs | exact Ht].
Defined.

(** ** Attachments and author names *)

(** X14. Which attachments count as pictures: when every [content_type]
    can be read, the image attachments of a message are exactly those whose
    content type is a string that starts with "image/" (a missing type and
    any other string do not count, the truthiness test changes nothing for
    strings), so there are at most as many as attachments; when a read
    raises, the first such error is the outcome, whatever comes after. *)
Theorem image_attachments_classified (m : Message) (l : list Attachment) :
  msg_attachments m = Ok l ->
  ((forall a, In a l -> exists ct, content_type a = Ok ct) ->
   image_attachments m
   = Ok (filter (fun a => match content_type a with
                          | Ok (Some ct) => startswith "image/" ct
                          | _ => false
                          end) l) /\
   0 <= pictures_in m <= Z.of_nat (List.length l)) /\
  (forall pre a post e,
      l = (pre ++ a :: post)%list ->
      (forall b, In b pre -> exists ct, content_type b = Ok ct) ->
      content_type a = Raise e ->
      image_attachments m = Raise e /\ pictures_in m = 0).
Proof.
  intros Hm. unfold pictures_in, image_attachments. rewrite Hm. split.
  - intros Hread.
    assert (Hf : filter_images l
                 = Ok (filter (fun a => match content_type a with
                                        | Ok (Some ct) =>
                                            startswith "image/" ct
                                        | _ => false
                                        end) l)).
    { clear Hm. induction l as [|a l IH]; [reflexivity|].
      cbn [filter_images filter]. unfold is_image.
      destruct (Hread a (or_introl eq_refl)) as [ct Hct]. rewrite Hct.
      rewrite IH by (intros b Hb; apply Hread; now right).
      destruct ct as [ct|]; [|reflexivity].
      destruct (String.eqb ct "") eqn:E; [|reflexivity].
      apply String.eqb_eq in E. subst ct. reflexivity. }
    rewrite Hf. split; [reflexivity|]. split; [lia|].
    apply Nat2Z.inj_le, filter_length_le.
  - intros pre a post e -> Hpre Ha.
    assert (Hf : filter_images (pre ++ a :: post) = Raise e).
    { clear Hm. induction pre as [|b pre IH].
      - rewrite app_nil_l. cbn [filter_images]. unfold is_image.
        now rewrite Ha.
      - rewrite <- app_comm_cons. cbn [filter_images]. unfold is_image.
        destruct (Hpre b (or_introl eq_refl)) as [ct Hct]. rewrite Hct.
        rewrite IH by (intros b' Hb'; apply Hpre; now right).
        destruct ct; reflexivity. }
    rewrite Hf. split; reflexivity.
Qed.

Lemma image_attachments_classified_witness :
  msg_attachments (message_from alice (Ok [image_png; text_plain]))
  = Ok [image_png; text_plain] /\
  image_attachments (message_from alice (Ok [image_png; text_plain]))
  = Ok [image_png].
Proof.
  split; [reflexivity|].
  refine (proj1 (proj1 (image_attachments_classified
                          (message_from alice (Ok [image_png; text_plain]))
                          [image_png; text_plain] eq_refl) _)).
  intros a [<-|[<-|[]]]; eexists; reflexivity.
Defined.

Lemma str_of_int_injective (n n' : Z) :
  str_of_int n = str_of_int n' -> n = n'.
Proof.
  unfold str_of_int. intros H.
  assert (Hnorm : forall z, NilZero.int_of_string
                              (NilZero.string_of_int (Z.to_int z))
                            = Some (Z.to_int z)).
  { intros z. apply NilZero.isi.
    - destruct z; cbn; try discriminate.
      intros [= Hp]. now apply DecimalPos.Unsigned.to_uint_nonnil in Hp.
    - destruct z; cbn; try discriminate.
      intros [= Hp]. now apply DecimalPos.Unsigned.to_uint_nonnil in Hp. }
  apply DecimalZ.to_int_inj.
  pose proof (Hnorm n) as Hn. rewrite H, Hnorm in Hn. now injection Hn.
Qed.

Lemma append_injective_right (p s s' : string) :
  (p ++ s)%string = (p ++ s')%string -> s = s'.
Proof.
  induction p as [|a p IH]; cbn [String.append]; [auto|].
  intros [= H]. now apply IH.
Qed.

(** X15. Authors without a display name are told apart by their id: the
    fallback names "User <id>" of two different ids differ, and the id
    string stored beside a name determines the id. *)
Theorem fallback_names_distinct (a b : Author) :
  author_display_name a = None ->
  author_display_name b = None ->
  author_id a <> author_id b ->
  author_name_of a <> author_name_of b /\
  str_of_int (author_id a) <> str_of_int (author_id b).
Proof.
  intros Ha Hb Hne. unfold author_name_of. rewrite Ha, Hb. split.
  - intros H. apply append_injective_right, str_of_int_injective in H.
    contradiction.
  - intros H. apply str_of_int_injective in H. contradiction.
Qed.

Lemma fallback_names_distinct_witness :
  author_name_of {| author_id := 7; author_bot := Some false;
                    author_display_name := None |}
  <> author_name_of {| author_id := 70; author_bot := Some false;
                       author_display_name := None |}.
Proof.
  apply (fallback_names_distinct
           {| author_id := 7; author_bot := Some false;
              author_display_name := None |}
           {| author_id := 70; author_bot := Some false;
              author_display_name := None |} eq_refl eq_refl).
  discriminate.
Defined.

(** * The reports *)

Lemma collect_invariants (g : Guild) (start_date end_date : datetime)
    (tr : list Event) (s : MessageStatisticsData) :
  fst (collect g start_date end_date tr) = Ok s ->
  consistent s /\ counters_ok s /\ side_keys_ok s /\
  days_in_period s = or_one (timedelta_days start_date end_date).
Proof.
  destruct (collect_run g start_date end_date tr)
    as (o & calls & tr' & Hrun & Ho & _).
  cbv zeta in Hrun, Ho. rewrite Hrun. cbn [fst]. intros Hs.
  destruct Ho as [Ho|[e Ho]]; rewrite Ho in Hs; [|discriminate].
  injection Hs as <-.
  set (fresh := set_days_in_period
                  (or_one (timedelta_days start_date end_date)) new_stats).
  assert (Hfresh : consistent fresh /\ counters_ok fresh).
  { split; [repeat split | repeat split; constructor]. }
  destruct (fold_calls_invariant calls fresh Hfresh) as [Hc Ho'].
  repeat split; try apply Hc; try apply Ho'.
  - apply fold_calls_side_keys. repeat split. apply incl_refl.
  - apply fold_calls_side_keys. repeat split. apply incl_refl.
  - apply fold_calls_side_keys. repeat split. apply incl_refl.
  - apply fold_calls_side_keys. repeat split. apply incl_refl.
  - now rewrite fold_calls_days.
Qed.

Lemma enumerate_length {A} (l : list A) :
  List.length (enumerate l) = List.length l.
Proof.
  unfold enumerate. rewrite length_combine, length_seq. apply Nat.min_id.
Qed.

(** The length of a ranking of a well-formed counter. *)
Lemma ranking_length (t n : Z) (c : Counter.t) :
  counter_ok c -> t = Counter.total c ->
  List.length (if t =? 0 then []
               else map (ranked_entry t) (Counter.most_common n c))
  = if t =? 0 then 0%nat else Nat.min (Z.to_nat n) (List.length c).
Proof.
  intros _ _. destruct (t =? 0); [reflexivity|].
  unfold Counter.most_common. rewrite length_map, length_firstn.
  now rewrite (Permutation_length (sorted_desc_perm c)).
Qed.

Lemma ranking_nonempty (t n : Z) (c : Counter.t) :
  counter_ok c -> t = Counter.total c -> 1 <= n -> t <> 0 ->
  map (ranked_entry t) (Counter.most_common n c) <> [].
Proof.
  intros Hok Ht Hn Hne Hnil.
  apply (f_equal (@List.length _)) in Hnil.
  unfold Counter.most_common in Hnil.
  rewrite length_map, length_firstn,
    (Permutation_length (sorted_desc_perm c)) in Hnil.
  cbn [List.length] in Hnil.
  destruct c as [|x c]; [cbn in Ht; lia|].
  cbn [List.length] in Hnil. lia.
Qed.

Lemma add_top_posters_length (F : Formats) (output : list string)
    (s : MessageStatisticsData) :
  consistent s -> counters_ok s ->
  _add_top_posters_section F output s
  = (output ++ _add_top_posters_section F [] s)%list /\
  List.length (_add_top_posters_section F [] s)
  = if total_messages s =? 0 then 0%nat
    else (2 + Nat.min 3 (List.length (messages_per_author s)))%nat.
Proof.
  intros (_ & Hau & _) (Oau & _).
  unfold _add_top_posters_section. cbv zeta.
  pose proof (ranking_length (total_messages s) 3 (messages_per_author s)
                Oau Hau) as Hlen.
  unfold get_top_posters in *.
  destruct (total_messages s =? 0) eqn:Et.
  - split; [now rewrite app_nil_r | reflexivity].
  - apply Z.eqb_neq in Et.
    pose proof (ranking_nonempty (total_messages s) 3 (messages_per_author s)
                  Oau Hau ltac:(lia) Et) as Hne.
    set (top := map (ranked_entry (total_messages s))
                    (Counter.most_common 3 (messages_per_author s))) in *.
    destruct top as [|e l]; [contradiction|].
    split; [reflexivity|].
    rewrite app_nil_l, !length_app, length_map, enumerate_length, Hlen.
    cbn [List.length]. change (Z.to_nat 3) with 3%nat. lia.
Qed.

Lemma add_top_channels_length (F : Formats) (output : list string)
    (s : MessageStatisticsData) :
  consistent s -> counters_ok s ->
  _add_top_channels_section F output s
  = (output ++ _add_top_channels_section F [] s)%list /\
  List.length (_add_top_channels_section F [] s)
  = if total_messages s =? 0 then 0%nat
    else (2 + Nat.min 3 (List.length (messages_per_channel s)))%nat.
Proof.
  intros (Hch & _) (_ & Och & _).
  unfold _add_top_channels_section. cbv zeta.
  pose proof (ranking_length (total_messages s) 3 (messages_per_channel s)
                Och Hch) as Hlen.
  unfold get_top_channels in *.
  destruct (total_messages s =? 0) eqn:Et.
  - split; [now rewrite app_nil_r | reflexivity].
  - apply Z.eqb_neq in Et.
    pose proof (ranking_nonempty (total_messages s) 3 (messages_per_channel s)
                  Och Hch ltac:(lia) Et) as Hne.
    set (top := map (ranked_entry (total_messages s))
                    (Counter.most_common 3 (messages_per_channel s))) in *.
    destruct top as [|e l]; [contradiction|].
    split; [reflexivity|].
    rewrite app_nil_l, !length_app, length_map, enumerate_length, Hlen.
    cbn [List.length]. change (Z.to_nat 3) with 3%nat. lia.
Qed.

Lemma add_top_thread_length (F : Formats) (output : list string)
    (s : MessageStatisticsData) :
  consistent s -> counters_ok s ->
  _add_top_thread_section F output s
  = (output ++ _add_top_thread_section F [] s)%list /\
  List.length (_add_top_thread_section F [] s)
  = if 0 <? total_thread_messages s then 3%nat else 0%nat.
Proof.
  intros (_ & _ & Hth & _) (_ & _ & Oth & _).
  unfold _add_top_thread_section, get_top_threads.
  destruct (0 <? total_thread_messages s) eqn:Et.
  - apply Z.ltb_lt in Et.
    replace (total_thread_messages s =? 0) with false
      by (symmetry; apply Z.eqb_neq; lia).
    pose proof (ranking_nonempty (total_thread_messages s) 1
                  (messages_per_thread s) Oth Hth ltac:(lia) ltac:(lia))
      as Hne.
    destruct (map _ _) as [|[[n c] q] l] eqn:El; [contradiction|].
    split; reflexivity.
  - destruct (if total_thread_messages s =? 0 then [] else _)
      as [|[[n c] q] l]; split; try reflexivity; now rewrite app_nil_r.
Qed.

Lemma add_top_picture_posters_length (F : Formats) (output : list string)
    (s : MessageStatisticsData) :
  consistent s -> counters_ok s ->
  _add_top_picture_posters_section F output s
  = (output ++ _add_top_picture_posters_section F [] s)%list /\
  List.length (_add_top_picture_posters_section F [] s)
  = if 0 <? total_pictures s then 2%nat else 0%nat.
Proof.
  intros (_ & _ & _ & Hpi) (_ & _ & _ & Opi).
  unfold _add_top_picture_posters_section, get_top_picture_posters.
  destruct (0 <? total_pictures s) eqn:Et.
  - apply Z.ltb_lt in Et.
    replace (total_pictures s =? 0) with false
      by (symmetry; apply Z.eqb_neq; lia).
    pose proof (ranking_nonempty (total_pictures s) 1
                  (pictures_per_author s) Opi Hpi ltac:(lia) ltac:(lia))
      as Hne.
    destruct (map _ _) as [|[[n c] q] l] eqn:El; [contradiction|].
    split; reflexivity.
  - split; [now rewrite app_nil_r | reflexivity].
Qed.

Lemma collect_totals (g : Guild) (start_date end_date : datetime)
    (tr : list Event) (s : MessageStatisticsData) :
  fst (collect g start_date end_date tr) = Ok s ->
  0 <= total_thread_messages s <= total_messages s /\
  0 <= total_pictures s /\
  (total_messages s = 0 -> total_pictures s = 0).
Proof.
  destruct (collect_run g start_date end_date tr)
    as (o & calls & tr' & Hrun & Ho & _).
  cbv zeta in Hrun, Ho. rewrite Hrun. cbn [fst]. intros Hs.
  destruct Ho as [Ho|[e Ho]]; rewrite Ho in Hs; [|discriminate].
  injection Hs as <-.
  destruct (fold_calls_counts calls
              (set_days_in_period
                 (or_one (timedelta_days start_date end_date)) new_stats))
    as (H1 & _ & _ & _ & H5 & _ & H7).
  cbv zeta in H1, H5, H7. rewrite H1, H5, H7.
  cbn [set_days_in_period new_stats total_messages total_thread_messages
       total_pictures].
  pose proof (count_where_nonneg call_is_thread calls).
  pose proof (count_where_le call_is_thread (fun _ => true) calls
                (fun _ _ => eq_refl)).
  pose proof (pictures_where_nonneg (fun _ => true) calls).
  repeat split; try lia.
  intros Hz.
  destruct (Z.eq_dec (pictures_where (fun _ => true) calls) 0) as [E|E];
    [lia|].
  assert (Hp : 0 < pictures_where (fun _ => true) calls) by lia.
  apply pictures_where_positive in Hp. lia.
Qed.

(** X16. The plain-text report of statistics that [collect] returned for a
    window: its second line prints the object's [days_in_period]; it has the
    7 opening lines and the closing line, a posters and a channels section
    of two lines plus one per ranked entry (at most 3) exactly when
    [total_messages] is not 0, a thread section of 3 lines exactly when
    [total_thread_messages > 0] and a picture section of 2 lines exactly
    when [total_pictures > 0]; with no message counted it has just the 8
    fixed lines. *)
Theorem report_of_collected_statistics (F : Formats) (g : Guild)
    (start_date end_date : datetime) (tr : list Event)
    (s : MessageStatisticsData) :
  fst (collect g start_date end_date tr) = Ok s ->
  let lines := report_lines F s start_date end_date in
  nth_error lines 1
  = Some ("Period: " ++ ymd F start_date ++ " to " ++ ymd F end_date ++ " ("
          ++ str_of_int (days_in_period s) ++ " days)")%string /\
  List.length lines
  = (8
     + (if (total_messages s =? 0)%Z then 0
        else 2 + Nat.min 3 (List.length (messages_per_author s)))
     + (if (total_messages s =? 0)%Z then 0
        else 2 + Nat.min 3 (List.length (messages_per_channel s)))
     + (if (0 <? total_thread_messages s)%Z then 3 else 0)
     + (if (0 <? total_pictures s)%Z then 2 else 0))%nat /\
  (total_messages s = 0 -> List.length lines = 8%nat).
Proof.
  intros Hs lines.
  destruct (collect_invariants g start_date end_date tr s Hs)
    as (Hc & Ho & _ & Hd).
  destruct (collect_totals g start_date end_date tr s Hs)
    as (Hth & Hpi & Hzero).
  assert (Hlines :
    lines
    = (["**Server Message Statistics**";
        ("Period: " ++ ymd F start_date ++ " to " ++ ymd F end_date ++ " ("
         ++ str_of_int (days_in_period s) ++ " days)")%string;
        "";
        ("**Total Messages:** " ++ thousands F (total_messages s))%string;
        ("**Daily Average:** " ++ one_decimal F (avg_messages_per_day s)
         ++ " messages/day")%string;
        ("**Total Pictures:** " ++ thousands F (total_pictures s))%string;
        ""]
       ++ _add_top_posters_section F [] s
       ++ _add_top_channels_section F [] s
       ++ _add_top_thread_section F [] s
       ++ _add_top_picture_posters_section F [] s
       ++ [(newline ++ newline
            ++ "This report is powered by [discord-stats](https://github.com/martinmeneval/discord-stats)")%string])%list).
  { subst lines. unfold report_lines. cbv zeta. rewrite <- Hd.
    rewrite (proj1 (add_top_picture_posters_length F _ s Hc Ho)).
    rewrite (proj1 (add_top_thread_length F _ s Hc Ho)).
    rewrite (proj1 (add_top_channels_length F _ s Hc Ho)).
    rewrite (proj1 (add_top_posters_length F _ s Hc Ho)).
    now rewrite <- !app_assoc. }
  assert (Hlen :
    List.length lines
    = (8
       + (if (total_messages s =? 0)%Z then 0
          else 2 + Nat.min 3 (List.length (messages_per_author s)))
       + (if (total_messages s =? 0)%Z then 0
          else 2 + Nat.min 3 (List.length (messages_per_channel s)))
       + (if (0 <? total_thread_messages s)%Z then 3 else 0)
       + (if (0 <? total_pictures s)%Z then 2 else 0))%nat).
  { rewrite Hlines, !length_app.
    rewrite (proj2 (add_top_picture_posters_length F [] s Hc Ho)).
    rewrite (proj2 (add_top_thread_length F [] s Hc Ho)).
    rewrite (proj2 (add_top_channels_length F [] s Hc Ho)).
    rewrite (proj2 (add_top_posters_length F [] s Hc Ho)).
    cbn [List.length]. lia. }
  split; [now rewrite Hlines|]. split; [exact Hlen|].
  intros Hz. rewrite Hlen, Hz. cbn [Z.eqb].
  replace (0 <? total_thread_messages s) with false
    by (symmetry; apply Z.ltb_ge; lia).
  replace (0 <? total_pictures s) with false
    by (symmetry; apply Z.ltb_ge; specialize (Hzero Hz); lia).
  reflexivity.
Qed.

Lemma report_of_collected_statistics_witness :
  fst (collect sample_guild 0 1 [])
  = Ok (w_stats (snd (collect sample_guild 0 1 []))) /\
  List.length
    (report_lines plain_formats (w_stats (snd (collect sample_guild 0 1 [])))
       0 1)
  = 22%nat.
Proof.
  assert (H : fst (collect sample_guild 0 1 [])
              = Ok (w_stats (snd (collect sample_guild 0 1 []))))
    by (vm_compute; reflexivity).
  split; [exact H|].
  rewrite (proj1 (proj2 (report_of_collected_statistics plain_formats
                           sample_guild 0 1 []
                           (w_stats (snd (collect sample_guild 0 1 []))) H))).
  vm_compute. reflexivity.
Defined.

(** X17. In a report of statistics that [collect] returned, the name
    look-ups never fall back: every ranked poster or picture poster is
    shown as a mention of its stored id (as the bare name only when that id
    string equals the name), every ranked channel as a link to its stored
    id, and the top thread as a link to its stored id unless that id is
    0. *)
Theorem report_mentions_use_stored_ids (g : Guild)
    (start_date end_date : datetime) (tr : list Event)
    (s : MessageStatisticsData) :
  fst (collect g start_date end_date tr) = Ok s ->
  (forall n e, In e (get_top_posters s n) \/ In e (get_top_picture_posters s n) ->
     exists id,
       Dict.get (fst (fst e)) (messages_per_author_id s) = Some id /\
       user_mention s (fst (fst e))
       = if String.eqb id (fst (fst e)) then fst (fst e)
         else ("<@" ++ id ++ ">")%string) /\
  (forall n e, In e (get_top_channels s n) ->
     exists id,
       Dict.get (fst (fst e)) (messages_per_channel_id s) = Some id /\
       channel_mention s (fst (fst e))
       = ("<#" ++ str_of_int id ++ ">")%string) /\
  (forall n e, In e (get_top_threads s n) ->
     exists id,
       Dict.get (fst (fst e)) (messages_per_thread_id s) = Some id /\
       thread_mention s (fst (fst e))
       = if id =? 0 then fst (fst e)
         else ("<#" ++ str_of_int id ++ ">")%string).
Proof.
  intros Hs.
  destruct (collect_invariants g start_date end_date tr s Hs)
    as (_ & _ & (K1 & K2 & K3 & K4) & _).
  assert (Hin : forall t n (c : Counter.t) e,
             In e (if t =? 0 then []
                   else map (ranked_entry t) (Counter.most_common n c)) ->
             In (fst (fst e)) (Dict.keys c)).
  { intros t n c e He. destruct (t =? 0); [contradiction|].
    apply in_map_iff in He. destruct He as (item & <- & Hitem).
    apply in_most_common in Hitem. cbn [ranked_entry fst].
    unfold Dict.keys. now apply in_map. }
  repeat split.
  - intros n e He.
    assert (Hk : In (fst (fst e)) (Dict.keys (messages_per_author_id s))).
    { rewrite K1. destruct He as [He|He];
        [exact (Hin _ _ _ _ He) | apply K4; exact (Hin _ _ _ _ He)]. }
    apply dict_get_in_keys in Hk. destruct Hk as [id Hid].
    exists id. split; [assumption|]. unfold user_mention. now rewrite Hid.
  - intros n e He.
    assert (Hk : In (fst (fst e)) (Dict.keys (messages_per_channel_id s)))
      by (rewrite K2; exact (Hin _ _ _ _ He)).
    apply dict_get_in_keys in Hk. destruct Hk as [id Hid].
    exists id. split; [assumption|]. unfold channel_mention. now rewrite Hid.
  - intros n e He.
    assert (Hk : In (fst (fst e)) (Dict.keys (messages_per_thread_id s)))
      by (rewrite K3; exact (Hin _ _ _ _ He)).
    apply dict_get_in_keys in Hk. destruct Hk as [id Hid].
    exists id. split; [assumption|]. unfold thread_mention. now rewrite Hid.
Qed.

Lemma report_mentions_use_stored_ids_witness :
  fst (collect sample_guild 0 1 [])
  = Ok (w_stats (snd (collect sample_guild 0 1 []))) /\
  forall n e,
    In e (get_top_channels (w_stats (snd (collect sample_guild 0 1 []))) n) ->
    exists id,
      Dict.get (fst (fst e))
        (messages_per_channel_id (w_stats (snd (collect sample_guild 0 1 []))))
      = Some id /\
      channel_mention (w_stats (snd (collect sample_guild 0 1 [])))
        (fst (fst e))
      = ("<#" ++ str_of_int id ++ ">")%string.
Proof.
  assert (H : fst (collect sample_guild 0 1 [])
              = Ok (w_stats (snd (collect sample_guild 0 1 []))))
    by (vm_compute; reflexivity).
  split; [exact H|].
  exact (proj1 (proj2 (report_mentions_use_stored_ids sample_guild 0 1 []
                         (w_stats (snd (collect sample_guild 0 1 []))) H))).
Defined.

Lemma concat_head (sep : string) (a : ascii) (x : string)
    (rest : list string) :
  exists tail, String.concat sep (String a x :: rest) = String a tail.
Proof.
  destruct rest as [|y rest]; cbn [String.concat String.append]; eauto.
Qed.

Lemma embed_poster_lines_head (F : Formats) (s : MessageStatisticsData)
    (e : string * Z * Q) (l : list (string * Z * Q)) :
  exists tail,
    String.concat newline (map (embed_poster_line F s) (enumerate (e :: l)))
    = String "*" tail.
Proof.
  destruct e as [[n c] p]. unfold enumerate.
  cbn [List.length seq combine map].
  unfold embed_poster_line at 1. cbn [String.append].
  apply concat_head.
Qed.

Lemma embed_channel_lines_head (F : Formats) (s : MessageStatisticsData)
    (e : string * Z * Q) (l : list (string * Z * Q)) :
  exists tail,
    String.concat newline (map (embed_channel_line F s) (enumerate (e :: l)))
    = String "*" tail.
Proof.
  destruct e as [[n c] p]. unfold enumerate.
  cbn [List.length seq combine map].
  unfold embed_channel_line at 1. cbn [String.append].
  apply concat_head.
Qed.

(** Which rankings of collected statistics are empty. *)
Lemma collected_rankings_nonempty (g : Guild)
    (start_date end_date : datetime) (tr : list Event)
    (s : MessageStatisticsData) :
  fst (collect g start_date end_date tr) = Ok s ->
  (if total_messages s =? 0
   then get_top_posters s 3 = [] /\ get_top_channels s 3 = []
   else get_top_posters s 3 <> [] /\ get_top_channels s 3 <> []) /\
  ((0 <? total_thread_messages s) = true -> get_top_threads s 1 <> []) /\
  ((0 <? total_pictures s) = true -> get_top_picture_posters s 1 <> []).
Proof.
  intros Hs.
  destruct (collect_invariants g start_date end_date tr s Hs)
    as ((Hch & Hau & Hth & Hpi) & (Oau & Och & Oth & Opi) & _ & _).
  unfold get_top_posters, get_top_channels, get_top_threads,
    get_top_picture_posters.
  repeat split.
  - destruct (total_messages s =? 0) eqn:Et; [now split|].
    apply Z.eqb_neq in Et. split; apply ranking_nonempty; auto; lia.
  - intros Ht. apply Z.ltb_lt in Ht.
    replace (total_thread_messages s =? 0) with false
      by (symmetry; apply Z.eqb_neq; lia).
    apply ranking_nonempty; auto; lia.
  - intros Ht. apply Z.ltb_lt in Ht.
    replace (total_pictures s =? 0) with false
      by (symmetry; apply Z.eqb_neq; lia).
    apply ranking_nonempty; auto; lia.
Qed.

(** X18. The embed built from statistics that [collect] returned: its
    fields are "Total Messages" and "Daily Average", then "Top Posters" and
    "Most Active Channels" exactly when [total_messages] is not 0, "Top
    Thread" exactly when [total_thread_messages > 0] and "Top Picture
    Poster" exactly when [total_pictures > 0], in this order; the value of
    the posters and the channels field is always the joined ranking lines,
    never the "No messages found" fallback. *)
Theorem embed_of_collected_statistics (F : Formats) (now : datetime)
    (g : Guild) (start_date end_date : datetime) (tr : list Event)
    (s : MessageStatisticsData) :
  fst (collect g start_date end_date tr) = Ok s ->
  let embed := MessageStatisticsFormatter.format F now s in
  map field_name (embed_fields embed)
  = (["Total Messages"; "Daily Average"]
     ++ (if total_messages s =? 0 then []
         else ["Top Posters"; "Most Active Channels"])
     ++ (if 0 <? total_thread_messages s then ["Top Thread"] else [])
     ++ (if 0 <? total_pictures s then ["Top Picture Poster"] else []))%list /\
  (forall f, In f (embed_fields embed) ->
     (field_name f = "Top Posters" ->
      field_value f
      = String.concat newline
          (map (embed_poster_line F s) (enumerate (get_top_posters s 3))) /\
      field_value f <> "No messages found") /\
     (field_name f = "Most Active Channels" ->
      field_value f
      = String.concat newline
          (map (embed_channel_line F s) (enumerate (get_top_channels s 3))) /\
      field_value f <> "No messages found")).
Proof.
  intros Hs embed. subst embed.
  destruct (collected_rankings_nonempty g start_date end_date tr s Hs)
    as (Hmsg & Hthr & Hpic).
  unfold MessageStatisticsFormatter.format. cbv zeta.
  destruct (total_messages s =? 0) eqn:Et.
  - destruct Hmsg as [-> ->].
    destruct (0 <? total_thread_messages s) eqn:Eth;
      [specialize (Hthr eq_refl);
       destruct (get_top_threads s 1) as [|[[tn tc] tp] tl];
       [contradiction|]
      | destruct (get_top_threads s 1) as [|[[tn tc] tp] tl]];
      (destruct (0 <? total_pictures s) eqn:Epi;
       [specialize (Hpic eq_refl);
        destruct (get_top_picture_posters s 1) as [|[[pn pc] pp] pl];
        [contradiction|]
       |]);
      (split; [reflexivity|]);
      intros f Hf; cbn in Hf;
      repeat (destruct Hf as [<-|Hf]; [split; intros Hn; discriminate Hn|]);
      contradiction.
  - destruct Hmsg as [Hp Hc].
    destruct (get_top_posters s 3) as [|pe pl] eqn:Ep; [contradiction|].
    destruct (get_top_channels s 3) as [|ce cl] eqn:Ec; [contradiction|].
    destruct (embed_poster_lines_head F s pe pl) as [t1 Ht1].
    destruct (embed_channel_lines_head F s ce cl) as [t2 Ht2].
    rewrite Ht1, Ht2.
    change (or_text (String "*" t1) "No messages found")
      with (String "*" t1).
    change (or_text (String "*" t2) "No messages found")
      with (String "*" t2).
    destruct (0 <? total_thread_messages s) eqn:Eth;
      [specialize (Hthr eq_refl);
       destruct (get_top_threads s 1) as [|[[tn tc] tp] tl];
       [contradiction|]
      | destruct (get_top_threads s 1) as [|[[tn tc] tp] tl]];
      (destruct (0 <? total_pictures s) eqn:Epi;
       [specialize (Hpic eq_refl);
        destruct (get_top_picture_posters s 1) as [|[[pn pc] pp] pl'];
        [contradiction|]
       |]);
      (split; [reflexivity|]);
      intros f Hf; cbn [add_field set_footer embed_fields app In] in Hf;
      repeat (destruct Hf as [<-|Hf];
              [cbn [field_name field_value];
               split; intros Hn; try discriminate Hn;
               (split; [reflexivity|discriminate])|]);
      contradiction.
Qed.

Lemma embed_of_collected_statistics_witness :
  fst (collect sample_guild 0 1 [])
  = Ok (w_stats (snd (collect sample_guild 0 1 []))) /\
  map field_name
    (embed_fields
       (MessageStatisticsFormatter.format plain_formats 0
          (w_stats (snd (collect sample_guild 0 1 [])))))
  = ["Total Messages"; "Daily Average"; "Top Posters";
     "Most Active Channels"; "Top Thread"; "Top Picture Poster"].
Proof.
  assert (H : fst (collect sample_guild 0 1 [])
              = Ok (w_stats (snd (collect sample_guild 0 1 []))))
    by (vm_compute; reflexivity).
  split; [exact H|].
  rewrite (proj1 (embed_of_collected_statistics plain_formats 0 sample_guild
                    0 1 [] (w_stats (snd (collect sample_guild 0 1 []))) H)).
  vm_compute. reflexivity.
Defined.

(** ** The statistics client *)

Lemma client_requests_of_collector (tr : list Event) :
  client_requests (map FromCollector tr) = history_requests tr.
Proof.
  induction tr as [|ev tr IH]; [reflexivity|].
  change (client_requests (map FromCollector (ev :: tr)))
    with (history_requests [ev] ++ client_requests (map FromCollector tr))%list.
  rewrite IH, <- history_requests_app. reflexivity.
Qed.

Lemma get_guild_some (guilds : list Guild) (id : Z) (g : Guild) :
  get_guild guilds id = Some g -> In g guilds /\ guild_id g = id.
Proof.
  unfold get_guild. intros H. apply find_some in H.
  destruct H as [Hin Hid]. apply Z.eqb_eq in Hid. now split.
Qed.

Lemma get_guild_none (guilds : list Guild) (id : Z) :
  (forall g, In g guilds -> guild_id g <> id) -> get_guild guilds id = None.
Proof.
  intros Hno. destruct (get_guild guilds id) as [g|] eqn:E; [|reflexivity].
  apply get_guild_some in E. destruct E as [Hin Hid].
  now destruct (Hno g Hin).
Qed.

(** X19. [on_ready] of a new client always sets [ready]. It stores data
    only from [collect] on a connected guild with the target id, for the
    client's window; when no connected guild has the id it stores nothing,
    logs that the guild was not found and sends no request; when the guild
    is found and its thread lists can be read it stores the statistics and
    has sent exactly the guild's history requests. *)
Theorem on_ready_signals_and_stores (guilds : list Guild) (id : Z)
    (start_date end_date : datetime) :
  let c := on_ready (new_client guilds id start_date end_date) in
  client_ready c = true /\
  (forall data, client_data c = Some data ->
     exists g, In g guilds /\ guild_id g = id /\ client_guild c = Some g /\
               fst (collect g start_date end_date []) = Ok data) /\
  ((forall g, In g guilds -> guild_id g <> id) ->
   client_data c = None /\ client_log c = [LogGuildNotFound id]) /\
  (forall g, get_guild guilds id = Some g -> threads_listable g ->
     (exists data, client_data c = Some data) /\
     client_requests (client_log c) = guild_requests g start_date end_date).
Proof.
  cbv zeta. unfold on_ready, new_client.
  cbn [client_guilds target_guild_id client_start_date client_end_date
       client_data client_log].
  split; [|split; [|split]].
  - destruct (get_guild guilds id) as [g|]; [|reflexivity].
    destruct (collect g start_date end_date []) as [[s|e] w]; reflexivity.
  - intros data. destruct (get_guild guilds id) as [g|] eqn:Eg.
    + apply get_guild_some in Eg. destruct Eg as [Hin Hid].
      destruct (collect g start_date end_date []) as [[s|e] w] eqn:Ec;
        cbn [client_data client_guild]; intros H; [|discriminate].
      injection H as <-. exists g. rewrite Ec. repeat split; assumption.
    + cbn [client_data]. discriminate.
  - intros Hno. rewrite (get_guild_none guilds id Hno).
    cbn [client_data client_log app]. now split.
  - intros g Eg Hlist. rewrite Eg.
    destruct (collect_run g start_date end_date [])
      as (o & calls & tr' & Hrun & _ & Hall).
    cbv zeta in Hrun, Hall. destruct (Hall Hlist) as (-> & _ & Hreq).
    rewrite Hrun. cbn [client_data client_log app run_on w_trace].
    rewrite !app_nil_l. split; [eauto|].
    rewrite client_requests_of_collector. exact Hreq.
Qed.

(** ** The bot's [stats] command *)

Lemma send_cases (ctx : Context) (reply : Reply) (b : Bot) :
  (ctx_send ctx reply = Ok tt /\
   send ctx reply b
   = (Ok tt,
      {| bot_stats_config := bot_stats_config b;
         bot_sent := (bot_sent b ++ [reply])%list;
         bot_exceptions := bot_exceptions b;
         bot_trace := bot_trace b |})) \/
  (exists e, ctx_send ctx reply = Raise e /\ send ctx reply b = (Raise e, b)).
Proof.
  unfold send. destruct (ctx_send ctx reply) as [[]|e]; [left|right]; eauto.
Qed.

Lemma send_delivers (ctx : Context) (reply : Reply) (b : Bot) :
  delivers ctx ->
  send ctx reply b
  = (Ok tt,
     {| bot_stats_config := bot_stats_config b;
        bot_sent := (bot_sent b ++ [reply])%list;
        bot_exceptions := bot_exceptions b;
        bot_trace := bot_trace b |}).
Proof.
  intros [_ Hsend]. unfold send. now rewrite Hsend.
Qed.

(** What a block that reads one date argument leaves behind. *)
Lemma read_date_cases (parse : string -> Parse) (ctx : Context)
    (text : option string) (store : datetime -> Bot -> Bot)
    (message : string) (b : Bot) :
  (forall d b, bot_sent (store d b) = bot_sent b /\
               bot_exceptions (store d b) = bot_exceptions b /\
               bot_trace (store d b) = bot_trace b) ->
  let r := read_date parse ctx text store message b in
  bot_exceptions (snd r) = bot_exceptions b /\
  bot_trace (snd r) = bot_trace b /\
  match fst r with
  | Next => bot_sent (snd r) = bot_sent b
  | Return => bot_sent (snd r) = (bot_sent b ++ [Text message])%list
  | Throw _ => bot_sent (snd r) = bot_sent b
  end.
Proof.
  intros Hstore. cbv zeta. unfold read_date.
  destruct text as [text|]; [|now repeat split].
  destruct (parse text) as [d| |e]; cbn [fst snd].
  - destruct (Hstore d b) as (-> & -> & ->). now repeat split.
  - destruct (send_cases ctx (Text message) b) as [[_ ->]|(e & _ & ->)];
      now repeat split.
  - now repeat split.
Qed.

Lemma set_start_date_keeps (d : datetime) (b : Bot) :
  bot_sent (set_start_date d b) = bot_sent b /\
  bot_exceptions (set_start_date d b) = bot_exceptions b /\
  bot_trace (set_start_date d b) = bot_trace b.
Proof. now repeat split. Qed.

Lemma set_end_date_keeps (d : datetime) (b : Bot) :
  bot_sent (set_end_date d b) = bot_sent b /\
  bot_exceptions (set_end_date d b) = bot_exceptions b /\
  bot_trace (set_end_date d b) = bot_trace b.
Proof. now repeat split. Qed.

(** How the [try] body of the command ends, and what it has sent. *)
Lemma stats_command_body_cases (parse : string -> Parse) (F : Formats)
    (now : datetime) (ctx : Context) (start_date end_date : option string)
    (b : Bot) :
  let r := stats_command_body parse F now ctx start_date end_date b in
  bot_exceptions (snd r) = bot_exceptions b /\
  match fst r with
  | Throw _ => bot_sent (snd r) = bot_sent b
  | Return =>
      bot_trace (snd r) = bot_trace b /\
      exists message,
        bot_sent (snd r) = (bot_sent b ++ [Text message])%list
  | Next =>
      let cfg := bot_stats_config (snd r) in
      cfg_start_date cfg <= cfg_end_date cfg /\
      exists g data,
        ctx_guild ctx = Some g /\
        collect g (cfg_start_date cfg) (cfg_end_date cfg) (bot_trace b)
        = (Ok data, run_on data (bot_trace (snd r))) /\
        bot_sent (snd r)
        = (bot_sent b
           ++ [WithEmbed (MessageStatisticsFormatter.format F now data)])%list
  end.
Proof.
  cbv zeta. unfold stats_command_body.
  pose proof (read_date_cases parse ctx start_date set_start_date
                "Invalid start date format. Please use YYYY-MM-DD." b
                set_start_date_keeps) as H1.
  cbv zeta in H1.
  destruct (read_date parse ctx start_date set_start_date _ b) as [f1 b1].
  cbn [fst snd] in H1. destruct H1 as (E1 & T1 & S1).
  destruct f1; cbn [fst snd];
    [|split; [assumption|split; [assumption|eauto]]
     |split; assumption].
  pose proof (read_date_cases parse ctx end_date set_end_date
                "Invalid end date format. Please use YYYY-MM-DD." b1
                set_end_date_keeps) as H2.
  cbv zeta in H2.
  destruct (read_date parse ctx end_date set_end_date _ b1) as [f2 b2].
  cbn [fst snd] in H2. destruct H2 as (E2 & T2 & S2).
  destruct f2; cbn [fst snd];
    [|split; [congruence|split; [congruence|rewrite S2, S1; eauto]]
     |split; congruence].
  destruct (cfg_end_date (bot_stats_config b2)
            <? cfg_start_date (bot_stats_config b2)) eqn:Ew.
  - destruct (send_cases ctx (Text "End date must be after start date.") b2)
      as [[_ ->]|(e & _ & ->)]; cbn [fst snd bot_exceptions bot_trace bot_sent].
    + split; [congruence|]. split; [congruence|].
      rewrite S2, S1. eauto.
    + split; congruence.
  - apply Z.ltb_ge in Ew. unfold collect_for.
    destruct (ctx_guild ctx) as [g|] eqn:Eg.
    + destruct (collect_returns g (cfg_start_date (bot_stats_config b2))
                  (cfg_end_date (bot_stats_config b2)) (bot_trace b2))
        as [_ Hret].
      destruct (collect g (cfg_start_date (bot_stats_config b2))
                  (cfg_end_date (bot_stats_config b2)) (bot_trace b2))
        as [[data|e] w] eqn:Ec; cbn [fst snd] in Hret.
      * destruct (Hret data eq_refl) as [_ Hw].
        destruct (send_cases ctx
                    (WithEmbed (MessageStatisticsFormatter.format F now data))
                    (with_trace (w_trace w) b2))
          as [[_ ->]|(e & _ & ->)];
          cbn [fst snd with_trace bot_exceptions bot_trace bot_sent
               bot_stats_config].
        -- split; [congruence|]. split; [assumption|].
           exists g, data. split; [reflexivity|]. split.
           ++ rewrite <- T1, <- T2, Ec. f_equal.
              destruct w as [ws wt]. cbn [w_stats w_trace] in *.
              unfold run_on. now rewrite Hw.
           ++ now rewrite S2, S1.
        -- split; congruence.
      * cbn [fst snd with_trace bot_exceptions bot_trace bot_sent].
        split; congruence.
    + cbn [fst snd with_trace bot_exceptions bot_trace bot_sent].
      split; congruence.
Qed.

(** X20. For dates of one time line, which compare without raising: one
    invocation of the [stats] command delivers at most one reply, whatever
    the arguments, the dates or failures the parser gives, the guild, and
    the failures of the typing indicator, of sending and of the
    collection; when the typing indicator and the replies go through, it
    returns normally and delivers exactly one reply. *)
Theorem stats_command_replies_once (parse : string -> Parse)
    (str_exn : exn -> string) (F : Formats) (now : datetime) (ctx : Context)
    (start_date end_date : option string) (b : Bot) :
  let r := stats_command parse str_exn F now ctx start_date end_date b in
  (exists replies,
     bot_sent (snd r) = (bot_sent b ++ replies)%list /\
     (List.length replies <= 1)%nat) /\
  (delivers ctx ->
   fst r = Ok tt /\
   exists reply, bot_sent (snd r) = (bot_sent b ++ [reply])%list).
Proof.
  cbv zeta. unfold stats_command.
  pose proof (stats_command_body_cases parse F now ctx start_date end_date b)
    as Hbody.
  cbv zeta in Hbody.
  destruct (stats_command_body parse F now ctx start_date end_date b)
    as [fl b'].
  cbn [fst snd] in Hbody. destruct Hbody as [_ Hbody].
  split.
  - destruct (ctx_typing ctx) as [[]|e]; cbn [fst snd].
    + destruct fl as [| |e]; cbn [fst snd].
      * destruct Hbody as (_ & g & data & _ & _ & ->).
        eexists. split; [reflexivity|]. cbn. lia.
      * destruct Hbody as (_ & message & ->).
        eexists. split; [reflexivity|]. cbn. lia.
      * destruct (send_cases ctx
                    (Text ("An error occurred while fetching statistics: "
                           ++ str_exn e)%string) (log_exception e b'))
          as [[_ ->]|(e' & _ & ->)];
          cbn [fst snd log_exception bot_sent]; rewrite Hbody.
        -- eexists. split; [reflexivity|]. cbn. lia.
        -- exists []. rewrite app_nil_r. split; [reflexivity|]. cbn. lia.
    + exists []. rewrite app_nil_r. split; [reflexivity|]. cbn. lia.
  - intros [Htyping Hsend]. rewrite Htyping.
    destruct fl as [| |e]; cbn [fst snd].
    + destruct Hbody as (_ & g & data & _ & _ & ->). eauto.
    + destruct Hbody as (_ & message & ->). eauto.
    + rewrite (send_delivers ctx _ _ (conj Htyping Hsend)).
      cbn [fst snd log_exception bot_sent]. rewrite Hbody. eauto.
Qed.

Lemma app_one_not_self {A} (l : list A) (x : A) : l <> (l ++ [x])%list.
Proof.
  intros H. apply (f_equal (@List.length A)) in H.
  rewrite length_app in H. cbn in H. lia.
Qed.

Lemma days_of_valid_window (cfg : StatisticsConfig) :
  cfg_start_date cfg <= cfg_end_date cfg ->
  or_one (timedelta_days (cfg_start_date cfg) (cfg_end_date cfg))
  = time_range_days cfg /\
  1 <= time_range_days cfg.
Proof.
  intros Hwin. unfold time_range_days, or_one. cbv zeta.
  destruct (timedelta_days_sign (cfg_start_date cfg) (cfg_end_date cfg))
    as [Hpos _].
  specialize (Hpos Hwin).
  destruct (timedelta_days (cfg_start_date cfg) (cfg_end_date cfg) =? 0)
    eqn:E; [apply Z.eqb_eq in E | apply Z.eqb_neq in E]; lia.
Qed.

(** X21. When the command delivers an embed, the window stored in the
    bot's configuration after the command has [start <= end], the embed is
    the formatted result of [collect] on the context's guild for that
    window, and the number of days in its description is
    [time_range_days] of the stored window, at least 1. *)
Theorem embed_reply_covers_valid_window (parse : string -> Parse)
    (str_exn : exn -> string) (F : Formats) (now : datetime) (ctx : Context)
    (start_date end_date : option string) (b : Bot) (embed : Embed) :
  let b' :=
    snd (stats_command parse str_exn F now ctx start_date end_date b) in
  bot_sent b' = (bot_sent b ++ [WithEmbed embed])%list ->
  let cfg := bot_stats_config b' in
  cfg_start_date cfg <= cfg_end_date cfg /\
  exists g data,
    ctx_guild ctx = Some g /\
    fst (collect g (cfg_start_date cfg) (cfg_end_date cfg) (bot_trace b))
    = Ok data /\
    embed = MessageStatisticsFormatter.format F now data /\
    days_in_period data = time_range_days cfg /\
    1 <= days_in_period data /\
    embed_description embed
    = ("Statistics from the past " ++ str_of_int (time_range_days cfg)
       ++ " days")%string.
Proof.
  cbv zeta. unfold stats_command.
  pose proof (stats_command_body_cases parse F now ctx start_date end_date b)
    as Hbody.
  cbv zeta in Hbody.
  destruct (stats_command_body parse F now ctx start_date end_date b)
    as [fl b'].
  cbn [fst snd] in Hbody. destruct Hbody as [_ Hbody].
  destruct (ctx_typing ctx) as [[]|e]; cbn [fst snd];
    [|intros H; now destruct (app_one_not_self _ _ H)].
  destruct fl as [| |e]; cbn [fst snd].
  - destruct Hbody as (Hwin & g & data & Hg & Hc & Hs). rewrite Hs.
    intros H. apply app_inv_head in H. injection H as <-.
    split; [assumption|]. exists g, data.
    destruct (collect_returns g (cfg_start_date (bot_stats_config b'))
                (cfg_end_date (bot_stats_config b')) (bot_trace b))
      as [_ Hret].
    rewrite Hc in Hret |- *. cbn [fst] in Hret |- *.
    destruct (Hret data eq_refl) as [Hd _].
    destruct (days_of_valid_window (bot_stats_config b') Hwin) as [Hdays H1].
    rewrite Hdays in Hd.
    split; [assumption|]. split; [reflexivity|]. split; [reflexivity|].
    split; [assumption|]. split; [lia|].
    unfold MessageStatisticsFormatter.format. cbv zeta.
    rewrite <- Hd.
    destruct (get_top_posters data 3), (get_top_channels data 3),
      (get_top_threads data 1) as [|[[tn tc] tp] tl],
      (0 <? total_thread_messages data), (0 <? total_pictures data),
      (get_top_picture_posters data 1) as [|[[pn pc] pp] pl];
      reflexivity.
  - destruct Hbody as (_ & message & ->).
    intros H. apply app_inv_head in H. discriminate.
  - destruct (send_cases ctx
                (Text ("An error occurred while fetching statistics: "
                       ++ str_exn e)%string) (log_exception e b'))
      as [[_ ->]|(e' & _ & ->)];
      cbn [fst snd log_exception bot_sent]; rewrite Hbody; intros H.
    + apply app_inv_head in H. discriminate.
    + now destruct (app_one_not_self _ _ H).
Qed.

Lemma embed_reply_covers_valid_window_witness :
  exists embed,
    bot_sent (snd (stats_command sample_parse sample_str_exn plain_formats 0
                     sample_ctx (Some "2024-01-01") (Some "2024-01-02")
                     sample_bot))
    = [WithEmbed embed] /\
    embed_description embed = "Statistics from the past 1 days".
Proof.
  eexists. split; [vm_compute; reflexivity|].
  match goal with
  | |- embed_description ?e = _ =>
      destruct (embed_reply_covers_valid_window sample_parse sample_str_exn
                  plain_formats 0 sample_ctx (Some "2024-01-01")
                  (Some "2024-01-02") sample_bot e)
        as (_ & g & data & _ & _ & _ & _ & _ & ->)
  end.
  - vm_compute. reflexivity.
  - vm_compute. reflexivity.
Defined.

(** X22. A date argument that the parser rejects with [ValueError] ends
    the command with the matching message and without collecting. A
    rejected start date leaves the stored window as it was, whatever the
    end argument is; a rejected end date after a start date that parsed
    leaves the new start date stored with the old end date. *)
Theorem unparsable_date_stops_command (parse : string -> Parse)
    (str_exn : exn -> string) (F : Formats) (now : datetime) (ctx : Context)
    (b : Bot) :
  delivers ctx ->
  (forall text end_date,
     parse text = ValueError ->
     stats_command parse str_exn F now ctx (Some text) end_date b
     = (Ok tt,
        {| bot_stats_config := bot_stats_config b;
           bot_sent :=
             (bot_sent b
              ++ [Text "Invalid start date format. Please use YYYY-MM-DD."])%list;
           bot_exceptions := bot_exceptions b;
           bot_trace := bot_trace b |})) /\
  (forall first d text,
     parse first = Parsed d ->
     parse text = ValueError ->
     stats_command parse str_exn F now ctx (Some first) (Some text) b
     = (Ok tt,
        {| bot_stats_config :=
             {| cfg_start_date := d;
                cfg_end_date := cfg_end_date (bot_stats_config b) |};
           bot_sent :=
             (bot_sent b
              ++ [Text "Invalid end date format. Please use YYYY-MM-DD."])%list;
           bot_exceptions := bot_exceptions b;
           bot_trace := bot_trace b |})).
Proof.
  intros Hd. pose proof Hd as [Htyping _].
  split.
  - intros text end_date Hp.
    unfold stats_command, stats_command_body, read_date at 1.
    rewrite Htyping, Hp, (send_delivers ctx _ _ Hd). reflexivity.
  - intros first d text Hf Hp.
    unfold stats_command, stats_command_body, read_date.
    rewrite Htyping, Hf, Hp, (send_delivers ctx _ _ Hd). reflexivity.
Qed.

Lemma unparsable_date_stops_command_witness :
  delivers sample_ctx /\
  stats_command sample_parse sample_str_exn plain_formats 0 sample_ctx
    (Some "2024-01-02") (Some "tomorrow") sample_bot
  = (Ok tt,
     {| bot_stats_config :=
          {| cfg_start_date := microseconds_per_day; cfg_end_date := 1 |};
        bot_sent := [Text "Invalid end date format. Please use YYYY-MM-DD."];
        bot_exceptions := [];
        bot_trace := [] |}).
Proof.
  assert (Hd : delivers sample_ctx) by (split; reflexivity).
  split; [exact Hd|].
  exact (proj2 (unparsable_date_stops_command sample_parse sample_str_exn
                  plain_formats 0 sample_ctx sample_bot Hd)
           "2024-01-02" microseconds_per_day "tomorrow" eq_refl eq_refl).
Defined.

Lemma rejected_window (parse : string -> Parse) (str_exn : exn -> string)
    (F : Formats) (now : datetime) (ctx : Context) (b : Bot) :
  delivers ctx ->
  cfg_end_date (bot_stats_config b) < cfg_start_date (bot_stats_config b) ->
  stats_command parse str_exn F now ctx None None b
  = (Ok tt,
     {| bot_stats_config := bot_stats_config b;
        bot_sent :=
          (bot_sent b ++ [Text "End date must be after start date."])%list;
        bot_exceptions := bot_exceptions b;
        bot_trace := bot_trace b |}).
Proof.
  intros Hd Hwin. pose proof Hd as [Htyping _].
  unfold stats_command, stats_command_body, read_date.
  rewrite Htyping. apply Z.ltb_lt in Hwin. rewrite Hwin.
  rewrite (send_delivers ctx _ _ Hd). reflexivity.
Qed.

(** X23. The window of the configuration is changed before it is
    validated, and the configuration outlives the command: after a command
    whose two dates parse to an end before the start, the inverted window
    stays stored, the reply is "End date must be after start date." and
    nothing is collected; a following command without arguments, in any
    context, is rejected in the same way. *)
Theorem rejected_window_is_kept (parse : string -> Parse)
    (str_exn : exn -> string) (F : Formats) (now now' : datetime)
    (ctx ctx' : Context) (b : Bot) (first second : string)
    (d1 d2 : datetime) :
  delivers ctx -> delivers ctx' ->
  parse first = Parsed d1 -> parse second = Parsed d2 -> d2 < d1 ->
  let rejected := Text "End date must be after start date." in
  let r1 :=
    stats_command parse str_exn F now ctx (Some first) (Some second) b in
  let r2 := stats_command parse str_exn F now' ctx' None None (snd r1) in
  r1 = (Ok tt,
        {| bot_stats_config := {| cfg_start_date := d1; cfg_end_date := d2 |};
           bot_sent := (bot_sent b ++ [rejected])%list;
           bot_exceptions := bot_exceptions b;
           bot_trace := bot_trace b |}) /\
  r2 = (Ok tt,
        {| bot_stats_config := {| cfg_start_date := d1; cfg_end_date := d2 |};
           bot_sent := ((bot_sent b ++ [rejected]) ++ [rejected])%list;
           bot_exceptions := bot_exceptions b;
           bot_trace := bot_trace b |}).
Proof.
  intros Hd Hd' H1 H2 Hlt. cbv zeta.
  assert (E1 : stats_command parse str_exn F now ctx (Some first)
                 (Some second) b
               = (Ok tt,
                  {| bot_stats_config :=
                       {| cfg_start_date := d1; cfg_end_date := d2 |};
                     bot_sent :=
                       (bot_sent b
                        ++ [Text "End date must be after start date."])%list;
                     bot_exceptions := bot_exceptions b;
                     bot_trace := bot_trace b |})).
  { pose proof Hd as [Htyping _].
    unfold stats_command, stats_command_body, read_date.
    rewrite Htyping, H1, H2.
    cbn [set_start_date set_end_date bot_stats_config cfg_start_date
         cfg_end_date].
    apply Z.ltb_lt in Hlt. rewrite Hlt.
    rewrite (send_delivers ctx _ _ Hd). reflexivity. }
  rewrite E1. split; [reflexivity|]. cbn [snd].
  rewrite (rejected_window parse str_exn F now' ctx' _ Hd'); [reflexivity|].
  exact Hlt.
Qed.

Lemma rejected_window_is_kept_witness :
  bot_sent
    (snd (stats_command sample_parse sample_str_exn plain_formats 0
            direct_message_ctx None None
            (snd (stats_command sample_parse sample_str_exn plain_formats 0
                    sample_ctx (Some "2024-01-02") (Some "2024-01-01")
                    sample_bot))))
  = [Text "End date must be after start date.";
     Text "End date must be after start date."].
Proof.
  assert (Hd : delivers sample_ctx) by (split; reflexivity).
  assert (Hd' : delivers direct_message_ctx) by (split; reflexivity).
  assert (Hlt : 0 < microseconds_per_day) by reflexivity.
  destruct (rejected_window_is_kept sample_parse sample_str_exn plain_formats
              0 0 sample_ctx direct_message_ctx sample_bot "2024-01-02"
              "2024-01-01" microseconds_per_day 0 Hd Hd' eq_refl eq_refl Hlt)
    as [_ ->].
  reflexivity.
Defined.

(** X24. With a valid stored window and no arguments, a failure of the
    collection is reported as text: outside a guild ([ctx.guild] is
    [None]) the command replies with the error text for [AttributeError],
    logs it and requests nothing; when [collect] raises on the context's
    guild, the reply is the error text for that exception, the exception
    is logged, and no embed is sent. The stored window is unchanged. *)
Theorem collection_error_is_reported (parse : string -> Parse)
    (str_exn : exn -> string) (F : Formats) (now : datetime) (ctx : Context)
    (b : Bot) :
  delivers ctx ->
  cfg_start_date (bot_stats_config b) <= cfg_end_date (bot_stats_config b) ->
  let r := stats_command parse str_exn F now ctx None None b in
  let error_text e :=
    Text ("An error occurred while fetching statistics: " ++ str_exn e)%string
  in
  (ctx_guild ctx = None ->
   r = (Ok tt,
        {| bot_stats_config := bot_stats_config b;
           bot_sent := (bot_sent b ++ [error_text AttributeError])%list;
           bot_exceptions := (bot_exceptions b ++ [AttributeError])%list;
           bot_trace := bot_trace b |})) /\
  (forall g e,
     ctx_guild ctx = Some g ->
     fst (collect g (cfg_start_date (bot_stats_config b))
            (cfg_end_date (bot_stats_config b)) (bot_trace b)) = Raise e ->
     fst r = Ok tt /\
     bot_sent (snd r) = (bot_sent b ++ [error_text e])%list /\
     bot_exceptions (snd r) = (bot_exceptions b ++ [e])%list /\
     bot_stats_config (snd r) = bot_stats_config b).
Proof.
  intros Hd Hwin. cbv zeta. pose proof Hd as [Htyping _].
  apply Z.ltb_ge in Hwin.
  unfold stats_command, stats_command_body, read_date.
  rewrite Htyping, Hwin. split.
  - intros Hg. rewrite Hg. cbn [collect_for].
    rewrite (send_delivers ctx _ _ Hd). reflexivity.
  - intros g e Hg Hc. rewrite Hg. cbn [collect_for].
    destruct (collect g (cfg_start_date (bot_stats_config b))
                (cfg_end_date (bot_stats_config b)) (bot_trace b))
      as [o w].
    cbn [fst] in Hc. subst o.
    rewrite (send_delivers ctx _ _ Hd). now repeat split.
Qed.

Lemma collection_error_is_reported_witness :
  bot_sent (snd (stats_command sample_parse sample_str_exn plain_formats 0
                   direct_message_ctx None None sample_bot))
  = [Text "An error occurred while fetching statistics: AttributeError"].
Proof.
  assert (Hd : delivers direct_message_ctx) by (split; reflexivity).
  assert (Hwin : cfg_start_date (bot_stats_config sample_bot)
                 <= cfg_end_date (bot_stats_config sample_bot))
    by (cbn; lia).
  rewrite (proj1 (collection_error_is_reported sample_parse sample_str_exn
                    plain_formats 0 direct_message_ctx sample_bot Hd Hwin)
             eq_refl).
  reflexivity.
Defined.
